(** * PRIME surrogate model: a shallow embedding of [prime.py]

    The development follows the layout of the source file:

    - [Py]: the Python values the code manipulates (dictionaries,
      exceptions);
    - [Tensor]: the TensorFlow operations used by the model, over the
      real numbers;
    - [Model]: [PRIMETransformerModel] ([call], [infer_negatives],
      [compute_loss], [perform_training], [measure_stats]);
    - [Data]: [PRIMEDataset] and [HardwareOptProblem], over integers
      and rationals.

    Floating-point tensors are idealised: a float32 tensor of the model
    is a list of reals, a float32 array of the dataset is a list of
    rationals extended with numpy's [nan] and [inf].  Rounding is not
    modelled. *)

From Stdlib Require Import List ZArith QArith Qminmax Reals Lra Lia.
From Stdlib Require Import String Ascii Bool.
Import ListNotations.

(* ================================================================== *)
(** * Python values *)

Module Py.

(** The exceptions the embedded code can raise. *)
Inductive exn : Type :=
| KeyError (key : string)
| AttributeError (attr : string)
| TypeError (msg : string)
| ValueError (msg : string)
| InvalidArgumentError (msg : string).

Inductive result (A : Type) : Type :=
| Ok (a : A)
| Raise (e : exn).
Arguments Ok {A} a.
Arguments Raise {A} e.

Definition is_ok {A} (r : result A) : bool :=
  match r with Ok _ => true | Raise _ => false end.

Definition rbind {A B} (r : result A) (k : A -> result B) : result B :=
  match r with Ok a => k a | Raise e => Raise e end.

(** A [dict] with string keys, in insertion order. *)
Definition dict (V : Type) : Type := list (string * V).

Fixpoint dict_get {V} (k : string) (d : dict V) : option V :=
  match d with
  | [] => None
  | (k', v) :: d' => if String.eqb k k' then Some v else dict_get k d'
  end.

(** [d[k] = v]: overwrite in place, or append a new key. *)
Fixpoint dict_set {V} (k : string) (v : V) (d : dict V) : dict V :=
  match d with
  | [] => [(k, v)]
  | (k', v') :: d' =>
      if String.eqb k k' then (k, v) :: d' else (k', v') :: dict_set k v d'
  end.

(** [k in d] *)
Definition dict_has {V} (k : string) (d : dict V) : bool :=
  match dict_get k d with Some _ => true | None => false end.

(** [d[k]], raising [KeyError] on a missing key. *)
Definition getitem {V} (d : dict V) (k : string) : result V :=
  match dict_get k d with Some v => Ok v | None => Raise (KeyError k) end.

(** [d.update(e)] *)
Definition dict_update {V} (d e : dict V) : dict V :=
  fold_left (fun acc kv => dict_set (fst kv) (snd kv) acc) e d.

End Py.

(* ================================================================== *)
(** * Tensor operations *)

Module Tensor.
Local Open Scope R_scope.

(** A rank-1 tensor; a [B x 1] column is kept as its [B] entries, so
    that [tf.squeeze] and [tf.expand_dims] are the identity. *)
Definition vec : Type := list R.
(** A rank-2 tensor [B x D], one row per example. *)
Definition tensor : Type := list vec.

Definition reduce_sum (v : vec) : R := fold_right Rplus 0 v.

(** [tf.reduce_mean]; on an empty tensor TensorFlow yields [nan],
    which the reals do not have. *)
Definition reduce_mean (v : vec) : R := reduce_sum v / INR (List.length v).

(** [tf.reduce_max], for a non-empty tensor. *)
Definition reduce_max (v : vec) : R := fold_right Rmax (hd 0 v) (tl v).

(** [tf.clip_by_value(t, lo, hi) = minimum(maximum(t, lo), hi)] *)
Definition clip_by_value (t lo hi : R) : R := Rmin (Rmax t lo) hi.

(** [tf.nn.softmax(logits, axis=-1)] on one row. *)
Definition softmax (logits : vec) : vec :=
  map (fun x => exp x / reduce_sum (map exp logits)) logits.

(** [tf.nn.log_softmax(logits, axis=-1)] on one row:
    [logits - log(reduce_sum(exp(logits)))]. *)
Definition log_softmax (logits : vec) : vec :=
  map (fun x => x - ln (reduce_sum (map exp logits))) logits.

(** Elementwise product of two rows of the same length. *)
Definition mul (a b : vec) : vec :=
  map (fun p => fst p * snd p) (combine a b).

(** [row + s * g], elementwise. *)
Definition axpy (s : R) (g row : vec) : vec :=
  map (fun p => fst p + s * snd p) (combine row g).

Definition ones_like (v : vec) : vec := map (fun _ => 1) v.

(** [tf.squeeze] of a [B x 1] tensor held in a batch dictionary. *)
Definition squeeze (t : tensor) : vec := List.concat t.

End Tensor.

(* ================================================================== *)
(** * The PRIME transformer model *)

Module Model.
Import Py Tensor.
Local Open Scope R_scope.
Local Open Scope string_scope.

(** The [inputs] argument of [call]: the design tensor alone, or the
    pair (design, context) of the contextual model. *)
Inductive model_inputs : Type :=
| Single (design : tensor)
| Pair (design context : tensor).

(** The attributes of [PRIMETransformerModel] that the methods below
    read.  The Keras sub-networks are functions on one example: every
    layer of the model (dense, attention over the fields of one
    example, layer normalisation, dropout) acts on each row of the
    batch separately.  Their [bool] argument is the [training] flag
    (it switches dropout on; the dropout mask of a training-mode pass
    is part of the function); [num_outputs] is 1.

    [input_gradient x c] is the gradient, with respect to the design
    row [x], of the inference-mode prediction for that row: the row
    that [tape.gradient(model_pred, log_probs)] holds for the example,
    since the prediction of an example depends on its own row only. *)
Record PRIMETransformerModel : Type := {
  contextual : bool;
  cql_alpha_value : R;
  negative_sampler : option (nat -> model_inputs);
  num_gradient_infer_steps : nat;
  opt_lr : R;
  infeasible_alpha : R;
  num_votes : nat;
  _base_network : bool -> vec -> option vec -> vec;
  _all_networks : nat -> bool -> vec -> R;
  voting_network : bool -> vec -> nat -> R;
  embedding_network : vec -> vec;
  input_gradient : vec -> option vec -> vec
}.

(** ** Loss helpers *)

Definition weighted_mse_loss (input target weight : vec) : R :=
  let mse_loss_val :=
    map (fun p => (fst p - snd p) ^ 2) (combine input target) in
  reduce_mean (mul mse_loss_val weight).

Definition weighted_approx_loss (input target weight : vec) : R :=
  let ratio_diff :=
    map (fun p => Rabs (fst p - snd p) / (Rabs (snd p) + 1 / 1000000))
        (combine input target) in
  reduce_mean (mul ratio_diff weight).

(** ** Forward pass *)

(** The examples of a batch: a design row with its context row. *)
Definition rows_of (self : PRIMETransformerModel) (inputs : model_inputs)
  : result (list (vec * option vec)) :=
  if contextual self then
    match inputs with
    | Pair d c => Ok (combine d (map Some c))
    | Single d =>
        Ok (map (fun r => (firstn 77 r, Some (skipn 77 r))) d)
    end
  else
    match inputs with
    | Single d => Ok (map (fun r => (r, None)) d)
    | Pair _ _ => Raise (ValueError "base network expects one input")
    end.

Definition transformer_embedding (self : PRIMETransformerModel)
    (training : bool) (row : vec * option vec) : vec :=
  _base_network self training (fst row) (snd row).

(** The outputs of the experts, concatenated: [num_votes] entries. *)
Definition all_outputs (self : PRIMETransformerModel)
    (training : bool) (row : vec * option vec) : vec :=
  map (fun idx =>
         _all_networks self idx training
                       (transformer_embedding self training row))
      (seq 0 (num_votes self)).

Definition vote_logit (self : PRIMETransformerModel)
    (training : bool) (row : vec * option vec) : vec :=
  let emb := transformer_embedding self training row in
  let vote_input :=
    if contextual self then
      (emb ++ embedding_network self
                (match snd row with Some c => c | None => [] end))%list
    else emb in
  map (voting_network self training vote_input) (seq 0 (num_votes self)).

Definition vote_prob (self : PRIMETransformerModel)
    (training : bool) (row : vec * option vec) : vec :=
  softmax (vote_logit self training row).

(** One entry of the tensor the source names [vote_entropy]. *)
Definition vote_entropy (self : PRIMETransformerModel)
    (training : bool) (row : vec * option vec) : R :=
  reduce_sum (mul (log_softmax (vote_logit self training row))
                  (vote_prob self training row)).

Definition fwd_model_pred (self : PRIMETransformerModel)
    (training : bool) (row : vec * option vec) : R :=
  reduce_sum (mul (vote_prob self training row)
                  (all_outputs self training row)).

(** [call(inputs, training, with_logging)]: the predictions, one per
    example, and [extra_dict] (dropped by the callers that pass
    [with_logging=False]). *)
Definition call (self : PRIMETransformerModel) (inputs : model_inputs)
    (training : bool) : result (vec * dict R) :=
  rbind (rows_of self inputs) (fun rows =>
    let extra_dict :=
      dict_set "vote_entropy"
               (reduce_mean (map (vote_entropy self training) rows)) [] in
    Ok (map (fwd_model_pred self training) rows, extra_dict)).

(** ** Forward passes as an effect

    A computation that may raise and that records every forward pass
    it runs: which call site, on which inputs, with which [training]
    flag. *)

Inductive site : Type :=
| CallData        (* compute_loss, on data_batch['design'] *)
| CallNegatives   (* compute_loss, on the negatives batch *)
| CallInvalid     (* compute_loss, on data_batch['invalid/design'] *)
| CallInfer.      (* infer_negatives, inside the ascent loop *)

Record call_event : Type := {
  ev_site : site;
  ev_inputs : model_inputs;
  ev_training : bool
}.

Definition M (A : Type) : Type :=
  list call_event -> result A * list call_event.

Definition ret {A} (a : A) : M A := fun tr => (Ok a, tr).

Definition bind {A B} (m : M A) (k : A -> M B) : M B :=
  fun tr =>
    match m tr with
    | (Ok a, tr') => k a tr'
    | (Raise e, tr') => (Raise e, tr')
    end.

Definition lift {A} (r : result A) : M A := fun tr => (r, tr).

Notation "x <- m ;; k" := (bind m (fun x => k))
  (at level 61, m at next level, right associativity).
Notation "' pat <- m ;; k" :=
  (bind m (fun x => match x with pat => k end))
  (at level 61, pat pattern, m at next level, right associativity).

Definition forward (s : site) (self : PRIMETransformerModel)
    (inputs : model_inputs) (training : bool) : M (vec * dict R) :=
  fun tr =>
    (call self inputs training,
     (tr ++ [ {| ev_site := s; ev_inputs := inputs;
                 ev_training := training |} ])%list).

Definition run {A} (m : M A) : result A * list call_event := m [].

(** ** Negative-sample generator *)

(** [grad[0]]: the first row of the gradient tensor. *)
Definition first_row (grad : tensor) : result vec :=
  match grad with
  | g :: _ => Ok g
  | [] => Raise (InvalidArgumentError "slice index 0 out of bounds")
  end.

(** The body of [for _ in range(self.num_gradient_infer_steps)]. *)
Fixpoint infer_loop (self : PRIMETransformerModel)
    (contexts : option tensor) (steps : nat) (log_probs : tensor)
  : M tensor :=
  match steps with
  | O => ret log_probs
  | S steps' =>
      let inputs :=
        match contexts with
        | Some c => Pair log_probs c
        | None => Single log_probs
        end in
      _ <- forward CallInfer self inputs false ;;
      rows <- lift (rows_of self inputs) ;;
      let grad :=
        map (fun row => input_gradient self (fst row) (snd row)) rows in
      g0 <- lift (first_row grad) ;;
      infer_loop self contexts steps'
                 (map (axpy (opt_lr self) g0) log_probs)
  end.

Definition infer_negatives (self : PRIMETransformerModel)
    (batch : dict tensor) : M (dict tensor) :=
  log_probs <- lift (getitem batch "design") ;;
  contexts <-
    (if contextual self
     then c <- lift (getitem batch "context_id") ;; ret (Some c)
     else ret None) ;;
  log_probs' <- infer_loop self contexts
                           (num_gradient_infer_steps self) log_probs ;;
  let temp_batch := dict_set "design" log_probs' [] in
  if dict_has "context_id" batch && contextual self then
    c <- lift (getitem batch "context_id") ;;
    ret (dict_set "context_id" c temp_batch)
  else ret temp_batch.

(** ** Training objective *)

(** [inp_batch_type is not 'valid'].  The argument is [None] or a
    string; the identity test is read as string equality, which it is
    for [None] and for the literal ['valid'] that the callers of the
    repository pass (an equal string built at run time would not be
    identical to the literal). *)
Definition is_not_valid (inp_batch_type : option string) : bool :=
  match inp_batch_type with
  | Some s => negb (String.eqb s "valid")
  | None => true
  end.

(** [tf.sign] *)
Definition sign (x : R) : R :=
  if Rlt_dec 0 x then 1 else if Rlt_dec x 0 then -1 else 0.

(** [tf.nn.sigmoid_cross_entropy_with_logits(labels, logits)]:
    [max(x, 0) - x * z + log(1 + exp(-abs(x)))]. *)
Definition sigmoid_cross_entropy_with_logits (labels logits : R) : R :=
  Rmax logits 0 - logits * labels + ln (1 + exp (- Rabs logits)).

(** [v - transpose(v)] for a [B x 1] column: the [B x B] differences
    [v_i - v_j], row by row. *)
Definition pairwise_diff (v : vec) : vec :=
  flat_map (fun a => map (fun b => a - b) v) v.

Section Ranking.

(** [ranking_loss] rests on [tf.argsort], whose order on ties is not
    fixed, and which rejects a scalar: on a batch of one example the
    squeezed tensors are scalars and [ranking_loss] raises.  The
    branches of [ranking_trainable_loss] and [kendall_correlation]
    that take a context rest on [tf.unique] and [tf.where].  These
    three are kept abstract; [ranking_loss] may raise. *)
Variable ranking_loss : vec -> vec -> option tensor -> result R.
Variables ranking_trainable_loss_context kendall_correlation_context
  : vec -> vec -> tensor -> R.

Definition ranking_trainable_loss (input target : vec)
    (context : option tensor) : R :=
  match context with
  | Some c => ranking_trainable_loss_context input target c
  | None =>
      let diff_true := pairwise_diff input in
      let diff_pred := pairwise_diff target in
      let product :=
        map (fun p => sign (fst p) * snd p) (combine diff_true diff_pred) in
      reduce_mean (map (sigmoid_cross_entropy_with_logits 1) product)
  end.

Definition kendall_correlation (input target : vec)
    (context : option tensor) : R :=
  match context with
  | Some c => kendall_correlation_context input target c
  | None =>
      let diff_true := pairwise_diff input in
      let diff_pred := pairwise_diff target in
      let product :=
        map (fun p => sign (fst p) * sign (snd p))
            (combine diff_true diff_pred) in
      let positive_pairs :=
        map (fun x => if Rle_dec 0 x then 1 else 0) product in
      let n := INR (List.length input) in
      let total_positive := reduce_sum positive_pairs - n in
      let ratio := total_positive / (n * (n - 1)) in
      2 * ratio - 1
  end.

(** Lines 624-639: the raw predictions on the negatives batch. *)
Definition negatives_pass (self : PRIMETransformerModel)
    (data_batch : dict tensor) (training : bool) : M vec :=
  match negative_sampler self with
  | Some sampler =>
      let negatives_batch := sampler 2%nat in
      '(negatives_pred, _) <-
        forward CallNegatives self negatives_batch training ;;
      ret negatives_pred
  | None =>
      negatives_batch <- infer_negatives self data_batch ;;
      if contextual self then
        d <- lift (getitem negatives_batch "design") ;;
        c <- lift (getitem negatives_batch "context_id") ;;
        '(negatives_pred, _) <-
          forward CallNegatives self (Pair d c) training ;;
        ret negatives_pred
      else
        d <- lift (getitem negatives_batch "design") ;;
        '(negatives_pred, _) <-
          forward CallNegatives self (Single d) true ;;
        ret negatives_pred
  end.

(** Lines 690-720: the part guarded by
    [if inp_batch_type is not 'valid']. *)
Definition invalid_pass (self : PRIMETransformerModel)
    (data_batch : dict tensor) (training : bool)
    (objective : vec) (mse_loss : R)
    (loss_dict : dict R) (train_loss : R) : M (dict R * R) :=
  let weights_negatives := ones_like objective in
  invalid_design <- lift (getitem data_batch "invalid/design") ;;
  '(model_pred_invalid, invalid_dict) <-
    (if contextual self then
       c <- lift (getitem data_batch "context_id") ;;
       forward CallInvalid self (Pair invalid_design c) training
     else forward CallInvalid self (Single invalid_design) training) ;;
  let loss_dict :=
    fold_left (fun acc kv => dict_set ("invalid/" ++ fst kv) (snd kv) acc)
              invalid_dict loss_dict in
  let y_value_infeasible :=
    clip_by_value (reduce_mean model_pred_invalid) (-1000) 1000000 in
  let loss_dict := dict_set "y_value_infeasible" y_value_infeasible
                            loss_dict in
  let train_loss :=
    train_loss + infeasible_alpha self * y_value_infeasible in
  invalid_objective <- lift (getitem data_batch "invalid/objective") ;;
  let mse_loss_invalid :=
    weighted_mse_loss model_pred_invalid (squeeze invalid_objective)
                      weights_negatives in
  let avg_approx_loss_invalid :=
    weighted_approx_loss model_pred_invalid (squeeze invalid_objective)
                         weights_negatives in
  let mse_loss := mse_loss + mse_loss_invalid in
  let loss_dict := dict_set "mse_loss_invalid" mse_loss_invalid
                            loss_dict in
  let loss_dict := dict_set "mse_loss_overall" mse_loss loss_dict in
  let loss_dict := dict_set "avg_approx_loss_invalid"
                            avg_approx_loss_invalid loss_dict in
  ret (loss_dict, train_loss).

Definition compute_loss (self : PRIMETransformerModel)
    (data_batch : dict tensor) (loss_type : string) (training : bool)
    (ranking_penalty_weight : R) (inp_batch_type : option string)
  : M (dict R * R) :=
  objective_t <- lift (getitem data_batch "objective") ;;
  let objective := squeeze objective_t in
  let loss_dict := dict_set "y_values_max" (reduce_max objective) [] in
  let loss_dict := dict_set "y_values_mean" (reduce_mean objective)
                            loss_dict in
  let weights := ones_like objective in
  design <- lift (getitem data_batch "design") ;;
  '(model_pred, extra_dict) <-
    (if contextual self then
       c <- lift (getitem data_batch "context_id") ;;
       forward CallData self (Pair design c) training
     else forward CallData self (Single design) training) ;;
  let loss_dict := dict_update loss_dict extra_dict in
  negatives_pred <- negatives_pass self data_batch training ;;
  let negatives_pred :=
    map (fun p => clip_by_value p (-4000) 4000) negatives_pred in
  let cql_loss := reduce_mean negatives_pred in
  let cql_loss := clip_by_value cql_loss (-4000) 1000000 in
  let loss_dict := dict_set "negatives_dist" (reduce_mean negatives_pred)
                            loss_dict in
  let mse_loss := weighted_mse_loss model_pred objective weights in
  avg_ranking_train_loss <-
    (if String.eqb loss_type "mse+rank" then
       if contextual self then
         raw <- lift (getitem data_batch "raw_context") ;;
         ret (ranking_trainable_loss model_pred objective (Some raw))
       else ret (ranking_trainable_loss model_pred objective None)
     else ret 0) ;;
  let avg_approx_loss :=
    weighted_approx_loss model_pred objective weights in
  passed_context <-
    (if contextual self
     then raw <- lift (getitem data_batch "raw_context") ;; ret (Some raw)
     else ret None) ;;
  avg_ranking_loss <-
    lift (ranking_loss model_pred objective passed_context) ;;
  let avg_kendall_loss :=
    kendall_correlation model_pred objective passed_context in
  let train_loss := mse_loss in
  let loss_dict := dict_set "mse_loss" mse_loss loss_dict in
  let loss_dict := dict_set "avg_approx_loss" avg_approx_loss loss_dict in
  let loss_dict := dict_set "avg_ranking_loss" avg_ranking_loss
                            loss_dict in
  let loss_dict := dict_set "avg_ranking_train_loss"
                            avg_ranking_train_loss loss_dict in
  let loss_dict := dict_set "avg_kendall_loss" avg_kendall_loss
                            loss_dict in
  let loss_dict := dict_set "cql_loss" cql_loss loss_dict in
  let loss_dict := dict_set "negatives_pred" (reduce_mean negatives_pred)
                            loss_dict in
  let loss_dict := dict_set "model_pred_average" (reduce_mean model_pred)
                            loss_dict in
  let train_loss :=
    train_loss + ranking_penalty_weight * avg_ranking_train_loss in
  let train_loss := train_loss + cql_alpha_value self * cql_loss in
  if is_not_valid inp_batch_type then
    invalid_pass self data_batch training objective mse_loss
                 loss_dict train_loss
  else ret (loss_dict, train_loss).

(** [perform_training]: the loss is computed with [training=True]
    and without [inp_batch_type]; the optimizer step that follows
    changes the weights of the networks and not the value
    returned. *)
Definition perform_training (self : PRIMETransformerModel)
    (batch : dict tensor) (loss_type : string)
    (ranking_penalty_weight : R) : M (dict R) :=
  '(loss_dict, loss_train) <-
    compute_loss self batch loss_type true ranking_penalty_weight None ;;
  ret loss_dict.

Definition measure_stats (self : PRIMETransformerModel)
    (batch : dict tensor) (batch_type : option string) : M (dict R) :=
  '(loss_dict, _) <-
    compute_loss self batch "mse+rank" false 0 batch_type ;;
  ret loss_dict.

End Ranking.

End Model.

(* ================================================================== *)
(** * The dataset and the optimisation problem *)

Module Data.
Import Py.
Local Open Scope Q_scope.
Local Open Scope string_scope.

(** Default area constraint for the models we train. *)
Definition AREA_THRESHOLD : Q := 27.

(** ** numpy floats *)

(** A float of a numpy array: a rational, an infinity or [nan]. *)
Inductive np_float : Type :=
| Finite (q : Q)
| PosInf
| NegInf
| NaN.

(** Array division [x / s]; a zero divisor gives [nan] or an infinity
    (with a warning), never an exception. *)
Definition np_div (x s : Q) : np_float :=
  if Qeq_bool s 0 then
    if Qeq_bool x 0 then NaN
    else if Qle_bool 0 x then PosInf else NegInf
  else Finite (x / s).

Definition np_add (a b : np_float) : np_float :=
  match a, b with
  | NaN, _ | _, NaN => NaN
  | PosInf, NegInf | NegInf, PosInf => NaN
  | PosInf, _ | _, PosInf => PosInf
  | NegInf, _ | _, NegInf => NegInf
  | Finite x, Finite y => Finite (x + y)
  end.

Definition np_sum (p : list np_float) : np_float :=
  fold_right np_add (Finite 0) p.

Definition np_is_negative (a : np_float) : bool :=
  match a with
  | Finite q => negb (Qle_bool 0 q)
  | NegInf => true
  | PosInf | NaN => false
  end.

Definition np_is_positive (a : np_float) : bool :=
  match a with
  | Finite q => negb (Qle_bool q 0)
  | PosInf => true
  | NegInf | NaN => false
  end.

Definition Qsum (l : list Q) : Q := fold_right Qplus 0 l.

(** [np.clip(x, a_min, a_max)] *)
Definition np_clip (x a_min a_max : Q) : Q := Qmin (Qmax x a_min) a_max.

(** ** int32 tensors *)

Definition wrap32 (z : Z) : Z :=
  ((z + 2147483648) mod 4294967296 - 2147483648)%Z.

(** Conversion of a number to [tf.int32]: the fraction is dropped
    (rounding toward zero).  A value within the int32 range is kept;
    outside it the result depends on the platform, and is wrapped
    here. *)
Definition to_int32 (q : Q) : Z :=
  wrap32 (Z.quot (Qnum q) (Zpos (Qden q))).

(** ** Configuration *)

(** One line of the configuration,
    [data_type:name:dtype:flag:v1,v2,...], split at the colons with
    the trailing list read as integers: the data type, the field
    name and the value range. *)
Definition config_line : Type := (string * string * list Z)%type.

Record ind_field : Type := {
  data_type : string;
  value_range : list Z;
  (* zip(value_range, arange(len(value_range))) *)
  mapping_one_hot_to_value : list (Z * nat);
  ctr : nat
}.

(** [dict(pairs)[x]]: the last pair with key [x] wins. *)
Fixpoint design_space_map (pairs : list (Z * nat)) (x : Z) : option nat :=
  match pairs with
  | [] => None
  | (v, i) :: rest =>
      match design_space_map rest x with
      | Some j => Some j
      | None => if Z.eqb v x then Some i else None
      end
  end.

Definition _active_training_keys : list string :=
  ["param_1"; "param_2"; "param_3"; "param_4"; "param_5";
   "param_6"; "param_7"; "param_8"; "param_9"; "param_10"].

Definition _eval_metric_keys : list string := ["area"; "runtime"; "score"].
Definition _validity_keys : list string := ["infeasible"].

(** The loop over the lines of the configuration: the design space,
    keyed by field name, and the segment lengths, indexed by [ctr]. *)
Fixpoint load_lines (lines : list config_line) (ctr : nat)
    (space : dict ind_field) (lengths : list nat)
  : dict ind_field * list nat :=
  match lines with
  | [] => (space, lengths)
  | (dt, name, range) :: rest =>
      let ind := {| data_type := dt;
                    value_range := range;
                    mapping_one_hot_to_value :=
                      combine range (seq 0 (List.length range));
                    ctr := ctr |} in
      load_lines rest (S ctr) (dict_set name ind space)
                 (lengths ++ [List.length range])%list
  end.

(** [self._segment_lengths[self._design_space_dict[key]['ctr']]] *)
Definition segment_length (space : dict ind_field) (lengths : list nat)
    (key : string) : result nat :=
  rbind (getitem space key) (fun ind =>
    match nth_error lengths (ctr ind) with
    | Some n => Ok n
    | None => Raise (KeyError "ctr")
    end).

Fixpoint mapM {A B} (f : A -> result B) (l : list A) : result (list B) :=
  match l with
  | [] => Ok []
  | a :: l' =>
      rbind (f a) (fun b => rbind (mapM f l') (fun bs => Ok (b :: bs)))
  end.

(** ** Records and columns *)

(** A raw record: the value of each of its keys (a float32 or int64
    scalar). *)
Definition record : Type := dict Q.

(** [tf_dataset[key]] after the loading loop: the values of the
    records that have the key, in order. *)
Fixpoint column (key : string) (parsed_dataset : list record) : list Q :=
  match parsed_dataset with
  | [] => []
  | p :: rest =>
      match dict_get key p with
      | Some v => v :: column key rest
      | None => column key rest
      end
  end.

(** The tensors of [self._tf_dataset].  Every key of the source is
    converted with [tf.convert_to_tensor(..., tf.int32)] and
    [tf.cast(..., tf.int32)]; [score] is then replaced by a float32
    tensor in [get_score_function].  (The ['argsort'] index, used by
    [get_top_batch] alone, is left out.) *)
Record tf_dataset : Type := {
  params : dict (list Z);
  area : list Z;
  runtime : list Z;
  score : list Q;
  infeasible : list Z
}.

Record PRIMEDataset : Type := {
  _config : list config_line;
  data_dict : list record;
  _design_space_dict : dict ind_field;
  _segment_lengths : list nat;
  split_lengths : list nat;
  _tf_dataset : tf_dataset;
  _infeasible_np : list Q;
  _top : nat
}.

(** The one-hot index of every value of a training column. *)
Definition convert_param (space : dict ind_field) (parsed : list record)
    (key : string) : result (string * list Z) :=
  rbind (getitem space key) (fun ind =>
    (* the later casts of this int32 tensor to int32 change nothing *)
    let data_val := map to_int32 (column key parsed) in
    rbind (mapM (fun x =>
                   match design_space_map (mapping_one_hot_to_value ind) x
                   with
                   | Some i => Ok (Z.of_nat i)
                   | None => Raise (KeyError key)
                   end) data_val)
          (fun out_vals => Ok (key, out_vals))).

(** [_convert_to_tf_dataset]: every column goes through the int32
    conversion; the training columns are then replaced by one-hot
    indices. *)
Definition _convert_to_tf_dataset (space : dict ind_field)
    (parsed_dataset : list record) : result tf_dataset :=
  let int32_column key := map to_int32 (column key parsed_dataset) in
  rbind (mapM (convert_param space parsed_dataset) _active_training_keys)
        (fun cols =>
           Ok {| params := cols;
                 area := int32_column "area";
                 runtime := int32_column "runtime";
                 score := map inject_Z (int32_column "score");
                 infeasible := int32_column "infeasible" |}).

(** [get_score_function]: [scores = -runtime] on the int32 array read
    back from [self._tf_dataset['runtime']], stored as float32.  The
    statistics printed next start with [scores.max()], which numpy
    refuses on an array without entries. *)
Definition get_score_function (tf : tf_dataset) : result tf_dataset :=
  let scores := map (fun r => wrap32 (- r)) (runtime tf) in
  match scores with
  | [] =>
      Raise (ValueError "zero-size array to reduction operation maximum")
  | _ :: _ =>
      Ok {| params := params tf;
            area := area tf;
            runtime := runtime tf;
            score := map inject_Z scores;
            infeasible := infeasible tf |}
  end.

(** [load_or_refresh_config], on the lines of the configuration. *)
Definition load_or_refresh_config (config : list config_line)
  : result (dict ind_field * list nat * list nat) :=
  let '(space, lengths) := load_lines config 0 [] [] in
  rbind (mapM (segment_length space lengths) _active_training_keys)
        (fun split_lengths => Ok (space, lengths, split_lengths)).

(** [PRIMEDataset(config, data_dict)], with [data_dict] given: the
    constructor runs [_setup_dataset]. *)
Definition PRIMEDataset_init (config : list config_line)
    (data_dict : list record) : result PRIMEDataset :=
  rbind (load_or_refresh_config config) (fun '(space, lengths, splits) =>
  rbind (_convert_to_tf_dataset space data_dict) (fun tf =>
    let infeasible_np := map inject_Z (infeasible tf) in
  rbind (get_score_function tf) (fun tf_with_score =>
    Ok {| _config := config;
          data_dict := data_dict;
          _design_space_dict := space;
          _segment_lengths := lengths;
          split_lengths := splits;
          _tf_dataset := tf_with_score;
          _infeasible_np := infeasible_np;
          _top := List.length infeasible_np |}))).

(** [tensor <= y] for an int32 tensor and a Python float, as in
    [self._tf_dataset['area'] <= AREA_THRESHOLD]: TensorFlow converts
    the float to the dtype of the tensor, and refuses to turn a float
    into an int32, whatever the values are. *)
Definition int32_tensor_le_float (tensor : list Z) (y : Q)
  : result (list bool) :=
  Raise (TypeError "Cannot convert 27.0 to EagerTensor of dtype int32").

(** The array [feasible] of [get_feasible_probs] and of
    [valid_invalid_data_size].  The stored area is an int32 tensor
    (every column is converted to int32 on loading), so the branch of
    the area constraint stops at the comparison. *)
Definition feasible_array (self : PRIMEDataset)
    (add_area_constraints : bool) : result (list Q) :=
  let feasible := map (fun i => 1 - i) (_infeasible_np self) in
  if add_area_constraints then
    rbind (int32_tensor_le_float (area (_tf_dataset self)) AREA_THRESHOLD)
          (fun within =>
       let feasible_area :=
         map (fun b : bool => if b then 1 else 0) within in
       Ok (map (fun p => np_clip (fst p + snd p - 1) 0 1)
               (combine feasible feasible_area)))
  else Ok feasible.

Definition get_feasible_probs (self : PRIMEDataset)
    (add_area_constraints : bool)
  : result (list np_float * list np_float) :=
  rbind (feasible_array self add_area_constraints) (fun feasible =>
    let probs := map (fun f => np_div f (Qsum feasible)) feasible in
    let not_feasible := map (fun f => 1 - f) feasible in
    let infeasible_probs :=
      map (fun f => np_div f (Qsum not_feasible)) not_feasible in
    Ok (probs, infeasible_probs)).

(** [tf.gather(column, indices)] *)
Definition gather {A} (col : list A) (indices : list nat)
  : result (list A) :=
  mapM (fun i => match nth_error col i with
                 | Some v => Ok v
                 | None => Raise (InvalidArgumentError "index out of range")
                 end) indices.

(** [tf.one_hot(i, depth)]; an index outside [0, depth) gives zeros. *)
Definition one_hot (depth : nat) (i : Z) : list Q :=
  map (fun j => if Z.eqb (Z.of_nat j) i then 1 else 0) (seq 0 depth).

(** [_get_batch]: the one-hot design rows and the score column. *)
Definition _get_batch (self : PRIMEDataset) (indices : list nat)
  : result (list (list Q) * list (list Q)) :=
  rbind (mapM (fun key =>
           rbind (getitem (params (_tf_dataset self)) key) (fun col =>
           rbind (gather col indices) (fun vals =>
           rbind (segment_length (_design_space_dict self)
                                 (_segment_lengths self) key)
                 (fun depth => Ok (map (one_hot depth) vals)))))
              _active_training_keys) (fun all_train_elements =>
  rbind (gather (score (_tf_dataset self)) indices) (fun scores =>
    Ok (map (fun b => flat_map (fun t => nth b t []) all_train_elements)
            (seq 0 (List.length indices)),
        map (fun y => [y]) scores))).

(** ** The optimisation problem *)

(** The values stored in [params_dict]. *)
Inductive pyval : Type :=
| PyInt (z : Z)
| PyBool (b : bool)
| PyStr (s : string).

Definition truthy (v : pyval) : bool :=
  match v with
  | PyInt z => negb (Z.eqb z 0)
  | PyBool b => b
  | PyStr s => negb (String.eqb s "")
  end.

Definition is_str (v : pyval) (s : string) : bool :=
  match v with PyStr s' => String.eqb s' s | _ => false end.

(** The attributes of [HardwareOptProblem].  [_batch_size] is [None]
    when the attribute was never assigned. *)
Record HardwareOptProblem : Type := {
  batch_size : Z;
  _batch_size : option pyval;
  _batch_type : pyval;
  _add_area_constraints : pyval;
  dataset : PRIMEDataset;
  feasible_probs : list np_float;
  infeasible_probs : list np_float
}.

Definition HardwareOptProblem_init (config : list config_line)
    (data_file : list record) (params_dict : option (dict pyval))
  : result HardwareOptProblem :=
  match params_dict with
  | None => Raise (TypeError "argument of type 'NoneType' is not iterable")
  | Some params_dict =>
      let batch_size := 256%Z in
      let _batch_size := dict_get "batch_size" params_dict in
      let _batch_type :=
        match dict_get "batch_type" params_dict with
        | Some v => v
        | None => PyStr "valid"
        end in
      let _add_area_constraints :=
        match dict_get "add_area_constraints" params_dict with
        | Some v => v
        | None => PyBool false
        end in
      rbind (PRIMEDataset_init config data_file) (fun dataset =>
      rbind (get_feasible_probs dataset (truthy _add_area_constraints))
            (fun '(feasible_probs, infeasible_probs) =>
        Ok {| batch_size := batch_size;
              _batch_size := _batch_size;
              _batch_type := _batch_type;
              _add_area_constraints := _add_area_constraints;
              dataset := dataset;
              feasible_probs := feasible_probs;
              infeasible_probs := infeasible_probs |}))
  end.

(** Reading [self._batch_size]. *)
Definition get_batch_size_attr (self : HardwareOptProblem) : result pyval :=
  match _batch_size self with
  | Some v => Ok v
  | None => Raise (AttributeError "_batch_size")
  end.

(** The [size] argument of numpy's samplers. *)
Definition as_size (v : pyval) : result nat :=
  match v with
  | PyInt z =>
      if Z.ltb z 0 then Raise (ValueError "negative dimensions")
      else Ok (Z.to_nat z)
  | PyBool b => Ok (if b then 1%nat else 0%nat)
  | PyStr _ => Raise (TypeError "size must be an integer")
  end.

(** [np.random.choice(np.arange(0, pop_size), size, p)].  The checks
    are numpy's; a draw is the [rng]-chosen element among the indices
    of positive probability. *)
Definition np_random_choice (rng : nat -> nat) (pop_size : nat)
    (size : pyval) (p : list np_float) : result (list nat) :=
  rbind (as_size size) (fun n =>
    if Nat.eqb pop_size 0 && negb (Nat.eqb n 0) then
      Raise (ValueError "'a' cannot be empty unless no samples are taken")
    else if negb (Nat.eqb (List.length p) pop_size) then
      Raise (ValueError "'a' and 'p' must have same size")
    else
      match np_sum p with
      | NaN => Raise (ValueError "probabilities contain NaN")
      | p_sum =>
          if existsb np_is_negative p then
            Raise (ValueError "probabilities are not non-negative")
          else
            match p_sum with
            | Finite s =>
                if Qeq_bool s 1 then
                  let support :=
                    filter (fun i => np_is_positive (nth i p NaN))
                           (seq 0 pop_size) in
                  Ok (map (fun k =>
                             nth (rng k mod List.length support) support 0%nat)
                          (seq 0 n))
                else Raise (ValueError "probabilities do not sum to 1")
            | _ => Raise (ValueError "probabilities do not sum to 1")
            end
      end).

Definition batch : Type := dict (list (list Q)).

Definition get_valid_only_batch (self : HardwareOptProblem)
    (rng : nat -> nat) : result batch :=
  rbind (get_batch_size_attr self) (fun size =>
  rbind (np_random_choice rng (_top (dataset self)) size
                          (feasible_probs self)) (fun indices =>
  rbind (_get_batch (dataset self) indices) (fun '(batch_x, batch_y) =>
    Ok (dict_set "objective" batch_y (dict_set "design" batch_x []))))).

Definition get_mixed_batch (self : HardwareOptProblem)
    (rng : nat -> nat) : result batch :=
  rbind (get_batch_size_attr self) (fun size =>
  rbind (np_random_choice rng (_top (dataset self)) size
                          (feasible_probs self)) (fun valid_indices =>
  rbind (np_random_choice
           (fun k => rng (k + List.length valid_indices)%nat)
           (_top (dataset self)) size
           (infeasible_probs self)) (fun invalid_indices =>
  rbind (_get_batch (dataset self) valid_indices)
        (fun '(batch_x, batch_y) =>
  rbind (_get_batch (dataset self) invalid_indices)
        (fun '(batch_x_in, batch_y_in) =>
    Ok (dict_set "invalid/objective" batch_y_in
       (dict_set "invalid/design" batch_x_in
       (dict_set "objective" batch_y
       (dict_set "design" batch_x []))))))))).

(** [np.random.randint(1, top, size)] *)
Definition np_random_randint (rng : nat -> nat) (low high : nat)
    (size : pyval) : result (list nat) :=
  rbind (as_size size) (fun n =>
    if Nat.leb high low then Raise (ValueError "low >= high")
    else Ok (map (fun k => (low + rng k mod (high - low))%nat) (seq 0 n))).

Definition get_all_batch (self : HardwareOptProblem)
    (rng : nat -> nat) : result batch :=
  rbind (get_batch_size_attr self) (fun size =>
  rbind (np_random_randint rng 1 (_top (dataset self)) size)
        (fun indices =>
  rbind (_get_batch (dataset self) indices) (fun '(batch_x, batch_y) =>
    Ok (dict_set "objective" batch_y (dict_set "design" batch_x []))))).

(** [self.get_training_batch()], as chosen by the constructor. *)
Definition get_training_batch (self : HardwareOptProblem)
    (rng : nat -> nat) : result batch :=
  if is_str (_batch_type self) "valid" then get_valid_only_batch self rng
  else if is_str (_batch_type self) "mixed" then get_mixed_batch self rng
  else get_all_batch self rng.

End Data.

(* ================================================================== *)
(** * Notions of the specification *)

Module Spec.
Import Py Tensor Model.
Local Open Scope R_scope.

(** Dot product of two rows. *)
Definition dot (a b : vec) : R :=
  fold_right Rplus 0 (map (fun p => fst p * snd p) (combine a b)).

(** Shannon entropy of a distribution: [- sum_i p_i log p_i]. *)
Definition entropy (p : vec) : R :=
  - fold_right Rplus 0 (map (fun x => x * ln x) p).

(** One step of per-example gradient ascent on the relaxed input:
    every row moves along the gradient of its own prediction. *)
Definition ascent_step (self : PRIMETransformerModel)
    (rows : list (vec * option vec)) : tensor :=
  map (fun row =>
         axpy (opt_lr self) (input_gradient self (fst row) (snd row))
              (fst row))
      rows.

(** The [training] flag of the forward pass on the negatives batch
    (lines 624-639). *)
Definition negatives_training (self : PRIMETransformerModel)
    (training : bool) : bool :=
  match negative_sampler self with
  | Some _ => training
  | None => if contextual self then training else true
  end.

(** What a forward pass recorded during
    [compute_loss(..., training, inp_batch_type)] may look like. *)
Definition pass_ok (self : PRIMETransformerModel) (training : bool)
    (inp_batch_type : option string) (ev : call_event) : Prop :=
  match ev_site ev with
  | CallData => ev_training ev = training
  | CallNegatives => ev_training ev = negatives_training self training
  | CallInvalid =>
      ev_training ev = training /\ is_not_valid inp_batch_type = true
  | CallInfer => ev_training ev = false
  end.

(** A forward pass of the ascent loop of [infer_negatives]. *)
Definition infer_pass (ev : call_event) : Prop :=
  ev_site ev = CallInfer /\ ev_training ev = false.

(** [m] only appends forward passes to the trace, and each of them
    satisfies [P]; this holds whether [m] returns or raises. *)
Definition emits {A} (P : call_event -> Prop) (m : M A) : Prop :=
  forall tr, exists evs, snd (m tr) = (tr ++ evs)%list /\ Forall P evs.

End Spec.

(* ================================================================== *)
(** * Example inputs *)

Module Examples.
Import Py Tensor Model.
Local Open Scope R_scope.
Local Open Scope string_scope.

(** A non-contextual model with two experts.  The base network is the
    identity; expert [idx] returns the sum of the embedding plus
    [idx]; the voting logits are all zero, so both experts get the
    same vote. *)
Definition two_experts : PRIMETransformerModel := {|
  contextual := false;
  cql_alpha_value := 1;
  negative_sampler := None;
  num_gradient_infer_steps := 1;
  opt_lr := 1;
  infeasible_alpha := 1;
  num_votes := 2;
  _base_network := fun _ x _ => x;
  _all_networks := fun idx _ emb => reduce_sum emb + INR idx;
  voting_network := fun _ _ _ => 0;
  embedding_network := fun c => c;
  input_gradient := fun x _ => map (fun _ => 1) x
|}.

(** A non-contextual model with one expert that predicts half the
    squared norm of the design row; the gradient of the prediction
    with respect to the row is the row itself. *)
Definition quadratic : PRIMETransformerModel := {|
  contextual := false;
  cql_alpha_value := 1;
  negative_sampler := None;
  num_gradient_infer_steps := 1;
  opt_lr := 1;
  infeasible_alpha := 1;
  num_votes := 1;
  _base_network := fun _ x _ => x;
  _all_networks :=
    fun _ _ emb => reduce_sum (map (fun x => x * x / 2) emb);
  voting_network := fun _ _ _ => 0;
  embedding_network := fun c => c;
  input_gradient := fun x _ => x
|}.

(** A non-contextual model whose single expert predicts [-2000] on
    every design; the CQL term has weight zero. *)
Definition pessimist : PRIMETransformerModel := {|
  contextual := false;
  cql_alpha_value := 0;
  negative_sampler := None;
  num_gradient_infer_steps := 0;
  opt_lr := 1;
  infeasible_alpha := 1;
  num_votes := 1;
  _base_network := fun _ x _ => x;
  _all_networks := fun _ _ _ => -2000;
  voting_network := fun _ _ _ => 0;
  embedding_network := fun c => c;
  input_gradient := fun x _ => map (fun _ => 0) x
|}.

(** A batch of two examples as [get_valid_only_batch] builds it. *)
Definition valid_batch : dict tensor :=
  [("design", [[1; 0]; [0; 1]]); ("objective", [[-2000]; [-1000]])].

(** A batch of two valid and two invalid examples as [get_mixed_batch]
    builds it. *)
Definition mixed_batch : dict tensor :=
  [("design", [[1; 0]; [0; 1]]); ("objective", [[-2000]; [-1000]]);
   ("invalid/design", [[0; 0]; [1; 1]]);
   ("invalid/objective", [[-2000]; [-3000]])].

(** The value a computation returned, or [d] if it raised. *)
Definition returned {A} (d : A) (out : result A * list call_event) : A :=
  match fst out with Ok a => a | Raise _ => d end.

(** Stand-ins for the ranking measures that are kept abstract.  The
    one for [ranking_loss] raises on fewer than two examples, as
    [tf.argsort] does on the squeezed scalar. *)
Definition no_ranking : vec -> vec -> option tensor -> result R :=
  fun input _ _ =>
    if Nat.ltb (List.length input) 2
    then Raise (InvalidArgumentError "argsort of a scalar")
    else Ok 0.

Definition no_context : vec -> vec -> tensor -> R :=
  fun _ _ _ => 0.

End Examples.

(* ================================================================== *)
(** * Notions of the specification, for the dataset *)

Module DataSpec.
Import Py Data.
Local Open Scope Q_scope.

(** The record with flag [i] is feasible: its flag is 0.  (No feasible
    array is ever computed under the area constraint, see
    [int32_tensor_le_float].) *)
Definition is_feasible (i : Q) : bool := Qeq_bool i 0.

(** Feasibility of every record of the dataset, in order. *)
Definition feasible_records (self : PRIMEDataset) : list bool :=
  map is_feasible (_infeasible_np self).

(** The dataset holds 0/1 flags. *)
Definition well_formed (self : PRIMEDataset) : Prop :=
  Forall (fun i => i = 0 \/ i = 1) (_infeasible_np self).

(** A raw record that carries a 0/1 infeasible flag. *)
Definition complete_record (p : record) : Prop :=
  dict_get "infeasible" p = Some 0 \/ dict_get "infeasible" p = Some 1.

(** A raw record is feasible when its flag is 0. *)
Definition raw_feasible (p : record) : bool :=
  match dict_get "infeasible" p with
  | Some i => Qeq_bool i 0
  | None => false
  end.

(** The 0/1 array of a list of booleans. *)
Definition indicator (bs : list bool) : list Q :=
  map (fun b : bool => if b then 1 else 0) bs.

Definition count (bs : list bool) : nat :=
  List.length (filter (fun b : bool => b) bs).

(** The probability vector that is uniform over the records marked
    [true] and zero elsewhere. *)
Definition uniform_over (bs : list bool) : list Q :=
  map (fun b : bool =>
         if b then 1 / inject_Z (Z.of_nat (count bs)) else 0) bs.

End DataSpec.

(* ================================================================== *)
(** * Example data *)

Module DataExamples.
Import Py Data.
Local Open Scope Q_scope.
Local Open Scope string_scope.

(** The configuration at the end of the source file. *)
Definition config : list config_line :=
  [("discrete", "param_1", [1; 2; 4; 6; 8; 10; 12; 14; 16; 32]%Z);
   ("discrete", "param_2", [1; 2; 4; 6; 8; 10; 12; 14; 16; 32]%Z);
   ("discrete", "param_3", [4; 8; 16; 32; 64; 128; 256]%Z);
   ("discrete", "param_7", [256; 512; 1024; 2048; 4096; 8192; 16384]%Z);
   ("discrete", "param_8", [8192; 16384; 32768; 65536]%Z);
   ("discrete", "param_9", [2048; 4096; 8192; 16384; 32768]%Z);
   ("discrete", "param_6",
    [4096; 8192; 16384; 32768; 65536; 131072; 262144; 524288; 1048576;
     2097152; 4194304]%Z);
   ("discrete", "param_5",
    [262144; 524288; 1048576; 2097152; 4194304; 8388608; 16777216]%Z);
   ("discrete", "param_4", [1; 2; 4; 6; 8; 10; 12; 14; 16; 32]%Z);
   ("discrete", "param_10", [5; 10; 16; 20; 25; 30]%Z)].

(** A raw record with the given runtime, area and infeasible flag. *)
Definition make_record (runtime area : Q) (infeasible : Z) : record :=
  [("param_1", 1); ("param_2", 2); ("param_3", 4); ("param_4", 1);
   ("param_5", 262144); ("param_6", 4096); ("param_7", 256);
   ("param_8", 8192); ("param_9", 2048); ("param_10", 5);
   ("runtime", runtime); ("area", area);
   ("infeasible", inject_Z infeasible)].

(** Two feasible records and an infeasible one. *)
Definition records : list record :=
  [make_record (3 # 2) 10 0; make_record 4 10 0; make_record 2 50 1].


Definition no_dataset : PRIMEDataset :=
  {| _config := []; data_dict := []; _design_space_dict := [];
     _segment_lengths := []; split_lengths := [];
     _tf_dataset := {| params := []; area := []; runtime := [];
                       score := []; infeasible := [] |};
     _infeasible_np := []; _top := 0 |}.

(** The dataset built from [records]. *)
Definition example_dataset : PRIMEDataset :=
  match PRIMEDataset_init config records with
  | Ok ds => ds
  | Raise _ => no_dataset
  end.

Definition no_problem : HardwareOptProblem :=
  {| batch_size := 256; _batch_size := None; _batch_type := PyStr "valid";
     _add_area_constraints := PyBool false; dataset := no_dataset;
     feasible_probs := []; infeasible_probs := [] |}.


End DataExamples.

(* ================================================================== *)
(** * The layers of the transformer *)

Module Layers.
Import Py Tensor.
Local Open Scope R_scope.
Local Open Scope string_scope.

(** [get_angles(pos, i, d_model)]:
    [pos * (1 / 10000 ** ((2 * (i // 2)) / d_model))]. *)
Definition get_angles (pos i d_model : nat) : R :=
  let angle_rates :=
    1 / Rpower 10000 (INR (2 * (i / 2)) / INR d_model) in
  INR pos * angle_rates.

(** [positional_encoding(position, d_model)], without the leading axis
    of length 1: the sine of the angle at the even indices, the cosine
    at the odd ones. *)
Definition positional_encoding (position d_model : nat) : tensor :=
  map (fun pos =>
         map (fun i =>
                if Nat.even i then sin (get_angles pos i d_model)
                else cos (get_angles pos i d_model))
             (seq 0 d_model))
      (seq 0 position).

(** The pieces of [tf.split(x, sizes, axis=-1)] on one row. *)
Fixpoint pieces (x : vec) (sizes : list nat) : list vec :=
  match sizes with
  | [] => []
  | n :: rest => firstn n x :: pieces (skipn n x) rest
  end.

(** [tf.split(x, num_or_size_splits=sizes, axis=-1)]: the sizes must
    add up to the width of [x]. *)
Definition tf_split (x : vec) (sizes : list nat) : result (list vec) :=
  if Nat.eqb (list_sum sizes) (List.length x) then Ok (pieces x sizes)
  else Raise (InvalidArgumentError "split sizes do not match the input").

(** [SplitEmbeddingLayer]: [dense_layers idx] is the dense layer
    ['insidelayer_idx'], a function from a piece of the input to a row
    of [output_size] entries. *)
Record SplitEmbeddingLayer : Type := {
  softmax_splits : list nat;
  output_size : nat;
  dense_layers : nat -> vec -> vec
}.

(** [self.pos_encoding = positional_encoding(position=200, ...)] *)
Definition pos_encoding (self : SplitEmbeddingLayer) : tensor :=
  positional_encoding 200 (output_size self).

(** [SplitEmbeddingLayer.call] on one example: one embedding row per
    piece, plus the positional encoding of the piece's position.
    [tf.concat] needs at least one piece, and the sum broadcasts only
    when there are no more pieces than positions. *)
Definition SplitEmbeddingLayer_call (self : SplitEmbeddingLayer) (x : vec)
  : result tensor :=
  rbind (tf_split x (softmax_splits self)) (fun split_x =>
    let modified_splits :=
      map (fun p => dense_layers self (fst p) (snd p))
          (combine (seq 0 (List.length split_x)) split_x) in
    match modified_splits with
    | [] => Raise (ValueError "need at least one tensor to concatenate")
    | _ =>
        let encoding :=
          firstn (List.length modified_splits) (pos_encoding self) in
        if Nat.eqb (List.length encoding) (List.length modified_splits) then
          Ok (map (fun p => map (fun e => fst e + snd e)
                               (combine (fst p) (snd p)))
                  (combine modified_splits encoding))
        else Raise (InvalidArgumentError "incompatible shapes")
    end).

(** [tf.matmul(q, k, transpose_b=True)] *)
Definition matmul_transpose_b (q k : tensor) : tensor :=
  map (fun qi => map (fun kj => reduce_sum (mul qi kj)) k) q.

(** The row [w . v] of [tf.matmul(weights, v)]: the sum of the rows of
    [v] weighted by the entries of [w]. *)
Definition weighted_sum (w : vec) (v : tensor) : vec :=
  fold_right
    (fun p acc => map (fun e => fst p * fst e + snd e) (combine (snd p) acc))
    (map (fun _ => 0) (hd [] v))
    (combine w v).

(** [scaled_dot_product_attention(q, k, v, mask)] for one example and
    one head: [q] is [seq_len_q x depth], [k] is [seq_len_k x depth],
    [v] is [seq_len_k x depth_v]; the result is the pair (output,
    attention_weights).  A mask, when one is given, has the shape of
    the logits ([seq_len_q x seq_len_k]); [TransformerLayer] is always
    called with its default [mask=None]. *)
Definition scaled_dot_product_attention (q k v : tensor)
    (mask : option tensor) : tensor * tensor :=
  let matmul_qk := matmul_transpose_b q k in
  let dk := INR (List.length (hd [] k)) in
  let scaled_attention_logits :=
    map (map (fun x => x / sqrt dk)) matmul_qk in
  let scaled_attention_logits :=
    match mask with
    | None => scaled_attention_logits
    | Some m =>
        map (fun p => map (fun e => fst e + snd e * -1000000000)
                          (combine (fst p) (snd p)))
            (combine scaled_attention_logits m)
    end in
  let attention_weights := map softmax scaled_attention_logits in
  let output := map (fun w => weighted_sum w v) attention_weights in
  (output, attention_weights).

(** [MultiHeadAttention]: the attributes set by [__init__]. *)
Record MultiHeadAttention : Type := {
  num_heads : nat;
  d_model : nat;
  depth : nat
}.

(** What the constructor can raise. *)
Inductive init_error : Type :=
| AssertionError
| ZeroDivisionError.

(** [MultiHeadAttention(d_model, num_heads)]:
    [assert d_model % num_heads == 0], [depth = d_model // num_heads]. *)
Definition MultiHeadAttention_init (d_model num_heads : nat)
  : MultiHeadAttention + init_error :=
  if Nat.eqb num_heads 0 then inr ZeroDivisionError
  else if Nat.eqb (d_model mod num_heads) 0 then
    inl {| num_heads := num_heads; d_model := d_model;
           depth := d_model / num_heads |}
  else inr AssertionError.

(** [split_heads] on one example whose rows have [d_model] entries:
    the reshape cuts every row into [num_heads] runs of [depth]
    entries, the transpose gathers run [h] of every row under head
    [h]. *)
Definition split_heads (self : MultiHeadAttention) (x : tensor)
  : list tensor :=
  map (fun h =>
         map (fun row => firstn (depth self) (skipn (h * depth self) row)) x)
      (seq 0 (num_heads self)).

(** The transpose and reshape that [call] applies to the attention
    output, on one example: row [s] is the concatenation of row [s] of
    every head. *)
Definition merge_heads (heads : list tensor) : tensor :=
  map (fun s => flat_map (fun head => nth s head []) heads)
      (seq 0 (List.length (hd [] heads))).

(** [tf.keras.layers.Reshape(target_shape=(target,))] on one example:
    the entries of the rows in order; their number must be
    [target]. *)
Definition Reshape (target : nat) (x : tensor) : result vec :=
  let flat := List.concat x in
  if Nat.eqb (List.length flat) target then Ok flat
  else Raise (ValueError "total size of new array must be unchanged").

(** The non-contextual [_base_network] that
    [PRIMETransformerModel.__init__] assembles, on one example: the
    split embedding with [output_size=64], dropout when [use_dropout]
    is set, two transformer layers with [d_model=64], and the reshape
    to 640 entries.  The dense layers, the dropout and the transformer
    layers are given as functions. *)
Definition _base_network (input_splits : list nat)
    (dense_layers : nat -> vec -> vec) (use_dropout : bool)
    (dropout transformer_1 transformer_2 : tensor -> tensor) (x : vec)
  : result vec :=
  rbind (SplitEmbeddingLayer_call
           {| softmax_splits := input_splits;
              output_size := 64;
              dense_layers := dense_layers |} x)
        (fun x =>
           let x := if use_dropout then dropout x else x in
           let x := transformer_1 x in
           let x := transformer_2 x in
           Reshape 640 x).

(** A layer that returns as many rows as it receives, of the same
    width: dropout, and [TransformerLayer], whose output has the shape
    (batch_size, input_seq_len, d_model) of its input. *)
Definition keeps_shape (layer : tensor -> tensor) : Prop :=
  forall (x : tensor) (width : nat),
    Forall (fun row => List.length row = width) x ->
    List.length (layer x) = List.length x /\
    Forall (fun row => List.length row = width) (layer x).

End Layers.

(* ================================================================== *)
(** * More of the dataset and the training loop *)

Module DataMore.
Import Py Data.
Local Open Scope Q_scope.
Local Open Scope string_scope.

(** [get_input_splits]: the segment length of every active key; the
    list is also stored in [self._active_lengths]. *)
Definition get_input_splits (self : PRIMEDataset) : result (list nat) :=
  mapM (segment_length (_design_space_dict self) (_segment_lengths self))
       _active_training_keys.

(** [input_properties], given [self._active_lengths]. *)
Definition input_properties (_active_lengths : list nat) : nat :=
  fold_left Nat.add _active_lengths 0%nat.

(** [valid_invalid_data_size(add_area_constraints)]; the argument
    defaults to [True]. *)
Definition valid_invalid_data_size (self : PRIMEDataset)
    (add_area_constraints : bool) : result (Q * Q) :=
  rbind (feasible_array self add_area_constraints) (fun feasible =>
    Ok (Qsum feasible,
        inject_Z (Z.of_nat (List.length feasible)) - Qsum feasible)).

End DataMore.

Module Training.
Import Py Tensor Model Data.
Local Open Scope string_scope.

(** A batch of the dataset as the tensors the model receives. *)
Definition to_model_batch (b : Data.batch) : dict tensor :=
  map (fun kv => (fst kv, map (map Q2R) (snd kv))) b.

Section Step.

Variable ranking_loss : vec -> vec -> option tensor -> result R.
Variables ranking_trainable_loss_context kendall_correlation_context
  : vec -> vec -> tensor -> R.

(** One iteration of the loop of [train_eval_offline], up to the
    training update: draw a batch, at step 0 call
    [model.measure_stats(batch)], then [model.perform_training]. *)
Definition training_step (train_problem : HardwareOptProblem)
    (model : PRIMETransformerModel) (rng : nat -> nat) (step : nat)
    (loss_type : string) (ranking_penalty_weight : R)
  : result (dict R) :=
  rbind (get_training_batch train_problem rng) (fun b =>
    let batch := to_model_batch b in
    rbind (if Nat.eqb step 0 then
             fst (run (measure_stats ranking_loss
                                     ranking_trainable_loss_context
                                     kendall_correlation_context
                                     model batch None))
           else Ok [])
          (fun _ =>
             fst (run (perform_training ranking_loss
                                        ranking_trainable_loss_context
                                        kendall_correlation_context
                                        model batch loss_type
                                        ranking_penalty_weight)))).

End Step.

End Training.

(* ================================================================== *)
(** * Notions used to state what loading guarantees *)

Module LoadingSpec.
Import Py Data.

(** The field name of a line of the configuration. *)
Definition line_name (l : config_line) : string := snd (fst l).

(** Some line of the configuration names the field [key]. *)
Definition names_key (config : list config_line) (key : string) : bool :=
  existsb (fun l => String.eqb key (line_name l)) config.

(** What holds of the design space and of the segment lengths while
    the lines are read: every field points at its segment length and
    carries the pairs (value, position) of its value range. *)
Definition space_ok (space : dict ind_field) (lengths : list nat) : Prop :=
  forall key ind,
    dict_get key space = Some ind ->
    nth_error lengths (ctr ind) = Some (List.length (value_range ind)) /\
    mapping_one_hot_to_value ind
    = combine (value_range ind) (seq 0 (List.length (value_range ind))).

(** The stored index [idx] of the field [ind] decodes to the raw value
    [raw], converted to int32. *)
Definition decodes_to (ind : ind_field) (raw : Q) (idx : Z) : Prop :=
  exists i, idx = Z.of_nat i /\
            nth_error (value_range ind) i = Some (to_int32 raw).

(** The example records, the last one with the raw value 256.7 for
    ['param_7']. *)
Definition fractional_records : list record :=
  [DataExamples.make_record (3 # 2) 10 0;
   dict_set "param_7" (2567 # 10)%Q
            (DataExamples.make_record 2 50 1)].

Definition fractional_dataset : PRIMEDataset :=
  match PRIMEDataset_init DataExamples.config fractional_records with
  | Ok ds => ds
  | Raise _ => DataExamples.no_dataset
  end.

End LoadingSpec.


(* ================================================================== *)
(** * Example problems *)

Module BatchExamples.
Import Py Data DataExamples.
Local Open Scope string_scope.

(** The problem built from [records] for training on mixed batches of
    two. *)
Definition mixed_problem : HardwareOptProblem :=
  match HardwareOptProblem_init
          config records
          (Some [("batch_size", PyInt 2); ("batch_type", PyStr "mixed")])
  with
  | Ok problem => problem
  | Raise _ => no_problem
  end.

(** The same records, sampled from the whole dataset. *)
Definition all_problem : HardwareOptProblem :=
  match HardwareOptProblem_init
          config records
          (Some [("batch_size", PyInt 2); ("batch_type", PyStr "all")]) with
  | Ok problem => problem
  | Raise _ => no_problem
  end.

(** The same records, sampled from the feasible ones only. *)
Definition valid_problem : HardwareOptProblem :=
  match HardwareOptProblem_init
          config records
          (Some [("batch_size", PyInt 2); ("batch_type", PyStr "valid")])
  with
  | Ok problem => problem
  | Raise _ => no_problem
  end.

End BatchExamples.

(* ================================================================== *)
(** * Properties of the tensor operations *)

Section TensorFacts.
Import Tensor.
Local Open Scope R_scope.

Lemma reduce_sum_map_div (l : vec) (s : R) :
  reduce_sum (map (fun x => x / s) l) = reduce_sum l / s.
Proof.
  induction l as [|x l IH]; simpl.
  - unfold Rdiv. ring.
  - rewrite IH. unfold Rdiv. ring.
Qed.

Lemma reduce_sum_exp_pos (l : vec) :
  l <> [] -> 0 < reduce_sum (map exp l).
Proof.
  destruct l as [|x l]; [congruence|]. intros _.
  revert x. induction l as [|y l IH]; intros x; simpl.
  - pose proof (exp_pos x). lra.
  - pose proof (exp_pos x). specialize (IH y). simpl in IH. lra.
Qed.

Lemma softmax_length (l : vec) : List.length (softmax l) = List.length l.
Proof. unfold softmax. apply length_map. Qed.

Lemma softmax_sums_to_one (l : vec) :
  l <> [] -> reduce_sum (softmax l) = 1.
Proof.
  intros Hl. unfold softmax.
  rewrite <- (map_map exp (fun e => e / reduce_sum (map exp l))).
  rewrite reduce_sum_map_div.
  pose proof (reduce_sum_exp_pos l Hl). field. lra.
Qed.

Lemma softmax_pos (l : vec) :
  Forall (fun p => 0 < p) (softmax l).
Proof.
  destruct l as [|x0 l0]; [constructor|].
  assert (Hs : 0 < reduce_sum (map exp (x0 :: l0)))
    by (apply reduce_sum_exp_pos; congruence).
  unfold softmax. apply Forall_map, Forall_forall. intros x _.
  apply Rdiv_lt_0_compat; [apply exp_pos | exact Hs].
Qed.

Lemma mul_comm (a b : vec) : reduce_sum (mul a b) = reduce_sum (mul b a).
Proof.
  unfold mul. revert b.
  induction a as [|x a IH]; intros [|y b]; simpl; try reflexivity.
  rewrite IH. ring.
Qed.

(** [log_softmax] is the logarithm of [softmax], entry by entry. *)
Lemma log_softmax_is_ln_softmax (l : vec) :
  log_softmax l = map ln (softmax l).
Proof.
  destruct l as [|x0 l0]; [reflexivity|].
  assert (Hs : 0 < reduce_sum (map exp (x0 :: l0)))
    by (apply reduce_sum_exp_pos; congruence).
  unfold log_softmax, softmax. rewrite map_map.
  apply map_ext. intros x.
  unfold Rdiv. rewrite ln_mult; [|apply exp_pos|apply Rinv_0_lt_compat, Hs].
  rewrite ln_exp, ln_Rinv by exact Hs. ring.
Qed.

Lemma mul_map_ln (p : vec) :
  reduce_sum (mul (map ln p) p) = reduce_sum (map (fun x => x * ln x) p).
Proof.
  unfold mul. induction p as [|x p IH]; simpl; [reflexivity|].
  rewrite IH. ring.
Qed.

Lemma clip_by_value_bounds (t lo hi : R) :
  lo <= hi -> lo <= clip_by_value t lo hi <= hi.
Proof.
  intros H. unfold clip_by_value, Rmin, Rmax.
  destruct (Rle_dec t lo); destruct (Rle_dec _ hi); lra.
Qed.

Lemma clip_by_value_id (t lo hi : R) :
  lo <= t <= hi -> clip_by_value t lo hi = t.
Proof.
  intros H. unfold clip_by_value, Rmin, Rmax.
  destruct (Rle_dec t lo); destruct (Rle_dec _ hi); lra.
Qed.

End TensorFacts.

(* ================================================================== *)
(** * The forward pass *)

Section ForwardPass.
Import Py Tensor Model Spec Examples.
Local Open Scope R_scope.
Local Open Scope string_scope.

Lemma dot_is_reduce_sum_mul (a b : vec) : dot a b = reduce_sum (mul a b).
Proof. reflexivity. Qed.

Lemma vote_logit_length (self : PRIMETransformerModel) (training : bool)
    (row : vec * option vec) :
  List.length (vote_logit self training row) = num_votes self.
Proof. unfold vote_logit. now rewrite length_map, length_seq. Qed.

Lemma vote_logit_nonempty (self : PRIMETransformerModel) (training : bool)
    (row : vec * option vec) :
  (0 < num_votes self)%nat -> vote_logit self training row <> [].
Proof.
  intros Hn Hnil. pose proof (vote_logit_length self training row) as Hl.
  rewrite Hnil in Hl. simpl in Hl. lia.
Qed.

Lemma call_ok_inv (self : PRIMETransformerModel) (inputs : model_inputs)
    (training : bool) (pred : vec) (extra : dict R) :
  call self inputs training = Ok (pred, extra) ->
  exists rows,
    rows_of self inputs = Ok rows /\
    pred = map (fwd_model_pred self training) rows /\
    extra = [("vote_entropy",
              reduce_mean (map (vote_entropy self training) rows))].
Proof.
  unfold call. destruct (rows_of self inputs) as [rows|e]; simpl.
  - intros H. injection H as <- <-. now exists rows.
  - discriminate.
Qed.

Lemma Forall2_map_self {A B} (P : A -> B -> Prop) (f : A -> B)
      (l : list A) :
  (forall a, P a (f a)) -> Forall2 P l (map f l).
Proof. intros H. induction l; simpl; constructor; auto. Qed.

(** C4.  With at least one expert, for every batch on which [call]
    returns, and for every example of it: the expert outputs are the
    outputs of the [num_votes] networks of [_all_networks] on the
    embedding of the example; the vote probabilities are the softmax of
    the [num_votes] logits of the voting network, they are positive
    and sum to 1; the prediction of the example is the dot product of
    the expert outputs with the vote probabilities. *)
Theorem call_votes_are_convex_mixture
    (self : PRIMETransformerModel) (inputs : model_inputs)
    (training : bool) (pred : vec) (extra : dict R) :
  (0 < num_votes self)%nat ->
  call self inputs training = Ok (pred, extra) ->
  exists rows,
    rows_of self inputs = Ok rows /\
    Forall2
      (fun row prediction =>
         let emb := _base_network self training (fst row) (snd row) in
         let vote_input :=
           if contextual self then
             (emb ++ embedding_network self
                       (match snd row with Some c => c | None => [] end))%list
           else emb in
         let experts :=
           map (fun idx => _all_networks self idx training emb)
               (seq 0 (num_votes self)) in
         let votes :=
           softmax (map (voting_network self training vote_input)
                        (seq 0 (num_votes self))) in
         List.length experts = num_votes self /\
         List.length votes = num_votes self /\
         Forall (fun v => 0 < v) votes /\
         reduce_sum votes = 1 /\
         prediction = dot experts votes)
      rows pred.
Proof.
  intros Hn Hcall.
  destruct (call_ok_inv _ _ _ _ _ Hcall) as (rows & Hrows & -> & _).
  exists rows. split; [exact Hrows|].
  apply Forall2_map_self. intros row. cbv zeta.
  split; [now rewrite length_map, length_seq|].
  split; [now rewrite softmax_length, length_map, length_seq|].
  split; [apply softmax_pos|].
  split.
  - apply softmax_sums_to_one.
    exact (vote_logit_nonempty self training row Hn).
  - unfold fwd_model_pred. rewrite dot_is_reduce_sum_mul.
    exact (mul_comm (vote_prob self training row)
                    (all_outputs self training row)).
Qed.

Lemma call_votes_are_convex_mixture_witness :
  exists rows,
    rows_of two_experts (Single [[1; 2]; [3; 4]]) = Ok rows /\
    Forall2
      (fun row prediction =>
         let experts :=
           map (fun idx => reduce_sum (fst row) + INR idx) [0; 1]%nat in
         let votes := softmax [0; 0] in
         List.length experts = 2%nat /\
         List.length votes = 2%nat /\
         Forall (fun v => 0 < v) votes /\
         reduce_sum votes = 1 /\
         prediction = dot experts votes)
      rows
      (map (fwd_model_pred two_experts false)
           [([1; 2], None); ([3; 4], None)]).
Proof.
  apply (call_votes_are_convex_mixture
           two_experts (Single [[1; 2]; [3; 4]]) false _
           [("vote_entropy",
             reduce_mean (map (vote_entropy two_experts false)
                              [([1; 2], None); ([3; 4], None)]))]).
  - simpl. lia.
  - reflexivity.
Defined.

(** The tensor the source names [vote_entropy] is the negated entropy
    of the vote distribution. *)
Lemma vote_entropy_is_minus_entropy (self : PRIMETransformerModel)
    (training : bool) (row : vec * option vec) :
  vote_entropy self training row
  = - entropy (vote_prob self training row).
Proof.
  unfold vote_entropy, vote_prob, entropy.
  rewrite log_softmax_is_ln_softmax, mul_map_ln.
  unfold reduce_sum. ring.
Qed.

Lemma ln_half : ln (1 / 2) = - ln 2.
Proof.
  replace (1 / 2) with (/ 2) by lra. apply ln_Rinv. lra.
Qed.

Lemma ln_2_pos : 0 < ln 2.
Proof. rewrite <- ln_1. apply ln_increasing; lra. Qed.

(** C8.  With two experts and equal voting logits, on a batch of one
    example, the value logged under ['vote_entropy'] is [- ln 2],
    while the mean entropy of the vote distribution is [ln 2]. *)
Theorem vote_entropy_logged_with_wrong_sign :
  exists pred extra,
    call two_experts (Single [[0]]) false = Ok (pred, extra) /\
    dict_get "vote_entropy" extra = Some (- ln 2) /\
    reduce_mean (map (fun row => entropy (vote_prob two_experts false row))
                     [([0], None)]) = ln 2 /\
    - ln 2 < 0 < ln 2.
Proof.
  assert (Hp : vote_prob two_experts false ([0], None) = [1 / 2; 1 / 2]).
  { unfold vote_prob, vote_logit, softmax. simpl. rewrite exp_0.
    repeat f_equal; lra. }
  assert (He : entropy (vote_prob two_experts false ([0], None)) = ln 2).
  { rewrite Hp. unfold entropy. simpl. rewrite ln_half. lra. }
  eexists. eexists. split; [reflexivity|]. split; [|split].
  - change (Some (reduce_mean [vote_entropy two_experts false ([0], None)])
            = Some (- ln 2)).
    rewrite vote_entropy_is_minus_entropy, He.
    unfold reduce_mean. simpl. f_equal. lra.
  - change (reduce_mean [entropy (vote_prob two_experts false ([0], None))]
            = ln 2).
    rewrite He. unfold reduce_mean. simpl. lra.
  - pose proof ln_2_pos. lra.
Qed.

End ForwardPass.

(* ================================================================== *)
(** * Computations that record forward passes *)

Section Effects.
Import Py Tensor Model Spec.

Lemma bind_ok_inv {A B} (m : M A) (k : A -> M B) tr b tr' :
  bind m k tr = (Ok b, tr') ->
  exists a tr1, m tr = (Ok a, tr1) /\ k a tr1 = (Ok b, tr').
Proof.
  unfold bind. destruct (m tr) as [[a|e] tr1]; intros H.
  - now exists a, tr1.
  - discriminate.
Qed.

Lemma lift_ok_inv {A} (r : result A) tr a tr' :
  lift r tr = (Ok a, tr') -> r = Ok a /\ tr' = tr.
Proof. unfold lift. intros H. injection H as -> ->. now split. Qed.

Lemma ret_ok_inv {A} (x : A) tr a tr' :
  ret x tr = (Ok a, tr') -> x = a /\ tr' = tr.
Proof. unfold ret. intros H. injection H as -> ->. now split. Qed.

Lemma forward_ok_inv s self inputs training tr a tr' :
  forward s self inputs training tr = (Ok a, tr') ->
  call self inputs training = Ok a /\
  tr' = (tr ++ [ {| ev_site := s; ev_inputs := inputs;
                    ev_training := training |} ])%list.
Proof. unfold forward. intros H. injection H as -> <-. now split. Qed.

Lemma emits_ret {A} P (a : A) : emits P (ret a).
Proof. intros tr. exists []. simpl. now rewrite app_nil_r. Qed.

Lemma emits_lift {A} P (r : result A) : emits P (lift r).
Proof. intros tr. exists []. simpl. now rewrite app_nil_r. Qed.

Lemma emits_bind {A B} P (m : M A) (k : A -> M B) :
  emits P m -> (forall a, emits P (k a)) -> emits P (bind m k).
Proof.
  intros Hm Hk tr. unfold bind.
  destruct (Hm tr) as (evs & Htr & Hevs).
  destruct (m tr) as [[a|e] tr1]; simpl in Htr; subst tr1.
  - destruct (Hk a (tr ++ evs)%list) as (evs' & Htr' & Hevs').
    exists (evs ++ evs')%list. rewrite Htr', app_assoc. split; [reflexivity|].
    now apply Forall_app.
  - now exists evs.
Qed.

Lemma emits_forward P s self inputs training :
  P {| ev_site := s; ev_inputs := inputs; ev_training := training |} ->
  emits P (forward s self inputs training).
Proof. intros HP tr. eexists. split; [reflexivity|]. now constructor. Qed.

Lemma emits_weaken {A} (P Q : call_event -> Prop) (m : M A) :
  (forall ev, P ev -> Q ev) -> emits P m -> emits Q m.
Proof.
  intros HPQ Hm tr. destruct (Hm tr) as (evs & Htr & Hevs).
  exists evs. split; [exact Htr|]. eapply Forall_impl; eauto.
Qed.

End Effects.

Ltac emits_step :=
  lazymatch goal with
  | |- Spec.emits _ (Model.bind _ _) => apply emits_bind; [| intros ?]
  | |- Spec.emits _ (Model.ret _) => apply emits_ret
  | |- Spec.emits _ (Model.lift _) => apply emits_lift
  | |- Spec.emits _ (Model.forward _ _ _ _) => apply emits_forward
  | |- Spec.emits _ (if ?c then _ else _) => destruct c eqn:?
  | |- Spec.emits _ (match ?x with (_, _) => _ end) => destruct x
  | |- Spec.emits _ (let _ := _ in _) => cbv zeta
  end.

(** Inversion of a successful [bind]: [H] becomes the rest of the
    computation, [H1] the first step. *)
Ltac inv_bind H H1 :=
  let a := fresh "a" in
  let tr1 := fresh "tr" in
  apply bind_ok_inv in H; destruct H as (a & tr1 & H1 & H).

(* ================================================================== *)
(** * Forward passes run by the negative-sample generator *)

Section NegativeSamples.
Import Py Tensor Model Spec Examples.
Local Open Scope R_scope.
Local Open Scope string_scope.

Lemma infer_loop_emits self contexts steps log_probs :
  emits infer_pass (infer_loop self contexts steps log_probs).
Proof.
  revert log_probs. induction steps as [|n IH]; intros log_probs; simpl.
  - apply emits_ret.
  - repeat emits_step; try apply IH. now split.
Qed.

Lemma infer_negatives_emits self batch :
  emits infer_pass (infer_negatives self batch).
Proof.
  unfold infer_negatives.
  repeat (emits_step || apply infer_loop_emits).
Qed.

(** One iteration of the ascent loop of the non-contextual model:
    every row of the batch is moved along the gradient row of the
    first example. *)
Lemma infer_loop_one_step self (x0 : vec) (rest : tensor) tr :
  contextual self = false ->
  infer_loop self None 1 (x0 :: rest) tr
  = (Ok (map (axpy (opt_lr self) (input_gradient self x0 None))
             (x0 :: rest)),
     (tr ++ [ {| ev_site := CallInfer; ev_inputs := Single (x0 :: rest);
                 ev_training := false |} ])%list).
Proof.
  intros Hc. simpl. unfold bind, forward, call, rows_of, lift, ret.
  rewrite Hc. reflexivity.
Qed.

(** C3.  On the batch [[1], [2]] with learning rate 1 and one
    iteration, [infer_negatives] returns [[2], [3]]: the second
    example moved by the gradient of the first.  Ascent along each
    example's own gradient gives [[2], [4]]. *)
Theorem infer_negatives_moves_rows_by_first_gradient :
  fst (run (infer_negatives quadratic [("design", [[1]; [2]])]))
  = Ok [("design", [[2]; [3]])] /\
  ascent_step quadratic [([1], None); ([2], None)] = [[2]; [4]] /\
  [[2]; [3]] <> [[2]; [4]].
Proof.
  split; [|split].
  - unfold run, infer_negatives. simpl. unfold bind, lift, ret. simpl.
    unfold axpy. simpl. repeat f_equal; lra.
  - unfold ascent_step, axpy. simpl. repeat f_equal; lra.
  - intros H. injection H as H. lra.
Qed.

End NegativeSamples.

(* ================================================================== *)
(** * The training objective *)

Section TrainingObjective.
Import Py Tensor Model Spec Examples.
Local Open Scope R_scope.
Local Open Scope string_scope.

Variable ranking_loss : vec -> vec -> option tensor -> result R.
Variables ranking_trainable_loss_context kendall_correlation_context
  : vec -> vec -> tensor -> R.

Local Abbreviation compute_loss :=
  (Model.compute_loss ranking_loss ranking_trainable_loss_context
                      kendall_correlation_context).

Lemma infer_pass_ok self training inp_batch_type ev :
  infer_pass ev -> pass_ok self training inp_batch_type ev.
Proof. intros [Hs Ht]. unfold pass_ok. now rewrite Hs. Qed.

Lemma negatives_pass_emits self data_batch training inp_batch_type :
  emits (pass_ok self training inp_batch_type)
        (negatives_pass self data_batch training).
Proof.
  unfold negatives_pass.
  destruct (negative_sampler self) as [sampler|] eqn:Hs.
  - repeat emits_step.
    unfold pass_ok, negatives_training. simpl. now rewrite Hs.
  - emits_step.
    + eapply emits_weaken; [|apply infer_negatives_emits].
      apply infer_pass_ok.
    + destruct (contextual self) eqn:Hc; repeat emits_step;
        unfold pass_ok, negatives_training; simpl; now rewrite Hs, Hc.
Qed.

Lemma compute_loss_emits self data_batch loss_type training
      ranking_penalty_weight inp_batch_type :
  emits (pass_ok self training inp_batch_type)
        (compute_loss self data_batch loss_type training
                      ranking_penalty_weight inp_batch_type).
Proof.
  unfold Model.compute_loss, invalid_pass.
  repeat (emits_step || apply negatives_pass_emits);
    unfold pass_ok; simpl; auto.
Qed.

Lemma negatives_pass_ok_inv self data_batch training tr raw tr' :
  negatives_pass self data_batch training tr = (Ok raw, tr') ->
  exists inputs extra evs,
    call self inputs (negatives_training self training) = Ok (raw, extra) /\
    Forall infer_pass evs /\
    tr' = (tr ++ evs ++
           [ {| ev_site := CallNegatives; ev_inputs := inputs;
                ev_training := negatives_training self training |} ])%list.
Proof.
  unfold negatives_pass, negatives_training.
  destruct (negative_sampler self) as [sampler|] eqn:Hs; intros H.
  - inv_bind H H1. destruct a as [p extra].
    apply forward_ok_inv in H1 as [Hcall ->].
    apply ret_ok_inv in H as [-> ->].
    exists (sampler 2%nat), extra, []. simpl. auto.
  - inv_bind H H1.
    destruct (infer_negatives_emits self data_batch tr) as (evs & Htr & Hevs).
    rewrite H1 in Htr. simpl in Htr. subst tr0.
    destruct (contextual self) eqn:Hc.
    + inv_bind H H2. apply lift_ok_inv in H2 as [_ ->].
      inv_bind H H3. apply lift_ok_inv in H3 as [_ ->].
      inv_bind H H4. destruct a2 as [p extra].
      apply forward_ok_inv in H4 as [Hcall ->].
      apply ret_ok_inv in H as [-> ->].
      exists (Pair a0 a1), extra, evs. rewrite <- app_assoc. auto.
    + inv_bind H H2. apply lift_ok_inv in H2 as [_ ->].
      inv_bind H H4. destruct a1 as [p extra].
      apply forward_ok_inv in H4 as [Hcall ->].
      apply ret_ok_inv in H as [-> ->].
      exists (Single a0), extra, evs. rewrite <- app_assoc. auto.
Qed.

(** What a successful run of [compute_loss] has computed. *)
Lemma compute_loss_ok_inv self data_batch loss_type training
      ranking_penalty_weight inp_batch_type tr loss_dict train_loss tr' :
  compute_loss self data_batch loss_type training
               ranking_penalty_weight inp_batch_type tr
  = (Ok (loss_dict, train_loss), tr') ->
  exists objective_t design data_inputs model_pred extra_dict raw tr2 rank,
    getitem data_batch "objective" = Ok objective_t /\
    getitem data_batch "design" = Ok design /\
    (data_inputs = Single design \/ exists c, data_inputs = Pair design c) /\
    call self data_inputs training = Ok (model_pred, extra_dict) /\
    negatives_pass self data_batch training
      (tr ++ [ {| ev_site := CallData; ev_inputs := data_inputs;
                  ev_training := training |} ])%list
    = (Ok raw, tr2) /\
    let mse := weighted_mse_loss model_pred (squeeze objective_t)
                                 (ones_like (squeeze objective_t)) in
    let cql :=
      clip_by_value
        (reduce_mean (map (fun p => clip_by_value p (-4000) 4000) raw))
        (-4000) 1000000 in
    let base :=
      mse + ranking_penalty_weight * rank + cql_alpha_value self * cql in
    dict_get "mse_loss" loss_dict = Some mse /\
    dict_get "avg_ranking_train_loss" loss_dict = Some rank /\
    dict_get "cql_loss" loss_dict = Some cql /\
    if is_not_valid inp_batch_type then
      exists invalid_design invalid_inputs pred_invalid invalid_dict,
        getitem data_batch "invalid/design" = Ok invalid_design /\
        (invalid_inputs = Single invalid_design \/
         exists c, invalid_inputs = Pair invalid_design c) /\
        call self invalid_inputs training = Ok (pred_invalid, invalid_dict) /\
        tr' = (tr2 ++ [ {| ev_site := CallInvalid;
                           ev_inputs := invalid_inputs;
                           ev_training := training |} ])%list /\
        let y := clip_by_value (reduce_mean pred_invalid) (-1000) 1000000 in
        dict_get "y_value_infeasible" loss_dict = Some y /\
        train_loss = base + infeasible_alpha self * y
    else
      tr' = tr2 /\ train_loss = base /\
      dict_get "y_value_infeasible" loss_dict = None.
Proof.
  unfold Model.compute_loss. intros H.
  inv_bind H H1. apply lift_ok_inv in H1 as [Hobj ->].
  cbv zeta in H.
  inv_bind H H1. apply lift_ok_inv in H1 as [Hdes ->].
  inv_bind H H1. destruct a1 as [model_pred extra_dict].
  assert (Hdata : exists data_inputs,
             (data_inputs = Single a0 \/ exists c, data_inputs = Pair a0 c) /\
             call self data_inputs training = Ok (model_pred, extra_dict) /\
             tr0 = (tr ++ [ {| ev_site := CallData; ev_inputs := data_inputs;
                               ev_training := training |} ])%list).
  { destruct (contextual self).
    - inv_bind H1 H2. apply lift_ok_inv in H2 as [_ ->].
      apply forward_ok_inv in H1 as [Hc ->]. eauto 6.
    - apply forward_ok_inv in H1 as [Hc ->]. eauto 6. }
  destruct Hdata as (data_inputs & Hshape0 & Hcall & ->). clear H1.
  inv_bind H Hneg. rename a1 into raw, tr0 into tr2.
  inv_bind H Hrank. rename a1 into rank.
  assert (tr0 = tr2) as ->.
  { destruct (String.eqb loss_type "mse+rank"); [destruct (contextual self)|].
    - inv_bind Hrank H2. apply lift_ok_inv in H2 as [_ ->].
      now apply ret_ok_inv in Hrank as [_ ->].
    - now apply ret_ok_inv in Hrank as [_ ->].
    - now apply ret_ok_inv in Hrank as [_ ->]. }
  clear Hrank.
  inv_bind H Hctx. rename a1 into passed_context.
  assert (tr0 = tr2) as ->.
  { destruct (contextual self).
    - inv_bind Hctx H2. apply lift_ok_inv in H2 as [_ ->].
      now apply ret_ok_inv in Hctx as [_ ->].
    - now apply ret_ok_inv in Hctx as [_ ->]. }
  clear Hctx.
  inv_bind H Hrl. rename a1 into avg_ranking_loss.
  apply lift_ok_inv in Hrl as [_ ->].
  destruct (call_ok_inv _ _ _ _ _ Hcall) as (rows & _ & _ & Hextra).
  exists a, a0, data_inputs, model_pred, extra_dict, raw, tr2, rank.
  split; [exact Hobj|]. split; [exact Hdes|]. split; [exact Hshape0|].
  split; [exact Hcall|]. split; [exact Hneg|].
  cbv zeta. subst extra_dict.
  destruct (is_not_valid inp_batch_type).
  - unfold invalid_pass in H.
    inv_bind H Hinv. apply lift_ok_inv in Hinv as [Hinv ->].
    inv_bind H Hfwd. destruct a2 as [pred_invalid invalid_dict].
    assert (Hi : exists invalid_inputs,
               (invalid_inputs = Single a1 \/
                exists c, invalid_inputs = Pair a1 c) /\
               call self invalid_inputs training
               = Ok (pred_invalid, invalid_dict) /\
               tr0 = (tr2 ++ [ {| ev_site := CallInvalid;
                                  ev_inputs := invalid_inputs;
                                  ev_training := training |} ])%list).
    { destruct (contextual self).
      - inv_bind Hfwd H2. apply lift_ok_inv in H2 as [_ ->].
        apply forward_ok_inv in Hfwd as [Hc ->]. eauto 6.
      - apply forward_ok_inv in Hfwd as [Hc ->]. eauto 6. }
    destruct Hi as (invalid_inputs & Hshape & Hcalli & ->). clear Hfwd.
    cbv zeta in H.
    inv_bind H Hio. apply lift_ok_inv in Hio as [Hio ->].
    apply ret_ok_inv in H as [H ->].
    destruct (call_ok_inv _ _ _ _ _ Hcalli) as (rowsi & _ & _ & Hextrai).
    subst invalid_dict. injection H as <- <-.
    repeat split; try reflexivity.
    eexists a1, invalid_inputs, pred_invalid, _.
    repeat split; try reflexivity; eassumption.
  - apply ret_ok_inv in H as [H ->]. injection H as <- <-.
    repeat split; reflexivity.
Qed.

Lemma measure_stats_emits self batch batch_type :
  emits (pass_ok self false batch_type)
        (measure_stats ranking_loss ranking_trainable_loss_context
                       kendall_correlation_context self batch batch_type).
Proof.
  unfold measure_stats. repeat (emits_step || apply compute_loss_emits).
Qed.

Lemma emits_run_in {A} P (m : M A) ev :
  emits P m -> In ev (snd (run m)) -> P ev.
Proof.
  intros Hm Hin. destruct (Hm []) as (evs & Htr & Hevs).
  unfold run in Hin. rewrite Htr in Hin. simpl in Hin.
  rewrite Forall_forall in Hevs. auto.
Qed.

(** C10.  In the non-contextual model without an external negative
    sampler, every forward pass of [compute_loss] on the negatives
    batch runs with [training=True], whatever [training] flag the
    caller passes (and so under [measure_stats], which passes
    [training=False]); the forward passes on the data batch and on the
    invalid batch run with the caller's flag; a call that returns has
    run the pass on the negatives batch. *)
Theorem negatives_pass_ignores_training_flag
    self data_batch loss_type training ranking_penalty_weight
    inp_batch_type :
  contextual self = false ->
  negative_sampler self = None ->
  let out := run (compute_loss self data_batch loss_type training
                               ranking_penalty_weight inp_batch_type) in
  (forall ev, In ev (snd out) ->
              ev_site ev = CallNegatives -> ev_training ev = true) /\
  (forall ev, In ev (snd out) ->
              ev_site ev = CallData \/ ev_site ev = CallInvalid ->
              ev_training ev = training) /\
  (is_ok (fst out) = true ->
   exists ev, In ev (snd out) /\ ev_site ev = CallNegatives) /\
  (forall ev,
      In ev (snd (run (measure_stats ranking_loss
                                     ranking_trainable_loss_context
                                     kendall_correlation_context
                                     self data_batch inp_batch_type))) ->
      ev_site ev = CallNegatives -> ev_training ev = true).
Proof.
  intros Hc Hs out.
  assert (Hneg : forall t, negatives_training self t = true)
    by (intros t; unfold negatives_training; now rewrite Hs, Hc).
  repeat split.
  - intros ev Hin Hsite.
    pose proof (emits_run_in _ _ _ (compute_loss_emits _ _ _ _ _ _) Hin) as H.
    unfold pass_ok in H. rewrite Hsite in H. now rewrite H.
  - intros ev Hin Hsite.
    pose proof (emits_run_in _ _ _ (compute_loss_emits _ _ _ _ _ _) Hin) as H.
    unfold pass_ok in H. destruct Hsite as [Hsite|Hsite]; rewrite Hsite in H;
      tauto.
  - intros Hok. subst out. unfold run in *.
    destruct (compute_loss _ _ _ _ _ _ []) as [[[ld tl]|e] tr'] eqn:E;
      [|discriminate].
    apply compute_loss_ok_inv in E.
    destruct E as (obj & des & di & mp & ed & raw & tr2 & rank & _ & _ & _ & _
                   & Hn & _ & _ & _ & Htail).
    apply negatives_pass_ok_inv in Hn.
    destruct Hn as (inp & extra & evs & _ & _ & ->).
    exists {| ev_site := CallNegatives; ev_inputs := inp;
              ev_training := negatives_training self training |}.
    split; [|reflexivity]. simpl.
    destruct (is_not_valid inp_batch_type).
    + destruct Htail as (? & ? & ? & ? & _ & _ & _ & -> & _).
      rewrite !in_app_iff. simpl. eauto.
    + destruct Htail as (-> & _). rewrite !in_app_iff. simpl. eauto.
  - intros ev Hin Hsite.
    pose proof (emits_run_in _ _ _ (measure_stats_emits _ _ _) Hin) as H.
    unfold pass_ok in H. rewrite Hsite in H. now rewrite H.
Qed.


(** C1.  When [compute_loss] returns, the raw predictions on the
    negatives batch have been clipped entry by entry to
    [[-4000, 4000]]; [cql_loss] is the mean of the clipped predictions,
    clipped to [[-4000, 1e6]]; it is logged under ['cql_loss'] and
    enters the training loss multiplied by [cql_alpha_value], next to
    the MSE term, the weighted ranking term and the penalty of the
    invalid batch (absent for a ['valid'] batch). *)
Theorem cql_loss_is_clipped_mean_of_clipped_negatives
    self data_batch loss_type training ranking_penalty_weight
    inp_batch_type loss_dict train_loss tr' :
  run (compute_loss self data_batch loss_type training
                    ranking_penalty_weight inp_batch_type)
  = (Ok (loss_dict, train_loss), tr') ->
  exists negatives_inputs raw extra,
    In {| ev_site := CallNegatives; ev_inputs := negatives_inputs;
          ev_training := negatives_training self training |} tr' /\
    call self negatives_inputs (negatives_training self training)
    = Ok (raw, extra) /\
    let negatives_pred := map (fun p => clip_by_value p (-4000) 4000) raw in
    let cql_loss :=
      clip_by_value (reduce_mean negatives_pred) (-4000) 1000000 in
    Forall (fun p => -4000 <= p <= 4000) negatives_pred /\
    -4000 <= cql_loss <= 1000000 /\
    dict_get "cql_loss" loss_dict = Some cql_loss /\
    exists mse rank,
      dict_get "mse_loss" loss_dict = Some mse /\
      dict_get "avg_ranking_train_loss" loss_dict = Some rank /\
      if is_not_valid inp_batch_type then
        exists y,
          dict_get "y_value_infeasible" loss_dict = Some y /\
          train_loss
          = mse + ranking_penalty_weight * rank
            + cql_alpha_value self * cql_loss + infeasible_alpha self * y
      else
        train_loss
        = mse + ranking_penalty_weight * rank
          + cql_alpha_value self * cql_loss.
Proof.
  unfold run. intros E. apply compute_loss_ok_inv in E.
  destruct E as (obj & des & di & mp & ed & raw & tr2 & rank & _ & _ & _ & _
                 & Hn & Hmse & Hrank & Hcql & Htail).
  apply negatives_pass_ok_inv in Hn.
  destruct Hn as (inp & extra & evs & Hcall & _ & ->).
  exists inp, raw, extra. split; [|split; [exact Hcall|]].
  - destruct (is_not_valid inp_batch_type).
    + destruct Htail as (? & ? & ? & ? & _ & _ & _ & -> & _).
      rewrite !in_app_iff. simpl. eauto.
    + destruct Htail as (-> & _). rewrite !in_app_iff. simpl. eauto.
  - cbv zeta. split; [|split; [|split; [exact Hcql|]]].
    + apply Forall_map, Forall_forall. intros p _.
      apply clip_by_value_bounds. lra.
    + apply clip_by_value_bounds. lra.
    + exists (weighted_mse_loss mp (squeeze obj) (ones_like (squeeze obj))),
             rank.
      split; [exact Hmse|]. split; [exact Hrank|].
      destruct (is_not_valid inp_batch_type).
      * destruct Htail as (? & ? & pi & ? & _ & _ & _ & _ & Hy & ->).
        eexists. split; [exact Hy | reflexivity].
      * destruct Htail as (_ & -> & _). reflexivity.
Qed.

(** C2, as the code has it.  When [compute_loss] returns: if
    [inp_batch_type] is not ['valid'], it has forwarded
    [data_batch['invalid/design']] and added [infeasible_alpha] times
    the mean prediction on it, clipped to [[-1000, 1e6]], to the
    training loss; if [inp_batch_type] is ['valid'], it has run no
    forward pass on an invalid batch and added no such term. *)
Theorem invalid_penalty_is_gated_by_inp_batch_type
    self data_batch loss_type training ranking_penalty_weight
    inp_batch_type loss_dict train_loss tr' :
  run (compute_loss self data_batch loss_type training
                    ranking_penalty_weight inp_batch_type)
  = (Ok (loss_dict, train_loss), tr') ->
  exists mse rank cql,
    dict_get "mse_loss" loss_dict = Some mse /\
    dict_get "avg_ranking_train_loss" loss_dict = Some rank /\
    dict_get "cql_loss" loss_dict = Some cql /\
    let base :=
      mse + ranking_penalty_weight * rank + cql_alpha_value self * cql in
    if is_not_valid inp_batch_type then
      exists invalid_design invalid_inputs pred_invalid extra,
        getitem data_batch "invalid/design" = Ok invalid_design /\
        (invalid_inputs = Single invalid_design \/
         exists c, invalid_inputs = Pair invalid_design c) /\
        In {| ev_site := CallInvalid; ev_inputs := invalid_inputs;
              ev_training := training |} tr' /\
        call self invalid_inputs training = Ok (pred_invalid, extra) /\
        train_loss
        = base + infeasible_alpha self
                 * clip_by_value (reduce_mean pred_invalid) (-1000) 1000000
    else
      train_loss = base /\
      forall ev, In ev tr' -> ev_site ev <> CallInvalid.
Proof.
  unfold run. intros E.
  assert (Htr : forall ev, In ev tr' ->
                           pass_ok self training inp_batch_type ev).
  { intros ev Hin.
    apply (emits_run_in _ _ _ (compute_loss_emits self data_batch loss_type
             training ranking_penalty_weight inp_batch_type)).
    unfold run. now rewrite E. }
  apply compute_loss_ok_inv in E.
  destruct E as (obj & des & di & mp & ed & raw & tr2 & rank & _ & _ & _ & _
                 & Hn & Hmse & Hrank & Hcql & Htail).
  eexists _, rank, _. split; [exact Hmse|]. split; [exact Hrank|].
  split; [exact Hcql|]. cbv zeta.
  destruct (is_not_valid inp_batch_type) eqn:Hv.
  - destruct Htail as (d & inp & pi & ex & Hd & Hshape & Hcall & -> & _ & ->).
    exists d, inp, pi, ex. repeat split; try assumption.
    rewrite in_app_iff. simpl. auto.
  - destruct Htail as (_ & -> & _). split; [reflexivity|].
    intros ev Hin Hsite. specialize (Htr ev Hin).
    unfold pass_ok in Htr. rewrite Hsite in Htr.
    destruct Htr as [_ Hgate]. congruence.
Qed.

End TrainingObjective.

Section TrainingObjectiveExamples.
Import Py Tensor Model Spec Examples.
Local Open Scope R_scope.
Local Open Scope string_scope.

Lemma negatives_pass_ignores_training_flag_witness :
  exists ev,
    In ev (snd (run (compute_loss no_ranking no_context no_context
                                  two_experts valid_batch "mse" false 0
                                  (Some "valid")))) /\
    ev_site ev = CallNegatives /\
    ev_training ev = true.
Proof.
  destruct (negatives_pass_ignores_training_flag
              no_ranking no_context no_context two_experts valid_batch
              "mse" false 0 (Some "valid") eq_refl eq_refl)
    as (Hneg & _ & Hran & _).
  destruct (Hran eq_refl) as (ev & Hin & Hsite).
  exists ev. split; [exact Hin|]. split; [exact Hsite|].
  exact (Hneg ev Hin Hsite).
Defined.

Lemma cql_loss_is_clipped_mean_of_clipped_negatives_witness :
  exists cql,
    dict_get "cql_loss"
      (fst (returned ([], 0)
              (run (compute_loss no_ranking no_context no_context
                                 two_experts valid_batch "mse+rank" true
                                 (1 / 10) (Some "valid")))))
    = Some cql /\
    -4000 <= cql <= 1000000.
Proof.
  pose (out := run (compute_loss no_ranking no_context no_context
                                 two_experts valid_batch "mse+rank" true
                                 (1 / 10) (Some "valid"))).
  destruct (cql_loss_is_clipped_mean_of_clipped_negatives
              no_ranking no_context no_context two_experts valid_batch
              "mse+rank" true (1 / 10) (Some "valid")
              (fst (returned ([], 0) out)) (snd (returned ([], 0) out))
              (snd out) eq_refl)
    as (inp & raw & extra & _ & _ & _ & Hb & Hd & _).
  eexists. split; [exact Hd | exact Hb].
Defined.

Lemma pessimist_call training d :
  call pessimist (Single d) training
  = Ok (map (fun _ => -2000) d,
        [("vote_entropy",
          reduce_mean (map (vote_entropy pessimist training)
                           (map (fun r => (r, None)) d)))]).
Proof.
  unfold call, rows_of. simpl. rewrite map_map. do 2 f_equal.
  apply map_ext. intros r. unfold fwd_model_pred, vote_prob, vote_logit.
  simpl. rewrite exp_0. lra.
Qed.

Lemma clip_below_minus_1000 :
  clip_by_value (reduce_mean [-2000; -2000]) (-1000) 1000000 = -1000.
Proof.
  unfold reduce_mean, clip_by_value, Rmin, Rmax. simpl.
  destruct (Rle_dec _ _); destruct (Rle_dec _ _); lra.
Qed.

(** The run of [compute_loss] on the mixed batch of two valid and two
    invalid examples, without [inp_batch_type], as [perform_training]
    calls it. *)
Lemma pessimist_mixed_run :
  exists loss_dict train_loss tr' mse rank cql,
    run (compute_loss no_ranking no_context no_context
                      pessimist mixed_batch "mse" true 0 None)
    = (Ok (loss_dict, train_loss), tr') /\
    dict_get "mse_loss" loss_dict = Some mse /\
    dict_get "avg_ranking_train_loss" loss_dict = Some rank /\
    dict_get "cql_loss" loss_dict = Some cql /\
    train_loss
    = mse + 0 * rank + cql_alpha_value pessimist * cql
      + infeasible_alpha pessimist * -1000.
Proof.
  destruct (run (compute_loss no_ranking no_context no_context
                              pessimist mixed_batch "mse" true 0 None))
    as [[[ld tl]|e] tr'] eqn:E.
  2:{ apply (f_equal (fun out => is_ok (fst out))) in E. discriminate E. }
  pose proof E as E'. unfold run in E'. apply compute_loss_ok_inv in E'.
  destruct E' as (obj & des & di & mp & ed & raw & tr2 & rank & Hobj & Hdes
                  & Hshape & Hcall & _ & Hmse & Hrank & Hcql & Htail).
  simpl in Htail.
  destruct Htail as (d & inp & pi & ex & Hd & Hshapei & Hcalli & _ & _ & Htl).
  injection Hobj as <-. injection Hdes as <-. injection Hd as <-.
  destruct Hshape as [->|[c ->]]; [|discriminate Hcall].
  destruct Hshapei as [->|[c ->]]; [|discriminate Hcalli].
  rewrite pessimist_call in Hcall, Hcalli.
  injection Hcall as <- _. injection Hcalli as <- <-.
  eexists ld, tl, tr', _, rank, _.
  split; [reflexivity|]. split; [exact Hmse|]. split; [exact Hrank|].
  split; [exact Hcql|].
  rewrite Htl. simpl map. now rewrite clip_below_minus_1000.
Qed.

(** C2, as stated, fails on a mixed batch of two valid and two invalid
    examples whose invalid examples are predicted at [-2000]: the
    training loss returned is not the rest of the loss plus
    [infeasible_alpha] times the mean prediction on the invalid batch
    (the mean, [-2000], is clipped at [-1000] first). *)
Lemma invalid_penalty_is_not_the_plain_mean :
  exists loss_dict train_loss tr' mse rank cql pred_invalid extra,
    run (compute_loss no_ranking no_context no_context
                      pessimist mixed_batch "mse" true 0 None)
    = (Ok (loss_dict, train_loss), tr') /\
    dict_get "mse_loss" loss_dict = Some mse /\
    dict_get "avg_ranking_train_loss" loss_dict = Some rank /\
    dict_get "cql_loss" loss_dict = Some cql /\
    getitem mixed_batch "invalid/design" = Ok [[0; 0]; [1; 1]] /\
    call pessimist (Single [[0; 0]; [1; 1]]) true
    = Ok (pred_invalid, extra) /\
    reduce_mean pred_invalid = -2000 /\
    train_loss
    <> mse + 0 * rank + cql_alpha_value pessimist * cql
       + infeasible_alpha pessimist * reduce_mean pred_invalid.
Proof.
  destruct pessimist_mixed_run
    as (ld & tl & tr' & mse & rank & cql & E & Hmse & Hrank & Hcql & Htl).
  assert (Hmean : reduce_mean (map (fun _ : vec => -2000) [[0; 0]; [1; 1]])
                  = -2000).
  { unfold reduce_mean. simpl. lra. }
  eexists ld, tl, tr', mse, rank, cql, _, _.
  split; [exact E|]. split; [exact Hmse|]. split; [exact Hrank|].
  split; [exact Hcql|]. split; [reflexivity|].
  split; [apply pessimist_call|]. split; [exact Hmean|].
  rewrite Htl, Hmean. simpl. lra.
Qed.

Lemma invalid_penalty_is_gated_by_inp_batch_type_witness :
  (exists loss_dict train_loss tr' mse rank cql pred_invalid extra,
      run (compute_loss no_ranking no_context no_context
                        pessimist mixed_batch "mse" true 0 None)
      = (Ok (loss_dict, train_loss), tr') /\
      dict_get "mse_loss" loss_dict = Some mse /\
      dict_get "avg_ranking_train_loss" loss_dict = Some rank /\
      dict_get "cql_loss" loss_dict = Some cql /\
      In {| ev_site := CallInvalid;
            ev_inputs := Single [[0; 0]; [1; 1]];
            ev_training := true |} tr' /\
      call pessimist (Single [[0; 0]; [1; 1]]) true
      = Ok (pred_invalid, extra) /\
      train_loss
      = mse + 0 * rank + cql_alpha_value pessimist * cql
        + infeasible_alpha pessimist
          * clip_by_value (reduce_mean pred_invalid) (-1000) 1000000) /\
  (exists loss_dict train_loss tr' mse rank cql,
      run (compute_loss no_ranking no_context no_context
                        pessimist valid_batch "mse" true 0 (Some "valid"))
      = (Ok (loss_dict, train_loss), tr') /\
      dict_get "mse_loss" loss_dict = Some mse /\
      dict_get "avg_ranking_train_loss" loss_dict = Some rank /\
      dict_get "cql_loss" loss_dict = Some cql /\
      train_loss = mse + 0 * rank + cql_alpha_value pessimist * cql /\
      forall ev, In ev tr' -> ev_site ev <> CallInvalid).
Proof.
  split.
  - pose (out := run (compute_loss no_ranking no_context no_context
                                   pessimist mixed_batch "mse" true 0 None)).
    destruct (invalid_penalty_is_gated_by_inp_batch_type
                no_ranking no_context no_context pessimist mixed_batch
                "mse" true 0 None
                (fst (returned ([], 0) out)) (snd (returned ([], 0) out))
                (snd out) eq_refl)
      as (mse & rank & cql & Hmse & Hrank & Hcql & Htail).
    simpl in Htail.
    destruct Htail as (d & inp & pi & ex & Hd & Hshape & Hin & Hcall & Htl).
    injection Hd as <-.
    destruct Hshape as [->|[c ->]]; [|discriminate Hcall].
    exists (fst (returned ([], 0) out)), (snd (returned ([], 0) out)),
           (snd out), mse, rank, cql, pi, ex.
    split; [reflexivity|]. split; [exact Hmse|]. split; [exact Hrank|].
    split; [exact Hcql|]. split; [exact Hin|]. split; [exact Hcall|].
    exact Htl.
  - pose (out := run (compute_loss no_ranking no_context no_context
                                   pessimist valid_batch "mse" true 0
                                   (Some "valid"))).
    destruct (invalid_penalty_is_gated_by_inp_batch_type
                no_ranking no_context no_context pessimist valid_batch
                "mse" true 0 (Some "valid")
                (fst (returned ([], 0) out)) (snd (returned ([], 0) out))
                (snd out) eq_refl)
      as (mse & rank & cql & Hmse & Hrank & Hcql & Htail).
    simpl in Htail. destruct Htail as [Htl Hno].
    exists (fst (returned ([], 0) out)), (snd (returned ([], 0) out)),
           (snd out), mse, rank, cql.
    split; [reflexivity|]. split; [exact Hmse|]. split; [exact Hrank|].
    split; [exact Hcql|]. split; [exact Htl | exact Hno].
Defined.

(** [perform_training] never passes [inp_batch_type]: on a batch
    without invalid examples the invalid branch of [compute_loss] is
    entered and the lookup of ['invalid/design'] fails. *)
Example perform_training_on_valid_batch_raises :
  fst (run (perform_training no_ranking no_context no_context
                             pessimist valid_batch "mse" 0))
  = Raise (KeyError "invalid/design").
Proof. reflexivity. Qed.

(** [measure_stats] with [batch_type='valid'] returns on the same
    batch. *)
Example measure_stats_on_valid_batch_returns :
  is_ok (fst (run (measure_stats no_ranking no_context no_context
                                 pessimist valid_batch (Some "valid"))))
  = true.
Proof. reflexivity. Qed.

End TrainingObjectiveExamples.

(* ================================================================== *)
(** * The dataset *)

Section Dataset.
Import Py Data DataSpec DataExamples.
Local Open Scope Q_scope.
Local Open Scope string_scope.

Lemma rbind_ok_inv {A B} (r : result A) (k : A -> result B) b :
  rbind r k = Ok b -> exists a, r = Ok a /\ k a = Ok b.
Proof. destruct r as [a|e]; simpl; [eauto | discriminate]. Qed.

(** What [get_score_function] returns, when it does. *)
Lemma get_score_function_ok tf tf_with_score :
  get_score_function tf = Ok tf_with_score ->
  runtime tf <> [] /\
  tf_with_score
  = {| params := params tf;
       area := area tf;
       runtime := runtime tf;
       score := map inject_Z (map (fun r => wrap32 (- r)) (runtime tf));
       infeasible := infeasible tf |}.
Proof.
  unfold get_score_function.
  destruct (runtime tf) as [|r rs]; simpl; [discriminate|].
  intros H. injection H as <-. split; [discriminate | reflexivity].
Qed.

(** The score column of a loaded dataset: the runtime of each record,
    converted to int32, negated. *)
Lemma score_of_loaded_dataset config data ds :
  PRIMEDataset_init config data = Ok ds ->
  score (_tf_dataset ds)
  = map (fun q => inject_Z (wrap32 (- to_int32 q))) (column "runtime" data).
Proof.
  unfold PRIMEDataset_init. intros H.
  apply rbind_ok_inv in H as ([[space lengths] splits] & _ & H).
  apply rbind_ok_inv in H as (tf & Htf & H).
  apply rbind_ok_inv in H as (tf' & Hscore & H). injection H as <-. simpl.
  apply get_score_function_ok in Hscore as [_ ->]. simpl.
  unfold _convert_to_tf_dataset in Htf.
  apply rbind_ok_inv in Htf as (cols & _ & Htf). injection Htf as <-. simpl.
  now rewrite !map_map.
Qed.

(** C5.  A record whose runtime is [1.5] is loaded with score [-1]: the
    runtime column goes through the int32 conversion before it is
    negated, so the score is not [-runtime]. *)
Theorem score_is_minus_truncated_runtime :
  exists ds,
    PRIMEDataset_init config [make_record (3 # 2) 10 0] = Ok ds /\
    column "runtime" [make_record (3 # 2) 10 0] = [3 # 2] /\
    runtime (_tf_dataset ds) = [1%Z] /\
    score (_tf_dataset ds) = [-1 # 1] /\
    ~ (-1 # 1) == - (3 # 2).
Proof.
  eexists. split; [vm_compute; reflexivity|].
  repeat split; try reflexivity. intros H. discriminate H.
Qed.

(** Without ['batch_size'] in [params_dict] the attribute [_batch_size]
    is never assigned, and every sampler fails on reading it. *)
Lemma samplers_need_batch_size_attr (self : HardwareOptProblem) rng :
  _batch_size self = None ->
  get_valid_only_batch self rng = Raise (AttributeError "_batch_size") /\
  get_mixed_batch self rng = Raise (AttributeError "_batch_size") /\
  get_all_batch self rng = Raise (AttributeError "_batch_size") /\
  get_training_batch self rng = Raise (AttributeError "_batch_size").
Proof.
  intros H.
  unfold get_training_batch, get_valid_only_batch, get_mixed_batch,
    get_all_batch, get_batch_size_attr.
  rewrite H. simpl.
  destruct (is_str _ "valid"); [|destruct (is_str _ "mixed")]; auto.
Qed.

(** C9.  With an empty [params_dict] the problem is constructed, with
    [batch_size = 256], but [_batch_size] is unset and drawing a
    training batch raises [AttributeError]. *)
Theorem missing_batch_size_breaks_sampling :
  exists problem,
    HardwareOptProblem_init config records (Some []) = Ok problem /\
    batch_size problem = 256%Z /\
    _batch_size problem = None /\
    forall rng,
      get_training_batch problem rng = Raise (AttributeError "_batch_size") /\
      get_valid_only_batch problem rng
      = Raise (AttributeError "_batch_size").
Proof.
  destruct (HardwareOptProblem_init config records (Some []))
    as [problem|e] eqn:E; [|vm_compute in E; discriminate E].
  assert (Hb : batch_size problem = 256%Z /\ _batch_size problem = None)
    by (vm_compute in E; injection E as <-; split; reflexivity).
  destruct Hb as [Hb Hn].
  exists problem. repeat split; try assumption;
    now apply samplers_need_batch_size_attr.
Qed.


(** ** Sampling from an empty partition *)

Lemma Qsum_all_zero (l : list Q) :
  Forall (fun f => f == 0) l -> Qsum l == 0.
Proof.
  induction 1 as [|f l Hf _ IH]; simpl; [reflexivity|].
  rewrite Hf, IH. reflexivity.
Qed.

Lemma np_div_by_zero_sum (s : Q) (l : list Q) :
  s == 0 -> Forall (fun f => f == 0) l ->
  map (fun f => np_div f s) l = map (fun _ => NaN) l.
Proof.
  intros Hs. apply Qeq_bool_iff in Hs.
  induction 1 as [|f l Hf _ IH]; simpl; [reflexivity|].
  rewrite IH. f_equal. unfold np_div. rewrite Hs.
  apply Qeq_bool_iff in Hf. now rewrite Hf.
Qed.

Lemma np_div_all_nan (l : list Q) :
  Forall (fun f => f == 0) l ->
  map (fun f => np_div f (Qsum l)) l = map (fun _ => NaN) l.
Proof.
  intros Hl. apply np_div_by_zero_sum; [apply Qsum_all_zero|]; exact Hl.
Qed.

Lemma choice_rejects_nan {A} rng pop_size size (l : list A) :
  is_ok (np_random_choice rng pop_size size (map (fun _ => NaN) l)) = false.
Proof.
  unfold np_random_choice. destruct (as_size size) as [n|e]; simpl; auto.
  destruct (_ && _); auto. destruct (negb _); auto.
  destruct l; reflexivity.
Qed.

Lemma init_probs config data params problem :
  HardwareOptProblem_init config data params = Ok problem ->
  get_feasible_probs (dataset problem)
                     (truthy (_add_area_constraints problem))
  = Ok (feasible_probs problem, infeasible_probs problem).
Proof.
  unfold HardwareOptProblem_init. destruct params as [params|]; [|discriminate].
  intros H. apply rbind_ok_inv in H as (ds & _ & H).
  apply rbind_ok_inv in H as ([fp ip] & Hp & H).
  injection H as <-. exact Hp.
Qed.

(** The feasible array is computed without the area constraint only. *)
Lemma feasible_array_ok (ds : PRIMEDataset) (add : bool) feasible :
  feasible_array ds add = Ok feasible ->
  add = false /\ feasible = map (fun i => 1 - i) (_infeasible_np ds).
Proof.
  unfold feasible_array. destruct add; [discriminate|].
  intros H. injection H as <-. now split.
Qed.

Lemma get_feasible_probs_ok (ds : PRIMEDataset) (add : bool) fp ip :
  get_feasible_probs ds add = Ok (fp, ip) ->
  exists feasible,
    feasible_array ds add = Ok feasible /\
    fp = map (fun f => np_div f (Qsum feasible)) feasible /\
    ip = map (fun f => np_div f (Qsum (map (fun f => 1 - f) feasible)))
             (map (fun f => 1 - f) feasible).
Proof.
  unfold get_feasible_probs. intros H.
  apply rbind_ok_inv in H as (feasible & Hf & H). injection H as <- <-.
  exists feasible. auto.
Qed.





(** ** The feasibility partition *)

(** C6.  On the three loaded records (areas 10, 10 and 50, the third
    one flagged infeasible) both partitions are non-empty, and the
    claim gives the probabilities (1/2, 1/2, 0) and (0, 0, 1) under
    the area constraint.  The code returns no probabilities there:
    with [add_area_constraints], on every dataset, [get_feasible_probs]
    raises [TypeError] at the comparison of the stored int32 area with
    the float threshold, and so does the constructor of
    [HardwareOptProblem].  Without the constraint it returns. *)
Theorem get_feasible_probs_rejects_area_constraint :
  PRIMEDataset_init config records = Ok example_dataset /\
  column "area" records = [10; 10; 50] /\
  column "infeasible" records = [0; 0; 1] /\
  area (_tf_dataset example_dataset) = [10; 10; 50]%Z /\
  get_feasible_probs example_dataset true
  = Raise (TypeError "Cannot convert 27.0 to EagerTensor of dtype int32") /\
  (forall ds : PRIMEDataset,
      get_feasible_probs ds true
      = Raise (TypeError
                 "Cannot convert 27.0 to EagerTensor of dtype int32")) /\
  HardwareOptProblem_init
    config records
    (Some [("batch_size", PyInt 2); ("batch_type", PyStr "mixed");
           ("add_area_constraints", PyBool true)])
  = Raise (TypeError "Cannot convert 27.0 to EagerTensor of dtype int32") /\
  is_ok (get_feasible_probs example_dataset false) = true.
Proof.
  split; [vm_compute; reflexivity|].
  split; [reflexivity|]. split; [reflexivity|].
  split; [vm_compute; reflexivity|].
  split; [reflexivity|]. split; [reflexivity|].
  split; vm_compute; reflexivity.
Qed.

(** On a well-formed dataset the array [feasible] is the 0/1 indicator
    of the feasible records. *)
Lemma feasible_array_is_indicator (ds : PRIMEDataset) :
  well_formed ds ->
  feasible_array ds false = Ok (indicator (feasible_records ds)).
Proof.
  unfold well_formed, feasible_array, feasible_records, indicator.
  intros Hflags. f_equal. rewrite map_map.
  induction Hflags as [|i flags Hi _ IH]; simpl; [reflexivity|].
  rewrite IH. f_equal. unfold is_feasible.
  destruct Hi as [-> | ->]; reflexivity.
Qed.

Lemma Qsum_indicator (bs : list bool) :
  Qsum (indicator bs) == inject_Z (Z.of_nat (count bs)).
Proof.
  unfold indicator, count. induction bs as [|b bs IH]; [reflexivity|].
  destruct b; cbn [map filter Qsum fold_right List.length].
  - change (fold_right Qplus 0 ?l) with (Qsum l) in *. rewrite IH.
    rewrite Nat2Z.inj_succ, <- Z.add_1_l, inject_Z_plus. reflexivity.
  - change (fold_right Qplus 0 ?l) with (Qsum l) in *. rewrite IH.
    ring.
Qed.

Lemma count_pos (bs : list bool) : In true bs -> (0 < count bs)%nat.
Proof.
  unfold count. intros H.
  assert (Hin : In true (filter (fun b : bool => b) bs))
    by (apply filter_In; auto).
  destruct (filter _ bs); [contradiction | simpl; lia].
Qed.

Lemma Qsum_map_div (l : list Q) (s : Q) :
  Qsum (map (fun f => f / s) l) == Qsum l / s.
Proof.
  induction l as [|f l IH]; simpl.
  - unfold Qdiv. ring.
  - change (fold_right Qplus 0 ?l) with (Qsum l) in *. rewrite IH.
    unfold Qdiv. ring.
Qed.

(** Normalising a 0/1 array with at least one 1 gives finite
    probabilities that sum to 1 and are uniform over the 1s. *)
Lemma normalised_indicator (bs : list bool) :
  In true bs ->
  exists ps,
    map (fun f => np_div f (Qsum (indicator bs))) (indicator bs)
    = map Finite ps /\
    Qsum ps == 1 /\
    Forall2 Qeq ps (uniform_over bs).
Proof.
  intros Hin. pose proof (count_pos bs Hin) as Hpos.
  pose proof (Qsum_indicator bs) as Hsum.
  assert (Hnz : ~ Qsum (indicator bs) == 0).
  { rewrite Hsum. intros H. apply (Qeq_bool_iff _ _) in H.
    change (Qeq_bool (inject_Z (Z.of_nat (count bs))) 0)
      with (Z.eqb (Z.of_nat (count bs) * 1) (0 * 1)) in H.
    apply Z.eqb_eq in H. lia. }
  exists (map (fun f => f / Qsum (indicator bs)) (indicator bs)).
  split; [|split].
  - rewrite map_map. apply map_ext. intros f. unfold np_div.
    destruct (Qeq_bool (Qsum (indicator bs)) 0) eqn:E; [|reflexivity].
    apply Qeq_bool_iff in E. contradiction.
  - rewrite Qsum_map_div. field. exact Hnz.
  - unfold uniform_over. generalize (count bs) Hsum.
    generalize (Qsum (indicator bs)). intros s n Hs.
    unfold indicator. rewrite map_map. clear Hin Hpos Hsum Hnz.
    induction bs as [|b bs IH]; simpl; constructor.
    + destruct b; [now rewrite Hs | unfold Qdiv; ring].
    + apply IH.
Qed.

Lemma Forall2_map_both {A B C} (R : B -> C -> Prop) (f : A -> B) (g : A -> C)
      (l : list A) :
  (forall a, R (f a) (g a)) -> Forall2 R (map f l) (map g l).
Proof. intros H. induction l; simpl; constructor; auto. Qed.

Lemma count_negb (bs : list bool) :
  count (map negb bs) = List.length (filter negb bs).
Proof.
  unfold count. induction bs as [|[] bs IH]; simpl; auto.
Qed.

Lemma indicator_negb (bs : list bool) :
  map (fun f => 1 - f) (indicator bs) = indicator (map negb bs).
Proof.
  unfold indicator. rewrite !map_map. apply map_ext. now intros [].
Qed.

(** A dataset loaded from records with 0/1 flags is well formed. *)
Lemma loaded_dataset_well_formed config data ds :
  Forall complete_record data ->
  PRIMEDataset_init config data = Ok ds ->
  well_formed ds.
Proof.
  intros Hdata H. unfold PRIMEDataset_init in H.
  apply rbind_ok_inv in H as ([[space lengths] splits] & _ & H).
  apply rbind_ok_inv in H as (tf & Htf & H).
  apply rbind_ok_inv in H as (tf' & _ & H). injection H as <-.
  unfold _convert_to_tf_dataset in Htf.
  apply rbind_ok_inv in Htf as (cols & _ & Htf). injection Htf as <-.
  unfold well_formed. simpl.
  rewrite Forall_map, Forall_map.
  induction Hdata as [|p data Hi _ IH]; simpl; [constructor|].
  destruct Hi as [Hi|Hi]; rewrite Hi; constructor; auto.
Qed.

End Dataset.

(* ================================================================== *)
(** * More on the negative-sample generator *)

Section AscentLoop.
Import Py Tensor Model Spec Examples.
Local Open Scope R_scope.
Local Open Scope string_scope.

(** With [num_gradient_infer_steps = 0] the generator returns the
    design tensor of the batch unchanged and runs no forward pass (in
    the contextual model the batch must carry ['context_id']). *)
Theorem infer_negatives_zero_steps_is_identity
    self (batch : dict tensor) (design : tensor) tr :
  num_gradient_infer_steps self = 0%nat ->
  getitem batch "design" = Ok design ->
  (contextual self = true -> dict_has "context_id" batch = true) ->
  exists negatives,
    infer_negatives self batch tr = (Ok negatives, tr) /\
    getitem negatives "design" = Ok design.
Proof.
  intros Hn Hd Hctx. unfold infer_negatives, bind, lift, ret.
  rewrite Hd, Hn. destruct (contextual self) eqn:Hc.
  - specialize (Hctx eq_refl). unfold dict_has in Hctx. unfold getitem.
    destruct (dict_get "context_id" batch) as [c|]; [|discriminate].
    simpl. unfold dict_has. destruct (dict_get "context_id" batch); simpl;
      eexists; split; reflexivity.
  - simpl. rewrite andb_false_r. eexists. split; reflexivity.
Qed.

Lemma infer_negatives_zero_steps_is_identity_witness :
  exists negatives,
    infer_negatives pessimist valid_batch [] = (Ok negatives, []) /\
    getitem negatives "design" = Ok [[1; 0]; [0; 1]].
Proof.
  apply (infer_negatives_zero_steps_is_identity
           pessimist valid_batch [[1; 0]; [0; 1]] [] eq_refl eq_refl).
  intros H. discriminate H.
Defined.

(** The ascent loop of the non-contextual model on a non-empty batch:
    it returns, keeps the number of rows, and records one
    inference-mode forward pass per iteration. *)
Lemma infer_loop_plain self steps (x0 : vec) (rest : tensor) tr :
  contextual self = false ->
  exists y0 rest' evs,
    infer_loop self None steps (x0 :: rest) tr
    = (Ok (y0 :: rest'), (tr ++ evs)%list) /\
    List.length rest' = List.length rest /\
    List.length evs = steps /\
    Forall infer_pass evs.
Proof.
  intros Hc. revert x0 rest tr.
  induction steps as [|n IH]; intros x0 rest tr.
  - exists x0, rest, []. simpl. unfold ret. rewrite app_nil_r. auto.
  - change (infer_loop self None (S n) (x0 :: rest) tr)
      with (bind (forward CallInfer self (Single (x0 :: rest)) false)
              (fun _ =>
                 bind (lift (rows_of self (Single (x0 :: rest))))
                   (fun rows =>
                      bind (lift (first_row
                                    (map (fun row =>
                                            input_gradient self (fst row)
                                                           (snd row)) rows)))
                        (fun g0 =>
                           infer_loop self None n
                             (map (axpy (opt_lr self) g0) (x0 :: rest)))))
              tr).
    unfold bind at 1. unfold forward, call, rows_of. rewrite Hc. simpl rbind.
    unfold bind, lift. simpl map. simpl first_row. cbv iota beta.
    destruct (IH (axpy (opt_lr self) (input_gradient self x0 None) x0)
                 (map (axpy (opt_lr self) (input_gradient self x0 None)) rest)
                 (tr ++ [ {| ev_site := CallInfer;
                             ev_inputs := Single (x0 :: rest);
                             ev_training := false |} ])%list)
      as (y0 & rest' & evs & Hrun & Hlen & Hn & Hevs).
    exists y0, rest',
      ({| ev_site := CallInfer; ev_inputs := Single (x0 :: rest);
          ev_training := false |} :: evs).
    rewrite Hrun. rewrite <- app_assoc. simpl. repeat split.
    + now rewrite Hlen, length_map.
    + now rewrite Hn.
    + constructor; [now split | exact Hevs].
Qed.

Lemma infer_negatives_plain
    self (batch : dict tensor) (x0 : vec) (rest : tensor) tr :
  contextual self = false ->
  getitem batch "design" = Ok (x0 :: rest) ->
  exists negatives evs,
    infer_negatives self batch tr
    = (Ok [("design", negatives)], (tr ++ evs)%list) /\
    List.length negatives = S (List.length rest) /\
    List.length evs = num_gradient_infer_steps self /\
    Forall infer_pass evs.
Proof.
  intros Hc Hd.
  destruct (infer_loop_plain self (num_gradient_infer_steps self) x0 rest tr
                             Hc)
    as (y0 & rest' & evs & Hrun & Hlen & Hn & Hevs).
  exists (y0 :: rest'), evs.
  unfold infer_negatives, bind, lift, ret. rewrite Hd, Hc, Hrun.
  rewrite andb_false_r. simpl. auto.
Qed.

(** In the non-contextual model, on a batch of [B >= 1] designs,
    [infer_negatives] returns [B] rows under the single key ['design']
    after exactly [num_gradient_infer_steps] forward passes, all of
    them with [training=False]. *)
Theorem infer_negatives_keeps_batch_size
    self (batch : dict tensor) (x0 : vec) (rest : tensor) :
  contextual self = false ->
  getitem batch "design" = Ok (x0 :: rest) ->
  exists negatives evs,
    run (infer_negatives self batch) = (Ok [("design", negatives)], evs) /\
    List.length negatives = S (List.length rest) /\
    List.length evs = num_gradient_infer_steps self /\
    Forall infer_pass evs.
Proof.
  intros Hc Hd. unfold run.
  exact (infer_negatives_plain self batch x0 rest [] Hc Hd).
Qed.

Lemma infer_negatives_keeps_batch_size_witness :
  exists negatives evs,
    run (infer_negatives quadratic [("design", [[1]; [2]])])
    = (Ok [("design", negatives)], evs) /\
    List.length negatives = 2%nat /\
    List.length evs = 1%nat /\
    Forall infer_pass evs.
Proof.
  exact (infer_negatives_keeps_batch_size
           quadratic [("design", [[1]; [2]])] [1] [[2]] eq_refl eq_refl).
Defined.

End AscentLoop.

(* ================================================================== *)
(** * More on the training objective *)

Section LossTerms.
Import Py Tensor Model Spec Examples.
Local Open Scope R_scope.
Local Open Scope string_scope.

Variable ranking_loss : vec -> vec -> option tensor -> result R.
Variables ranking_trainable_loss_context kendall_correlation_context
  : vec -> vec -> tensor -> R.

Local Abbreviation compute_loss :=
  (Model.compute_loss ranking_loss ranking_trainable_loss_context
                      kendall_correlation_context).
Local Abbreviation perform_training :=
  (Model.perform_training ranking_loss ranking_trainable_loss_context
                          kendall_correlation_context).
Local Abbreviation measure_stats :=
  (Model.measure_stats ranking_loss ranking_trainable_loss_context
                       kendall_correlation_context).

Lemma reduce_sum_bounds (l : vec) (lo hi : R) :
  Forall (fun x => lo <= x <= hi) l ->
  INR (List.length l) * lo <= reduce_sum l <= INR (List.length l) * hi.
Proof.
  induction 1 as [|x l Hx _ IH].
  - simpl. lra.
  - change (reduce_sum (x :: l)) with (x + reduce_sum l).
    rewrite length_cons, S_INR. lra.
Qed.

Lemma reduce_mean_bounds (l : vec) (lo hi : R) :
  l <> [] ->
  Forall (fun x => lo <= x <= hi) l ->
  lo <= reduce_mean l <= hi.
Proof.
  intros Hl Hall. pose proof (reduce_sum_bounds l lo hi Hall) as Hs.
  assert (Hn : 0 < INR (List.length l)).
  { destruct l; [congruence|]. rewrite length_cons, S_INR.
    pose proof (pos_INR (List.length l)). lra. }
  unfold reduce_mean. split.
  - apply Rmult_le_reg_r with (INR (List.length l)); [exact Hn|].
    unfold Rdiv. rewrite Rmult_assoc, Rinv_l by lra. lra.
  - apply Rmult_le_reg_r with (INR (List.length l)); [exact Hn|].
    unfold Rdiv. rewrite Rmult_assoc, Rinv_l by lra. lra.
Qed.

(** What a successful run of [compute_loss] logs about the negatives. *)
Lemma compute_loss_logs_negatives self data_batch loss_type training
      ranking_penalty_weight inp_batch_type tr loss_dict train_loss tr' :
  compute_loss self data_batch loss_type training
               ranking_penalty_weight inp_batch_type tr
  = (Ok (loss_dict, train_loss), tr') ->
  exists raw tr1 tr2,
    negatives_pass self data_batch training tr1 = (Ok raw, tr2) /\
    let negatives_pred := map (fun p => clip_by_value p (-4000) 4000) raw in
    dict_get "cql_loss" loss_dict
    = Some (clip_by_value (reduce_mean negatives_pred) (-4000) 1000000) /\
    dict_get "negatives_dist" loss_dict = Some (reduce_mean negatives_pred) /\
    dict_get "negatives_pred" loss_dict = Some (reduce_mean negatives_pred).
Proof.
  unfold Model.compute_loss. intros H.
  inv_bind H H1. apply lift_ok_inv in H1 as [Hobj ->].
  cbv zeta in H.
  inv_bind H H1. apply lift_ok_inv in H1 as [Hdes ->].
  inv_bind H H1. destruct a1 as [model_pred extra_dict].
  assert (Hcall : exists inputs,
             call self inputs training = Ok (model_pred, extra_dict)).
  { destruct (contextual self).
    - inv_bind H1 H2. apply lift_ok_inv in H2 as [_ ->].
      apply forward_ok_inv in H1 as [Hc _]. eauto.
    - apply forward_ok_inv in H1 as [Hc _]. eauto. }
  destruct Hcall as (inputs & Hcall).
  destruct (call_ok_inv _ _ _ _ _ Hcall) as (rows & _ & _ & ->).
  inv_bind H Hneg. rename a1 into raw.
  inv_bind H Hrank. inv_bind H Hctx. inv_bind H Hrl.
  exists raw, tr0, tr1. split; [exact Hneg|]. cbv zeta.
  destruct (is_not_valid inp_batch_type).
  - unfold invalid_pass in H.
    inv_bind H Hinv. inv_bind H Hfwd.
    destruct a5 as [pred_invalid invalid_dict].
    assert (Hcalli : exists inputs',
               call self inputs' training = Ok (pred_invalid, invalid_dict)).
    { destruct (contextual self).
      - inv_bind Hfwd H2. apply lift_ok_inv in H2 as [_ ->].
        apply forward_ok_inv in Hfwd as [Hc _]. eauto.
      - apply forward_ok_inv in Hfwd as [Hc _]. eauto. }
    destruct Hcalli as (inputs' & Hcalli).
    destruct (call_ok_inv _ _ _ _ _ Hcalli) as (rowsi & _ & _ & ->).
    cbv zeta in H. inv_bind H Hio.
    apply ret_ok_inv in H as [H _]. injection H as <- _.
    repeat split; reflexivity.
  - apply ret_ok_inv in H as [H _]. injection H as <- _.
    repeat split; reflexivity.
Qed.

(** The raw predictions on the negatives batch of the non-contextual
    model with the built-in generator: one per design of the batch. *)
Lemma negatives_pass_plain_length
    self (data_batch : dict tensor) (x0 : vec) (rest : tensor)
    training tr raw tr' :
  contextual self = false ->
  negative_sampler self = None ->
  getitem data_batch "design" = Ok (x0 :: rest) ->
  negatives_pass self data_batch training tr = (Ok raw, tr') ->
  List.length raw = S (List.length rest).
Proof.
  intros Hc Hs Hd. unfold negatives_pass. rewrite Hs, Hc.
  destruct (infer_negatives_plain self data_batch x0 rest tr Hc Hd)
    as (negatives & evs & Hrun & Hlen & _ & _).
  unfold bind at 1. rewrite Hrun. intros H.
  inv_bind H H1. apply lift_ok_inv in H1 as [H1 ->]. injection H1 as <-.
  inv_bind H H2. destruct a as [p extra].
  apply forward_ok_inv in H2 as [Hcall _].
  apply ret_ok_inv in H as [<- _].
  destruct (call_ok_inv _ _ _ _ _ Hcall) as (rows & Hrows & -> & _).
  unfold rows_of in Hrows. rewrite Hc in Hrows. injection Hrows as <-.
  now rewrite !length_map.
Qed.

(** In the non-contextual model with the built-in generator, on a
    non-empty batch, the second clip of [cql_loss] changes nothing: the
    values logged under ['cql_loss'], ['negatives_dist'] and
    ['negatives_pred'] are one and the same number of [[-4000, 4000]]. *)
Theorem cql_loss_is_the_logged_negatives_mean
    self (data_batch : dict tensor) (x0 : vec) (rest : tensor)
    loss_type training ranking_penalty_weight inp_batch_type
    loss_dict train_loss tr' :
  contextual self = false ->
  negative_sampler self = None ->
  getitem data_batch "design" = Ok (x0 :: rest) ->
  run (compute_loss self data_batch loss_type training
                    ranking_penalty_weight inp_batch_type)
  = (Ok (loss_dict, train_loss), tr') ->
  exists v,
    dict_get "cql_loss" loss_dict = Some v /\
    dict_get "negatives_dist" loss_dict = Some v /\
    dict_get "negatives_pred" loss_dict = Some v /\
    -4000 <= v <= 4000.
Proof.
  intros Hc Hs Hd E. unfold run in E.
  apply compute_loss_logs_negatives in E.
  destruct E as (raw & tr1 & tr2 & Hneg & Hcql & Hdist & Hpred).
  pose proof (negatives_pass_plain_length _ _ _ _ _ _ _ _ Hc Hs Hd Hneg)
    as Hlen.
  assert (Hb : -4000
               <= reduce_mean (map (fun p => clip_by_value p (-4000) 4000) raw)
               <= 4000).
  { apply reduce_mean_bounds.
    - destruct raw; [discriminate Hlen | discriminate].
    - apply Forall_map, Forall_forall. intros p _.
      apply clip_by_value_bounds. lra. }
  eexists. split; [|split; [exact Hdist|split; [exact Hpred|exact Hb]]].
  rewrite Hcql. f_equal. apply clip_by_value_id. lra.
Qed.

(** Without [inp_batch_type], [compute_loss] needs the invalid batch. *)
Lemma compute_loss_unlabelled_needs_invalid_design
    self (batch : dict tensor) loss_type training ranking_penalty_weight tr :
  dict_get "invalid/design" batch = None ->
  is_ok (fst (compute_loss self batch loss_type training
                           ranking_penalty_weight None tr)) = false.
Proof.
  intros Hnone.
  destruct (compute_loss self batch loss_type training
                         ranking_penalty_weight None tr)
    as [[[ld tl]|e] tr'] eqn:E; [|reflexivity].
  apply compute_loss_ok_inv in E.
  destruct E as (? & ? & ? & ? & ? & ? & ? & ? & _ & _ & _ & _ & _ & _ & _
                 & _ & Htail).
  simpl in Htail. destruct Htail as (d & _ & _ & _ & Hd & _).
  unfold getitem in Hd. rewrite Hnone in Hd. discriminate Hd.
Qed.

(** [perform_training] calls [compute_loss] without [inp_batch_type],
    so the branch for the invalid batch always runs: on a batch without
    ['invalid/design'] it never returns.  The same holds for
    [measure_stats] called without [batch_type]. *)
Theorem perform_training_needs_invalid_design
    self (batch : dict tensor) loss_type ranking_penalty_weight :
  dict_get "invalid/design" batch = None ->
  is_ok (fst (run (perform_training self batch loss_type
                                    ranking_penalty_weight))) = false /\
  is_ok (fst (run (measure_stats self batch None))) = false.
Proof.
  intros Hnone.
  unfold run, Model.perform_training, Model.measure_stats, bind. split.
  - pose proof (compute_loss_unlabelled_needs_invalid_design
                  self batch loss_type true ranking_penalty_weight []
                  Hnone) as Hcl.
    destruct (compute_loss _ _ _ _ _ _ []) as [[[ld tl]|e] tr'];
      [discriminate Hcl | reflexivity].
  - pose proof (compute_loss_unlabelled_needs_invalid_design
                  self batch "mse+rank" false 0 [] Hnone) as Hcl.
    destruct (compute_loss _ _ _ _ _ _ []) as [[[ld tl]|e] tr'];
      [discriminate Hcl | reflexivity].
Qed.

End LossTerms.

Section LossTermsExamples.
Import Py Tensor Model Spec Examples.
Local Open Scope R_scope.
Local Open Scope string_scope.

Lemma cql_loss_is_the_logged_negatives_mean_witness :
  exists v,
    dict_get "cql_loss"
      (fst (returned ([], 0)
              (run (compute_loss no_ranking no_context no_context
                                 two_experts valid_batch "mse" true 0
                                 (Some "valid")))))
    = Some v /\
    -4000 <= v <= 4000.
Proof.
  pose (out := run (compute_loss no_ranking no_context no_context
                                 two_experts valid_batch "mse" true 0
                                 (Some "valid"))).
  destruct (cql_loss_is_the_logged_negatives_mean
              no_ranking no_context no_context two_experts valid_batch
              [1; 0] [[0; 1]] "mse" true 0 (Some "valid")
              (fst (returned ([], 0) out)) (snd (returned ([], 0) out))
              (snd out) eq_refl eq_refl eq_refl eq_refl)
    as (v & Hc & _ & _ & Hb).
  exists v. split; [exact Hc | exact Hb].
Defined.

Lemma perform_training_needs_invalid_design_witness :
  is_ok (fst (run (perform_training no_ranking no_context no_context
                                    two_experts valid_batch "mse" 0)))
  = false.
Proof.
  exact (proj1 (perform_training_needs_invalid_design
                  no_ranking no_context no_context two_experts valid_batch
                  "mse" 0 eq_refl)).
Defined.

End LossTermsExamples.

(* ================================================================== *)
(** * The regression and ranking measures *)

Section Measures.
Import Py Tensor Model Spec Examples.
Local Open Scope R_scope.

Lemma reduce_sum_nonneg (l : vec) :
  Forall (fun x => 0 <= x) l -> 0 <= reduce_sum l.
Proof.
  induction 1 as [|x l Hx _ IH]; simpl; lra.
Qed.

Lemma reduce_mean_nonneg (l : vec) :
  Forall (fun x => 0 <= x) l -> 0 <= reduce_mean l.
Proof.
  intros H. pose proof (reduce_sum_nonneg l H) as Hs.
  unfold reduce_mean. destruct l as [|x l].
  - simpl. unfold Rdiv. rewrite Rmult_0_l. lra.
  - apply Rmult_le_pos; [exact Hs|].
    apply Rlt_le, Rinv_0_lt_compat.
    rewrite length_cons, S_INR. pose proof (pos_INR (List.length l)). lra.
Qed.

Lemma reduce_sum_zero (l : vec) :
  Forall (fun x => x = 0) l -> reduce_sum l = 0.
Proof.
  induction 1 as [|x l Hx _ IH]; simpl; lra.
Qed.

Lemma mul_nonneg (a b : vec) :
  Forall (fun x => 0 <= x) a -> Forall (fun x => 0 <= x) b ->
  Forall (fun x => 0 <= x) (mul a b).
Proof.
  intros Ha. revert b. unfold mul.
  induction Ha as [|x a Hx _ IH]; intros b Hb; [constructor|].
  destruct Hb as [|y b Hy Hb]; simpl; constructor.
  - now apply Rmult_le_pos.
  - now apply IH.
Qed.

Lemma mul_zero_l (a b : vec) :
  Forall (fun x => x = 0) a -> Forall (fun x => x = 0) (mul a b).
Proof.
  intros Ha. revert b. unfold mul.
  induction Ha as [|x a Hx _ IH]; intros [|y b]; simpl; constructor.
  - subst x. ring.
  - apply IH.
Qed.

(** On a non-empty batch with one target and one weight per
    prediction, [weighted_mse_loss] and [weighted_approx_loss] are
    non-negative when the weights are, and vanish when the prediction
    equals the target. *)
Theorem weighted_losses_sign (input target weight : vec) :
  input <> [] ->
  List.length target = List.length input ->
  List.length weight = List.length input ->
  Forall (fun w => 0 <= w) weight ->
  0 <= weighted_mse_loss input target weight /\
  0 <= weighted_approx_loss input target weight /\
  weighted_mse_loss target target weight = 0 /\
  weighted_approx_loss target target weight = 0.
Proof.
  intros _ _ _ Hw. unfold weighted_mse_loss, weighted_approx_loss. cbv zeta.
  repeat split.
  - apply reduce_mean_nonneg, mul_nonneg; [|exact Hw].
    apply Forall_map, Forall_forall. intros p _.
    apply pow2_ge_0.
  - apply reduce_mean_nonneg, mul_nonneg; [|exact Hw].
    apply Forall_map, Forall_forall. intros p _.
    pose proof (Rabs_pos (fst p - snd p)). pose proof (Rabs_pos (snd p)).
    apply Rmult_le_pos; [assumption|].
    apply Rlt_le, Rinv_0_lt_compat. lra.
  - unfold reduce_mean. rewrite reduce_sum_zero; [unfold Rdiv; ring|].
    apply mul_zero_l, Forall_map.
    induction target as [|t target IH]; simpl; constructor; [|exact IH].
    simpl. ring.
  - unfold reduce_mean. rewrite reduce_sum_zero; [unfold Rdiv; ring|].
    apply mul_zero_l, Forall_map.
    induction target as [|t target IH]; simpl; constructor; [|exact IH].
    simpl. replace (t - t) with 0 by ring. rewrite Rabs_R0.
    unfold Rdiv. ring.
Qed.

Lemma weighted_losses_sign_witness :
  0 <= weighted_mse_loss [1; 2] [3; 5] [1; 1] /\
  0 <= weighted_approx_loss [1; 2] [3; 5] [1; 1] /\
  weighted_mse_loss [3; 5] [3; 5] [1; 1] = 0 /\
  weighted_approx_loss [3; 5] [3; 5] [1; 1] = 0.
Proof.
  apply (weighted_losses_sign [1; 2] [3; 5] [1; 1]).
  - discriminate.
  - reflexivity.
  - reflexivity.
  - repeat constructor; lra.
Defined.

(** ** Pairwise differences *)

Lemma flat_map_diff_length (w v : vec) :
  List.length (flat_map (fun a => map (fun b => a - b) v) w)
  = (List.length w * List.length v)%nat.
Proof.
  induction w as [|a w IH]; simpl; [reflexivity|].
  now rewrite length_app, length_map, IH.
Qed.

Lemma pairwise_diff_length (v : vec) :
  List.length (pairwise_diff v) = (List.length v * List.length v)%nat.
Proof. apply flat_map_diff_length. Qed.

Lemma flat_map_diff_affine (a b : R) (w v : vec) :
  flat_map (fun x => map (fun y => x - y) (map (fun x => a * x + b) v))
           (map (fun x => a * x + b) w)
  = map (fun d => a * d) (flat_map (fun x => map (fun y => x - y) v) w).
Proof.
  induction w as [|x w IH]; simpl; [reflexivity|].
  rewrite map_app, IH. f_equal. rewrite !map_map.
  apply map_ext. intros y. ring.
Qed.

Lemma pairwise_diff_affine (a b : R) (v : vec) :
  pairwise_diff (map (fun x => a * x + b) v)
  = map (fun d => a * d) (pairwise_diff v).
Proof. apply flat_map_diff_affine. Qed.

Lemma pairwise_diff_constant (c : R) (v : vec) :
  Forall (fun x => x = c) v -> Forall (fun d => d = 0) (pairwise_diff v).
Proof.
  intros Hv. unfold pairwise_diff.
  assert (H : forall w, Forall (fun x => x = c) w ->
                        Forall (fun d => d = 0)
                               (flat_map (fun a => map (fun b => a - b) v) w)).
  { induction 1 as [|x w Hx _ IH]; simpl; [constructor|].
    apply Forall_app. split; [|exact IH].
    apply Forall_map. eapply Forall_impl; [|exact Hv].
    intros y Hy. simpl in Hy. subst. ring. }
  now apply H.
Qed.

Lemma sign_zero : sign 0 = 0.
Proof.
  unfold sign. destruct (Rlt_dec 0 0); [lra|].
  destruct (Rlt_dec 0 0); [lra | reflexivity].
Qed.

Lemma sign_scale (a x : R) : 0 < a -> sign (a * x) = sign x.
Proof.
  intros Ha. unfold sign.
  destruct (Rlt_dec 0 x) as [Hx|Hx].
  - destruct (Rlt_dec 0 (a * x)) as [|H]; [reflexivity|].
    exfalso. apply H. now apply Rmult_lt_0_compat.
  - destruct (Rlt_dec 0 (a * x)) as [H|_].
    + exfalso. apply Hx.
      destruct (Rle_lt_dec x 0) as [Hle|]; [|assumption].
      assert (a * x <= 0) by nra. lra.
    + destruct (Rlt_dec x 0) as [Hn|Hn].
      * destruct (Rlt_dec (a * x) 0) as [|H]; [reflexivity|].
        exfalso. apply H. nra.
      * destruct (Rlt_dec (a * x) 0) as [H|]; [|reflexivity].
        exfalso. assert (x = 0) by lra. subst. lra.
Qed.

Lemma sign_square_nonneg (x : R) : 0 <= sign x * sign x.
Proof.
  unfold sign. destruct (Rlt_dec 0 x); [lra|]. destruct (Rlt_dec x 0); lra.
Qed.

(** ** Kendall's correlation *)

Section Kendall.
Variable kendall_correlation_context : vec -> vec -> tensor -> R.

Local Abbreviation kendall_correlation :=
  (Model.kendall_correlation kendall_correlation_context).

Lemma reduce_sum_all_ones (l : vec) :
  Forall (fun x => x = 1) l -> reduce_sum l = INR (List.length l).
Proof.
  induction 1 as [|x l Hx _ IH]; [reflexivity|].
  change (reduce_sum (x :: l)) with (x + reduce_sum l).
  rewrite length_cons, S_INR, IH. lra.
Qed.

(** When no pair is discordant the correlation is 1. *)
Lemma kendall_correlation_all_concordant (input target : vec) :
  (2 <= List.length input)%nat ->
  List.length target = List.length input ->
  Forall (fun p => 0 <= sign (fst p) * sign (snd p))
         (combine (pairwise_diff input) (pairwise_diff target)) ->
  kendall_correlation input target None = 1.
Proof.
  intros Hn Hlen Hall. unfold Model.kendall_correlation. cbv zeta.
  rewrite reduce_sum_all_ones.
  - rewrite !length_map, length_combine, !pairwise_diff_length, Hlen,
      Nat.min_id, mult_INR.
    assert (2 <= INR (List.length input)).
    { change 2 with (INR 2). now apply le_INR. }
    field. split; lra.
  - rewrite map_map. apply Forall_map.
    eapply Forall_impl; [|exact Hall].
    intros p Hp. simpl.
    destruct (Rle_dec 0 (sign (fst p) * sign (snd p))); [reflexivity|].
    contradiction.
Qed.

(** On a batch of at least two examples, predictions that agree with
    the targets get Kendall correlation 1. *)
Theorem kendall_correlation_of_perfect_prediction (target : vec) :
  (2 <= List.length target)%nat ->
  kendall_correlation target target None = 1.
Proof.
  intros Hn. apply kendall_correlation_all_concordant; auto.
  generalize (pairwise_diff target). intros l.
  induction l as [|d l IH]; simpl; constructor; auto.
  apply sign_square_nonneg.
Qed.

(** A pair with equal predictions counts as concordant: a model that
    predicts the same value for every example of the batch gets
    Kendall correlation 1, whatever the targets. *)
Theorem kendall_correlation_of_constant_prediction
    (c : R) (input target : vec) :
  (2 <= List.length input)%nat ->
  List.length target = List.length input ->
  Forall (fun x => x = c) input ->
  kendall_correlation input target None = 1.
Proof.
  intros Hn Hlen Hc. apply kendall_correlation_all_concordant; auto.
  pose proof (pairwise_diff_constant c input Hc) as Hz.
  revert Hz. generalize (pairwise_diff input) (pairwise_diff target).
  intros l. induction l as [|d l IH]; intros [|e m] Hz; simpl;
    try constructor.
  - inversion Hz; subst. simpl. rewrite sign_zero. lra.
  - inversion Hz; subst. now apply IH.
Qed.

(** The correlation never exceeds 1. *)
Theorem kendall_correlation_at_most_one (input target : vec) :
  (2 <= List.length input)%nat ->
  List.length target = List.length input ->
  kendall_correlation input target None <= 1.
Proof.
  intros Hn Hlen. unfold Model.kendall_correlation. cbv zeta.
  set (pp := map _ (map _ _)).
  assert (Hb : INR (List.length pp) * 0 <= reduce_sum pp
               <= INR (List.length pp) * 1).
  { apply reduce_sum_bounds. unfold pp. rewrite map_map.
    apply Forall_map, Forall_forall. intros p _.
    destruct (Rle_dec 0 _); lra. }
  assert (Hl : List.length pp
               = (List.length input * List.length input)%nat).
  { unfold pp. now rewrite !length_map, length_combine,
      !pairwise_diff_length, Hlen, Nat.min_id. }
  rewrite Hl, mult_INR in Hb.
  assert (H2 : 2 <= INR (List.length input)).
  { change 2 with (INR 2). now apply le_INR. }
  set (n := INR (List.length input)) in *.
  assert (Hr : (reduce_sum pp - n) / (n * (n - 1)) <= 1).
  { apply Rmult_le_reg_r with (n * (n - 1)); [nra|].
    unfold Rdiv. rewrite Rmult_assoc, Rinv_l by nra. lra. }
  lra.
Qed.

End Kendall.

(** ** The ranking loss used for training *)

Section RankingTrainable.
Variable ranking_trainable_loss_context : vec -> vec -> tensor -> R.

Local Abbreviation ranking_trainable_loss :=
  (Model.ranking_trainable_loss ranking_trainable_loss_context).

Lemma sigmoid_cross_entropy_nonneg (x : R) :
  0 <= sigmoid_cross_entropy_with_logits 1 x.
Proof.
  unfold sigmoid_cross_entropy_with_logits.
  assert (H1 : 0 <= Rmax x 0 - x * 1).
  { unfold Rmax. destruct (Rle_dec x 0); lra. }
  assert (H2 : 0 < ln (1 + exp (- Rabs x))).
  { rewrite <- ln_1. apply ln_increasing; [lra|].
    pose proof (exp_pos (- Rabs x)). lra. }
  lra.
Qed.

(** On a non-empty batch with one target per prediction the ranking
    loss is non-negative. *)
Theorem ranking_trainable_loss_nonneg (input target : vec) :
  input <> [] ->
  List.length target = List.length input ->
  0 <= ranking_trainable_loss input target None.
Proof.
  intros _ _. unfold Model.ranking_trainable_loss. cbv zeta.
  apply reduce_mean_nonneg, Forall_map, Forall_forall. intros x _.
  apply sigmoid_cross_entropy_nonneg.
Qed.

(** The loss reads its first argument (the predictions, in
    [compute_loss]) through the signs of the pairwise differences
    only: on a non-empty batch with one target per prediction,
    rescaling the predictions by a positive factor and shifting them
    leaves the loss unchanged. *)
Theorem ranking_trainable_loss_sees_order_only
    (a b : R) (input target : vec) :
  input <> [] ->
  List.length target = List.length input ->
  0 < a ->
  ranking_trainable_loss (map (fun x => a * x + b) input) target None
  = ranking_trainable_loss input target None.
Proof.
  intros _ _ Ha. unfold Model.ranking_trainable_loss. cbv zeta.
  rewrite pairwise_diff_affine. do 2 f_equal.
  generalize (pairwise_diff input) (pairwise_diff target).
  intros l. induction l as [|d l IH]; intros [|e m]; simpl; try reflexivity.
  rewrite IH, sign_scale by exact Ha. reflexivity.
Qed.

End RankingTrainable.

Lemma kendall_correlation_of_perfect_prediction_witness :
  Model.kendall_correlation no_context [1; 2; 3] [1; 2; 3] None = 1.
Proof.
  apply (kendall_correlation_of_perfect_prediction no_context [1; 2; 3]).
  simpl. lia.
Defined.

Lemma kendall_correlation_of_constant_prediction_witness :
  Model.kendall_correlation no_context [5; 5; 5] [1; 2; 3] None = 1.
Proof.
  apply (kendall_correlation_of_constant_prediction
           no_context 5 [5; 5; 5] [1; 2; 3]).
  - simpl. lia.
  - reflexivity.
  - repeat constructor.
Defined.

Lemma kendall_correlation_at_most_one_witness :
  Model.kendall_correlation no_context [3; 1; 2] [1; 2; 3] None <= 1.
Proof.
  apply (kendall_correlation_at_most_one no_context [3; 1; 2] [1; 2; 3]).
  - simpl. lia.
  - reflexivity.
Defined.

Lemma ranking_trainable_loss_sees_order_only_witness :
  Model.ranking_trainable_loss no_context
    (map (fun x => 2 * x + 1) [1; 2]) [3; 5] None
  = Model.ranking_trainable_loss no_context [1; 2] [3; 5] None.
Proof.
  apply (ranking_trainable_loss_sees_order_only no_context 2 1 [1; 2] [3; 5]).
  - discriminate.
  - reflexivity.
  - lra.
Defined.

Lemma ranking_trainable_loss_nonneg_witness :
  0 <= Model.ranking_trainable_loss no_context [1; 2] [3; 5] None.
Proof.
  apply (ranking_trainable_loss_nonneg no_context [1; 2] [3; 5]).
  - discriminate.
  - reflexivity.
Defined.

End Measures.

(* ================================================================== *)
(** * The layers *)

Section LayerFacts.
Import Py Tensor Layers.
Local Open Scope R_scope.

(** The positional encoding has [position] rows of [d_model] entries,
    all of them within [[-1, 1]]. *)
Theorem positional_encoding_is_bounded (position d_model : nat) :
  List.length (positional_encoding position d_model) = position /\
  Forall (fun row =>
            List.length row = d_model /\
            Forall (fun e => -1 <= e <= 1) row)
         (positional_encoding position d_model).
Proof.
  unfold positional_encoding. split.
  - now rewrite length_map, length_seq.
  - apply Forall_map, Forall_forall. intros pos _. split.
    + now rewrite length_map, length_seq.
    + apply Forall_map, Forall_forall. intros i _.
      destruct (Nat.even i); [apply SIN_bound | apply COS_bound].
Qed.

(** Position 0 is encoded as 0 at the even indices and 1 at the odd
    ones, whatever the width. *)
Theorem positional_encoding_of_first_position (position d_model : nat) :
  nth_error (positional_encoding (S position) d_model) 0
  = Some (map (fun i => if Nat.even i then 0 else 1) (seq 0 d_model)).
Proof.
  unfold positional_encoding. simpl. f_equal.
  apply map_ext. intros i. unfold get_angles. simpl INR.
  rewrite Rmult_0_l. destruct (Nat.even i); [apply sin_0 | apply cos_0].
Qed.

Lemma pieces_partition (sizes : list nat) (x : vec) :
  list_sum sizes = List.length x ->
  List.concat (pieces x sizes) = x /\
  map (@List.length R) (pieces x sizes) = sizes.
Proof.
  revert x. induction sizes as [|n sizes IH]; intros x Hsum; simpl in *.
  - destruct x; [auto | discriminate].
  - destruct (IH (skipn n x)) as [Hc Hl].
    { rewrite length_skipn. lia. }
    rewrite Hc, Hl, firstn_skipn, length_firstn. split; [reflexivity|].
    f_equal. lia.
Qed.

(** The pieces that [SplitEmbeddingLayer.call] feeds to the dense
    layers partition the input: when the split sizes add up to the
    input width, [tf.split] returns pieces of the declared sizes whose
    concatenation is the input; otherwise it fails. *)
Theorem split_pieces_partition_the_input
    (self : SplitEmbeddingLayer) (x : vec) :
  (list_sum (softmax_splits self) = List.length x ->
   exists split_x,
     tf_split x (softmax_splits self) = Ok split_x /\
     List.concat split_x = x /\
     map (@List.length R) split_x = softmax_splits self) /\
  (list_sum (softmax_splits self) <> List.length x ->
   is_ok (tf_split x (softmax_splits self)) = false).
Proof.
  unfold tf_split. split; intros H.
  - apply Nat.eqb_eq in H as Hb. rewrite Hb.
    exists (pieces x (softmax_splits self)). split; [reflexivity|].
    now apply pieces_partition.
  - apply Nat.eqb_neq in H. now rewrite H.
Qed.

Lemma pieces_length (sizes : list nat) (x : vec) :
  List.length (pieces x sizes) = List.length sizes.
Proof.
  revert x. induction sizes as [|n sizes IH]; intros x; simpl; auto.
Qed.

Lemma positional_encoding_length (position d_model : nat) :
  List.length (positional_encoding position d_model) = position.
Proof. unfold positional_encoding. now rewrite length_map, length_seq. Qed.

Lemma positional_encoding_width (position d_model : nat) :
  Forall (fun row => List.length row = d_model)
         (positional_encoding position d_model).
Proof.
  unfold positional_encoding. apply Forall_map, Forall_forall.
  intros pos _. now rewrite length_map, length_seq.
Qed.

Lemma Forall_firstn_keeps {A} (P : A -> Prop) (n : nat) (l : list A) :
  Forall P l -> Forall P (firstn n l).
Proof.
  intros H. revert n.
  induction H as [|a l Ha _ IH]; intros [|n]; simpl; constructor; auto.
Qed.

Lemma Forall_combine {A B} (P : A -> Prop) (Q : B -> Prop)
      (l : list A) (m : list B) :
  Forall P l -> Forall Q m ->
  Forall (fun p => P (fst p) /\ Q (snd p)) (combine l m).
Proof.
  intros Hl. revert m. induction Hl as [|a l Ha _ IH]; intros m Hm; simpl.
  - constructor.
  - destruct Hm as [|b m Hb Hm]; constructor; auto.
Qed.

(** When [SplitEmbeddingLayer.call] returns, and what its rows are. *)
Lemma split_embedding_call_rows (self : SplitEmbeddingLayer) (x : vec) :
  let fields := List.length (softmax_splits self) in
  is_ok (SplitEmbeddingLayer_call self x)
  = Nat.eqb (list_sum (softmax_splits self)) (List.length x)
    && Nat.leb 1 fields && Nat.leb fields 200 /\
  forall out,
    SplitEmbeddingLayer_call self x = Ok out ->
    List.length out = fields /\
    ((forall idx piece,
         List.length (dense_layers self idx piece) = output_size self) ->
     Forall (fun row => List.length row = output_size self) out).
Proof.
  intros fields. unfold SplitEmbeddingLayer_call, tf_split.
  destruct (Nat.eqb (list_sum (softmax_splits self)) (List.length x));
    [|split; [reflexivity | discriminate]].
  cbn [rbind andb].
  set (ms := map _ (combine _ _)).
  assert (Hms : List.length ms = fields).
  { unfold ms. rewrite length_map, length_combine, length_seq, Nat.min_id.
    apply pieces_length. }
  assert (Hrows : (forall idx piece,
                      List.length (dense_layers self idx piece)
                      = output_size self) ->
                  Forall (fun row => List.length row = output_size self) ms).
  { intros Hd. unfold ms. apply Forall_map, Forall_forall.
    intros p _. apply Hd. }
  assert (Henc : List.length (firstn (List.length ms) (pos_encoding self))
                 = Nat.min fields 200).
  { unfold pos_encoding.
    now rewrite length_firstn, positional_encoding_length, Hms. }
  clearbody ms. destruct ms as [|m ms'].
  - simpl in Hms. rewrite <- Hms. split; [reflexivity | discriminate].
  - cbv iota. rewrite Henc, Hms.
    destruct (Nat.leb_spec fields 200) as [Hle|Hgt].
    + rewrite Nat.min_l, Nat.eqb_refl by lia. split.
      * simpl in Hms.
        destruct (Nat.leb_spec 1 fields); [reflexivity | lia].
      * intros out H. injection H as <-. rewrite Hms in Henc.
        change ((List.length
                   (map (fun p : list R * list R =>
                           map (fun e : R * R => fst e + snd e)
                               (combine (fst p) (snd p)))
                        (combine (m :: ms')
                                 (firstn fields (pos_encoding self))))
                 = fields) /\
                ((forall idx piece,
                     List.length (dense_layers self idx piece)
                     = output_size self) ->
                 Forall (fun row => List.length row = output_size self)
                        (map (fun p : list R * list R =>
                                map (fun e : R * R => fst e + snd e)
                                    (combine (fst p) (snd p)))
                             (combine (m :: ms')
                                      (firstn fields (pos_encoding self)))))).
        split.
        -- rewrite length_map, length_combine, Henc, Hms. lia.
        -- intros Hd. apply Forall_map.
           eapply Forall_impl;
             [|apply (Forall_combine _ _ _ _ (Hrows Hd)
                        (Forall_firstn_keeps _ fields _
                           (positional_encoding_width
                              200 (output_size self))))].
           intros p [Hp1 Hp2]. simpl.
           rewrite length_map, length_combine, Hp1, Hp2. apply Nat.min_id.
    + assert (E : Nat.eqb (Nat.min fields 200) fields = false)
        by (apply Nat.eqb_neq; lia).
      rewrite E. split; [|discriminate].
      now destruct (Nat.leb 1 fields).
Qed.

(** [SplitEmbeddingLayer.call] returns exactly when the split sizes add
    up to the input width and there are between 1 and 200 fields; it
    then returns one embedding row per field. *)
Theorem split_embedding_call_shape (self : SplitEmbeddingLayer) (x : vec) :
  let fields := List.length (softmax_splits self) in
  is_ok (SplitEmbeddingLayer_call self x)
  = Nat.eqb (list_sum (softmax_splits self)) (List.length x)
    && Nat.leb 1 fields && Nat.leb fields 200 /\
  forall out,
    SplitEmbeddingLayer_call self x = Ok out -> List.length out = fields.
Proof.
  intros fields.
  destruct (split_embedding_call_rows self x) as [Hok Hout].
  split; [exact Hok|].
  intros out H. exact (proj1 (Hout out H)).
Qed.

(** ** The base network *)

Lemma concat_length_rows (x : tensor) (width : nat) :
  Forall (fun row => List.length row = width) x ->
  List.length (List.concat x) = (List.length x * width)%nat.
Proof.
  induction 1 as [|row x Hrow _ IH]; simpl; [reflexivity|].
  rewrite length_app, IH, Hrow. reflexivity.
Qed.

(** The reshape to 640 entries at the end of the base network fixes the
    number of fields: with dense layers of 64 units and layers that
    keep the shape, the base network returns exactly when the input
    splits add up to the input width and there are ten of them; it then
    returns 640 entries. *)
Theorem base_network_needs_ten_fields
    (input_splits : list nat) (dense_layers : nat -> vec -> vec)
    (use_dropout : bool)
    (dropout transformer_1 transformer_2 : tensor -> tensor) (x : vec) :
  (forall idx piece, List.length (dense_layers idx piece) = 64%nat) ->
  keeps_shape dropout ->
  keeps_shape transformer_1 ->
  keeps_shape transformer_2 ->
  is_ok (_base_network input_splits dense_layers use_dropout
                       dropout transformer_1 transformer_2 x)
  = Nat.eqb (list_sum input_splits) (List.length x)
    && Nat.eqb (List.length input_splits) 10 /\
  forall out,
    _base_network input_splits dense_layers use_dropout
                  dropout transformer_1 transformer_2 x = Ok out ->
    List.length out = 640%nat.
Proof.
  intros Hdense Hdrop Ht1 Ht2. unfold _base_network.
  set (layer := {| softmax_splits := input_splits; output_size := 64;
                   dense_layers := dense_layers |}).
  destruct (split_embedding_call_rows layer x) as [Hok Hout].
  cbn [softmax_splits output_size Layers.dense_layers layer] in Hok, Hout.
  destruct (SplitEmbeddingLayer_call layer x) as [e|err].
  - cbn [rbind]. destruct (Hout e eq_refl) as [Hlen Hrows].
    specialize (Hrows Hdense).
    set (e1 := if use_dropout then dropout e else e).
    assert (H1 : List.length e1 = List.length e /\
                 Forall (fun row => List.length row = 64%nat) e1).
    { unfold e1. destruct use_dropout; [apply Hdrop; exact Hrows|].
      split; [reflexivity | exact Hrows]. }
    destruct H1 as [H1l H1r].
    destruct (Ht1 e1 64%nat H1r) as [H2l H2r].
    destruct (Ht2 (transformer_1 e1) 64%nat H2r) as [H3l H3r].
    unfold Reshape. cbv zeta.
    rewrite (concat_length_rows _ 64 H3r), H3l, H2l, H1l, Hlen.
    simpl in Hok. symmetry in Hok.
    apply andb_prop in Hok as [Hok _]. apply andb_prop in Hok as [Hsum _].
    rewrite Hsum. cbn [andb].
    destruct (Nat.eqb_spec (List.length input_splits * 64) 640) as [E|E].
    + split.
      * symmetry. apply Nat.eqb_eq. lia.
      * intros out H. injection H as <-.
        rewrite (concat_length_rows _ 64 H3r), H3l, H2l, H1l, Hlen.
        exact E.
    + split; [|discriminate].
      symmetry. apply Nat.eqb_neq. lia.
  - cbn [rbind]. split; [|discriminate].
    simpl in Hok.
    destruct (Nat.eqb (list_sum input_splits) (List.length x));
      [|reflexivity].
    cbn [andb] in *.
    destruct (Nat.eqb_spec (List.length input_splits) 10) as [E|];
      [|reflexivity].
    rewrite E in Hok. discriminate Hok.
Qed.

Lemma base_network_needs_ten_fields_witness :
  is_ok (_base_network [1; 1; 1; 1; 1; 1; 1; 1; 1; 1]%nat
                       (fun _ _ => repeat 0 64) false
                       (fun x => x) (fun x => x) (fun x => x)
                       (repeat 0 10))
  = true /\
  is_ok (_base_network [2; 2]%nat
                       (fun _ _ => repeat 0 64) false
                       (fun x => x) (fun x => x) (fun x => x)
                       (repeat 0 4))
  = false.
Proof.
  assert (Hid : keeps_shape (fun x => x)) by (intros x width H; auto).
  split.
  - rewrite (proj1 (base_network_needs_ten_fields
                      [1; 1; 1; 1; 1; 1; 1; 1; 1; 1]%nat
                      (fun _ _ => repeat 0 64) false
                      (fun x => x) (fun x => x) (fun x => x)
                      (repeat 0 10)
                      (fun _ _ => repeat_length 0 64) Hid Hid Hid)).
    reflexivity.
  - rewrite (proj1 (base_network_needs_ten_fields
                      [2; 2]%nat
                      (fun _ _ => repeat 0 64) false
                      (fun x => x) (fun x => x) (fun x => x)
                      (repeat 0 4)
                      (fun _ _ => repeat_length 0 64) Hid Hid Hid)).
    reflexivity.
Defined.

(** ** Attention *)

(** Without a mask, for queries and keys of a common positive depth
    and one value row per key, with at least one key: every row of the
    attention weights holds one positive weight per key and sums to 1;
    there is one row of weights and one output row per query. *)
Theorem attention_weights_are_distributions
    (q k v : tensor) (depth : nat) :
  (0 < depth)%nat ->
  Forall (fun row => List.length row = depth) q ->
  Forall (fun row => List.length row = depth) k ->
  List.length v = List.length k ->
  k <> [] ->
  let out := scaled_dot_product_attention q k v None in
  List.length (fst out) = List.length q /\
  List.length (snd out) = List.length q /\
  Forall (fun row =>
            List.length row = List.length k /\
            Forall (fun w => 0 < w) row /\
            reduce_sum row = 1)
         (snd out).
Proof.
  intros _ _ _ _ Hk. unfold scaled_dot_product_attention, matmul_transpose_b.
  cbv zeta. simpl fst. simpl snd. rewrite !length_map.
  split; [reflexivity|]. split; [reflexivity|].
  rewrite !map_map. apply Forall_map, Forall_forall. intros qi _.
  split; [|split].
  - now rewrite softmax_length, !length_map.
  - apply softmax_pos.
  - apply softmax_sums_to_one. destruct k; [congruence | discriminate].
Qed.

Lemma attention_weights_are_distributions_witness :
  Forall (fun row =>
            List.length row = 2%nat /\
            Forall (fun w => 0 < w) row /\
            reduce_sum row = 1)
         (snd (scaled_dot_product_attention
                 [[1; 0]] [[1; 0]; [0; 1]] [[5]; [7]] None)).
Proof.
  apply (attention_weights_are_distributions
           [[1; 0]] [[1; 0]; [0; 1]] [[5]; [7]] 2).
  - lia.
  - repeat constructor.
  - repeat constructor.
  - reflexivity.
  - discriminate.
Defined.

(** ** Splitting and merging heads *)

Lemma firstn_plus {A} (n m : nat) (l : list A) :
  firstn (n + m) l = (firstn n l ++ firstn m (skipn n l))%list.
Proof.
  revert l. induction n as [|n IH]; intros l; [reflexivity|].
  destruct l as [|a l]; simpl.
  - now rewrite firstn_nil.
  - now rewrite IH.
Qed.

Lemma firstn_skipn_runs (dep : nat) (row : vec) (n a : nat) :
  flat_map (fun h => firstn dep (skipn (h * dep) row)) (seq a n)
  = firstn (n * dep) (skipn (a * dep) row).
Proof.
  revert a. induction n as [|n IH]; intros a; simpl; [reflexivity|].
  rewrite IH, firstn_plus, skipn_skipn. reflexivity.
Qed.

Lemma map_nth_seq (x : tensor) :
  map (fun s => nth s x []) (seq 0 (List.length x)) = x.
Proof.
  induction x as [|row x IH]; simpl; [reflexivity|].
  f_equal. rewrite <- seq_shift, map_map. exact IH.
Qed.

(** Merging the heads that [split_heads] made gives the input back:
    for a layer that the constructor accepted, on rows of [d_model]
    entries. *)
Theorem merge_heads_inverts_split_heads
    (dm heads : nat) (self : MultiHeadAttention) (x : tensor) :
  MultiHeadAttention_init dm heads = inl self ->
  Forall (fun row => List.length row = d_model self) x ->
  merge_heads (split_heads self x) = x.
Proof.
  unfold MultiHeadAttention_init. intros Hinit Hrows.
  destruct (Nat.eqb heads 0) eqn:Hz; [discriminate|].
  destruct (Nat.eqb (dm mod heads) 0) eqn:Hm; [|discriminate].
  injection Hinit as <-. cbn [num_heads depth d_model] in *.
  apply Nat.eqb_neq in Hz. apply Nat.eqb_eq in Hm.
  assert (Hd : dm = (heads * (dm / heads))%nat)
    by (apply Nat.Div0.div_exact; exact Hm).
  unfold merge_heads, split_heads. cbn [num_heads depth d_model].
  set (dep := (dm / heads)%nat) in *.
  match goal with
  | |- map _ (seq 0 ?n) = _ => assert (Hhd : n = List.length x)
  end.
  { destruct heads; [congruence|]. simpl. now rewrite length_map. }
  rewrite Hhd.
  transitivity (map (fun s => nth s x []) (seq 0 (List.length x)));
    [|apply map_nth_seq].
  apply map_ext_in. intros s Hs. apply in_seq in Hs.
  rewrite flat_map_concat_map, map_map, <- flat_map_concat_map.
  transitivity
    (flat_map (fun h0 => firstn dep (skipn (h0 * dep) (nth s x [])))
              (seq 0 heads)).
  - apply flat_map_ext. intros h0. apply nth_error_nth.
    rewrite nth_error_map, (nth_error_nth' x []) by lia. reflexivity.
  - rewrite firstn_skipn_runs. simpl skipn.
    rewrite Forall_forall in Hrows. apply firstn_all2.
    rewrite (Hrows (nth s x [])); [lia|]. apply nth_In. lia.
Qed.

Lemma merge_heads_inverts_split_heads_witness :
  merge_heads
    (split_heads {| num_heads := 2; d_model := 4; depth := 2 |}
                 [[1; 2; 3; 4]; [5; 6; 7; 8]])
  = [[1; 2; 3; 4]; [5; 6; 7; 8]].
Proof.
  apply (merge_heads_inverts_split_heads 4 2).
  - reflexivity.
  - repeat constructor.
Defined.

End LayerFacts.

(* ================================================================== *)
(** * Configuration and loading *)

Section Loading.
Import Py Data DataSpec DataExamples DataMore LoadingSpec.
Local Open Scope string_scope.

(** ** Dictionaries *)

Lemma dict_get_set {V} (k k' : string) (v : V) (d : dict V) :
  dict_get k (dict_set k' v d)
  = if String.eqb k k' then Some v else dict_get k d.
Proof.
  induction d as [|[k0 v0] d IH]; simpl.
  - reflexivity.
  - destruct (String.eqb k' k0) eqn:E'; simpl.
    + apply String.eqb_eq in E'. subst k0.
      destruct (String.eqb k k'); reflexivity.
    + destruct (String.eqb k k0) eqn:E0.
      * apply String.eqb_eq in E0. subst k0.
        rewrite String.eqb_sym in E'. now rewrite E'.
      * exact IH.
Qed.

Lemma mapM_ok_Forall2 {A B} (f : A -> result B) (l : list A) (l' : list B) :
  mapM f l = Ok l' -> Forall2 (fun a b => f a = Ok b) l l'.
Proof.
  revert l'. induction l as [|a l IH]; intros l' H; simpl in H.
  - injection H as <-. constructor.
  - destruct (f a) as [b|e] eqn:Ea; [|discriminate]. simpl in H.
    destruct (mapM f l) as [bs|e]; [|discriminate]. simpl in H.
    injection H as <-. constructor; auto.
Qed.

Lemma mapM_is_ok {A B} (f : A -> result B) (l : list A) :
  is_ok (mapM f l) = forallb (fun a => is_ok (f a)) l.
Proof.
  induction l as [|a l IH]; simpl; [reflexivity|].
  destruct (f a); simpl; [|reflexivity].
  rewrite <- IH. now destruct (mapM f l).
Qed.

(** ** The dense index of a value *)

Lemma design_space_map_sound (range : list Z) (a i : nat) (x : Z) :
  design_space_map (combine range (seq a (List.length range))) x = Some i ->
  (a <= i)%nat /\ nth_error range (i - a) = Some x.
Proof.
  revert a. induction range as [|v range IH]; intros a H; simpl in H.
  - discriminate.
  - destruct (design_space_map _ x) as [j|] eqn:E.
    + injection H as <-. apply IH in E as [Hle Hn]. split; [lia|].
      replace (j - a)%nat with (S (j - S a)) by lia. exact Hn.
    + destruct (Z.eqb v x) eqn:Ev; [|discriminate].
      injection H as <-. apply Z.eqb_eq in Ev. subst.
      split; [lia|]. now rewrite Nat.sub_diag.
Qed.

Lemma design_space_map_complete (range : list Z) (a j : nat) (x : Z) :
  NoDup range ->
  nth_error range j = Some x ->
  design_space_map (combine range (seq a (List.length range))) x
  = Some (a + j)%nat.
Proof.
  intros Hnd. revert a j.
  induction Hnd as [|v range Hv _ IH]; intros a j Hj.
  - destruct j; discriminate.
  - simpl. destruct j as [|j]; simpl in Hj.
    + injection Hj as <-.
      destruct (design_space_map _ v) as [i|] eqn:E.
      * apply design_space_map_sound in E as [_ E].
        apply nth_error_In in E. contradiction.
      * rewrite Z.eqb_refl. f_equal. lia.
    + rewrite (IH (S a) j Hj). f_equal. lia.
Qed.

(** The mapping that [load_or_refresh_config] builds for a field
    recovers positions from values and values from positions: an index
    it returns for [x] is a position of [x] in the value range, and,
    when the range has no repeated value, the value at position [i]
    is mapped to [i]. *)
Theorem dense_index_round_trip (range : list Z) :
  NoDup range ->
  forall i x,
    nth_error range i = Some x <->
    design_space_map (combine range (seq 0 (List.length range))) x = Some i.
Proof.
  intros Hnd i x. split; intros H.
  - now apply (design_space_map_complete range 0 i x).
  - apply design_space_map_sound in H as [_ H].
    now rewrite Nat.sub_0_r in H.
Qed.

Lemma dense_index_round_trip_witness :
  nth_error [4; 8; 16; 32]%Z 2 = Some 16%Z <->
  design_space_map (combine [4; 8; 16; 32]%Z (seq 0 4)) 16%Z = Some 2%nat.
Proof.
  apply (dense_index_round_trip [4; 8; 16; 32]%Z).
  repeat constructor; simpl; intuition discriminate.
Defined.

(** ** Loading the configuration *)

Lemma dict_has_set {V} (k k' : string) (v : V) (d : dict V) :
  dict_has k (dict_set k' v d) = String.eqb k k' || dict_has k d.
Proof.
  unfold dict_has. rewrite dict_get_set.
  now destruct (String.eqb k k').
Qed.

Lemma load_lines_inv (lines : list config_line)
      (space : dict ind_field) (lengths : list nat) :
  space_ok space lengths ->
  space_ok (fst (load_lines lines (List.length lengths) space lengths))
           (snd (load_lines lines (List.length lengths) space lengths)) /\
  forall key,
    dict_has key (fst (load_lines lines (List.length lengths) space lengths))
    = dict_has key space || names_key lines key.
Proof.
  revert space lengths.
  induction lines as [|[[dt name] range] lines IH]; intros space lengths Hok.
  - simpl. split; [exact Hok|]. intros key. now rewrite orb_false_r.
  - cbn [load_lines].
    set (ind := {| data_type := dt; value_range := range;
                   mapping_one_hot_to_value :=
                     combine range (seq 0 (List.length range));
                   ctr := List.length lengths |}).
    assert (Hok' : space_ok (dict_set name ind space)
                            (lengths ++ [List.length range])).
    { intros key ind0. rewrite dict_get_set.
      destruct (String.eqb key name).
      - intros H. injection H as <-. simpl. split; [|reflexivity].
        rewrite nth_error_app2, Nat.sub_diag by lia. reflexivity.
      - intros H. destruct (Hok key ind0 H) as [Hn Hm]. split; [|exact Hm].
        rewrite nth_error_app1; [exact Hn|].
        apply nth_error_Some. rewrite Hn. discriminate. }
    specialize (IH (dict_set name ind space)
                   (lengths ++ [List.length range])%list Hok').
    rewrite length_app in IH. simpl in IH.
    replace (List.length lengths + 1)%nat with (S (List.length lengths))
      in IH by lia.
    destruct IH as [IH1 IH2]. split; [exact IH1|].
    intros key. rewrite IH2, dict_has_set. unfold names_key, line_name.
    simpl.
    destruct (String.eqb key name); destruct (dict_has key space);
      reflexivity.
Qed.

Lemma segment_length_ok space lengths key :
  space_ok space lengths ->
  is_ok (segment_length space lengths key) = dict_has key space /\
  forall n, segment_length space lengths key = Ok n ->
            exists ind, dict_get key space = Some ind /\
                        n = List.length (value_range ind).
Proof.
  intros Hok. unfold segment_length, getitem, dict_has.
  destruct (dict_get key space) as [ind|] eqn:E; simpl.
  - destruct (Hok key ind E) as [Hn _]. rewrite Hn. split; [reflexivity|].
    intros n H. injection H as <-. now exists ind.
  - split; [reflexivity | discriminate].
Qed.

Lemma forallb_ext_all {A} (f g : A -> bool) (l : list A) :
  (forall a, f a = g a) -> forallb f l = forallb g l.
Proof. intros H. induction l; simpl; [reflexivity|]. now rewrite H, IHl. Qed.

Lemma space_ok_nil : space_ok [] [].
Proof. intros key ind H. discriminate H. Qed.

Lemma load_or_refresh_config_is_ok (config : list config_line) :
  is_ok (load_or_refresh_config config)
  = forallb (names_key config) _active_training_keys.
Proof.
  unfold load_or_refresh_config.
  destruct (load_lines_inv config [] [] space_ok_nil) as [Hok Hhas].
  simpl List.length in *.
  destruct (load_lines config 0 [] []) as [space lengths].
  cbn [fst snd] in *.
  transitivity (is_ok (mapM (segment_length space lengths)
                            _active_training_keys)).
  { destruct (mapM _ _); reflexivity. }
  rewrite mapM_is_ok. apply forallb_ext_all. intros key.
  rewrite (proj1 (segment_length_ok space lengths key Hok)).
  apply Hhas.
Qed.

Lemma load_or_refresh_config_needs_every_active_key_aux
    (config : list config_line) space lengths splits :
  load_or_refresh_config config = Ok (space, lengths, splits) ->
  space_ok space lengths /\
  Forall2 (fun key n =>
             exists ind, dict_get key space = Some ind /\
                         n = List.length (value_range ind))
          _active_training_keys splits /\
  mapM (segment_length space lengths) _active_training_keys = Ok splits.
Proof.
  unfold load_or_refresh_config.
  destruct (load_lines_inv config [] [] space_ok_nil) as [Hok _].
  simpl List.length in *.
  destruct (load_lines config 0 [] []) as [space' lengths'].
  cbn [fst snd] in *. intros H.
  destruct (mapM _ _) as [sl|e] eqn:E; [|discriminate].
  cbn [rbind] in H. injection H as <- <- <-. split; [exact Hok|].
  split; [|exact E].
  apply mapM_ok_Forall2 in E.
  eapply Forall2_impl; [|exact E].
  intros key n Hn. now apply (segment_length_ok space' lengths' key Hok).
Qed.

(** [load_or_refresh_config] returns exactly when every active
    training key is the name of some line of the configuration; the
    split lengths it returns are the sizes of the value ranges of the
    ten active keys, in the order of the keys. *)
Theorem load_or_refresh_config_needs_every_active_key
    (config : list config_line) :
  is_ok (load_or_refresh_config config)
  = forallb (names_key config) _active_training_keys /\
  forall space lengths splits,
    load_or_refresh_config config = Ok (space, lengths, splits) ->
    space_ok space lengths /\
    Forall2 (fun key n =>
               exists ind, dict_get key space = Some ind /\
                           n = List.length (value_range ind))
            _active_training_keys splits.
Proof.
  split; [apply load_or_refresh_config_is_ok|].
  intros space lengths splits H.
  destruct (load_or_refresh_config_needs_every_active_key_aux
              config space lengths splits H) as (H1 & H2 & _).
  now split.
Qed.

Lemma load_or_refresh_config_needs_every_active_key_witness :
  is_ok (load_or_refresh_config config) = true /\
  is_ok (load_or_refresh_config (tl config)) = false.
Proof.
  split.
  - rewrite (proj1 (load_or_refresh_config_needs_every_active_key config)).
    reflexivity.
  - rewrite (proj1 (load_or_refresh_config_needs_every_active_key
                      (tl config))).
    reflexivity.
Defined.

End Loading.

(* ================================================================== *)
(** * Loaded datasets and batches *)

Section Batches.
Import Py Data DataSpec DataExamples DataMore LoadingSpec.
Local Open Scope string_scope.

Lemma init_inv config data ds :
  PRIMEDataset_init config data = Ok ds ->
  exists tf,
    load_or_refresh_config config
    = Ok (_design_space_dict ds, _segment_lengths ds, split_lengths ds) /\
    _convert_to_tf_dataset (_design_space_dict ds) data = Ok tf /\
    get_score_function tf = Ok (_tf_dataset ds) /\
    _top ds = List.length (column "infeasible" data).
Proof.
  unfold PRIMEDataset_init. intros H.
  apply rbind_ok_inv in H as ([[space lengths] splits] & Hload & H).
  apply rbind_ok_inv in H as (tf & Htf & H).
  apply rbind_ok_inv in H as (tf' & Hscore & H). injection H as <-. simpl.
  exists tf. repeat split; try assumption.
  unfold _convert_to_tf_dataset in Htf.
  apply rbind_ok_inv in Htf as (cols & _ & Htf). injection Htf as <-.
  simpl. now rewrite !length_map.
Qed.

Lemma dict_get_of_mapM {B} (f : string -> result (string * B))
      (keys : list string) (cols : list (string * B)) :
  (forall k c, f k = Ok c -> fst c = k) ->
  NoDup keys ->
  mapM f keys = Ok cols ->
  forall k, In k keys ->
            exists v, f k = Ok (k, v) /\ dict_get k cols = Some v.
Proof.
  intros Hf Hnd. revert cols.
  induction Hnd as [|k0 keys Hk0 _ IH]; intros cols H k Hin;
    [contradiction|].
  simpl in H. destruct (f k0) as [[k0' v0]|e] eqn:E0; [|discriminate].
  simpl in H. destruct (mapM f keys) as [cs|e] eqn:Ecs; [|discriminate].
  simpl in H. injection H as <-.
  pose proof (Hf k0 _ E0) as Hfst. simpl in Hfst. subst k0'.
  destruct Hin as [<-|Hin].
  - exists v0. split; [exact E0|]. simpl. now rewrite String.eqb_refl.
  - destruct (IH cs eq_refl k Hin) as (v & Hv & Hget).
    exists v. split; [exact Hv|]. simpl.
    destruct (String.eqb k k0) eqn:E; [|exact Hget].
    apply String.eqb_eq in E. subst. contradiction.
Qed.

Lemma active_keys_nodup : NoDup _active_training_keys.
Proof.
  unfold _active_training_keys.
  repeat (constructor; [simpl; intuition discriminate|]). constructor.
Qed.

Lemma Forall2_map_l {A B C} (R : B -> C -> Prop) (f : A -> B)
      (l : list A) (l' : list C) :
  Forall2 R (map f l) l' -> Forall2 (fun a c => R (f a) c) l l'.
Proof.
  revert l'. induction l as [|a l IH]; intros l' H; inversion H; subst;
    constructor; auto.
Qed.

(** A dataset is loaded only if the int32 conversion of every raw
    value of a training field lies in the declared value range of the
    field (the raw value itself need not: 256.7 is converted to 256
    first).  The training column then holds, for each record that has
    the key, the index of the converted value in the value range. *)
Theorem loaded_indices_decode_to_raw_values
    (config : list config_line) (data : list record) (ds : PRIMEDataset)
    (key : string) :
  PRIMEDataset_init config data = Ok ds ->
  In key _active_training_keys ->
  exists ind col,
    dict_get key (_design_space_dict ds) = Some ind /\
    dict_get key (params (_tf_dataset ds)) = Some col /\
    Forall (fun raw => In (to_int32 raw) (value_range ind))
           (column key data) /\
    Forall2 (decodes_to ind) (column key data) col.
Proof.
  intros Hinit Hin.
  destruct (init_inv _ _ _ Hinit) as (tf & Hload & Htf & Hds & _).
  destruct (load_or_refresh_config_needs_every_active_key_aux config _ _ _
              Hload) as [Hok _].
  unfold _convert_to_tf_dataset in Htf.
  apply rbind_ok_inv in Htf as (cols & Hcols & Htf). injection Htf as <-.
  apply get_score_function_ok in Hds as [_ ->]. simpl params.
  destruct (dict_get_of_mapM (convert_param (_design_space_dict ds) data)
              _active_training_keys cols) with (k := key)
    as (out & Hconv & Hget); auto using active_keys_nodup.
  { intros k c Hc. unfold convert_param in Hc.
    apply rbind_ok_inv in Hc as (ind & _ & Hc).
    apply rbind_ok_inv in Hc as (o & _ & Hc). now injection Hc as <-. }
  unfold convert_param in Hconv.
  apply rbind_ok_inv in Hconv as (ind & Hind & Hconv).
  apply rbind_ok_inv in Hconv as (o & Hmap & Hconv).
  injection Hconv as <-.
  unfold getitem in Hind.
  destruct (dict_get key (_design_space_dict ds)) as [ind'|] eqn:Eind;
    [|discriminate].
  injection Hind as ->.
  assert (Hdec : Forall2 (decodes_to ind) (column key data) o).
  { apply mapM_ok_Forall2, Forall2_map_l in Hmap.
    eapply Forall2_impl; [|exact Hmap].
    intros raw idx H. simpl in H.
    destruct (design_space_map _ _) as [i|] eqn:E; [|discriminate].
    injection H as <-. exists i. split; [reflexivity|].
    rewrite (proj2 (Hok key ind Eind)) in E.
    apply design_space_map_sound in E as [_ E].
    now rewrite Nat.sub_0_r in E. }
  exists ind, o. split; [reflexivity|]. split; [exact Hget|].
  split; [|exact Hdec].
  clear - Hdec. induction Hdec as [|raw idx raws col Hd _ IH];
    constructor; [|exact IH].
  destruct Hd as (i & _ & Hi). eapply nth_error_In. exact Hi.
Qed.

(** The third record of the example has a fractional raw value for
    ['param_7']: 256.7 is not in the declared range, and is loaded as
    the index of 256. *)
Lemma loaded_indices_decode_to_raw_values_witness :
  exists ind col,
    dict_get "param_7"
             (_design_space_dict LoadingSpec.fractional_dataset) = Some ind /\
    dict_get "param_7" (params (_tf_dataset LoadingSpec.fractional_dataset))
    = Some col /\
    Forall (fun raw => In (to_int32 raw) (value_range ind))
           (column "param_7" LoadingSpec.fractional_records) /\
    Forall2 (decodes_to ind)
            (column "param_7" LoadingSpec.fractional_records) col.
Proof.
  apply (loaded_indices_decode_to_raw_values
           config LoadingSpec.fractional_records
           LoadingSpec.fractional_dataset "param_7").
  - vm_compute. reflexivity.
  - simpl. tauto.
Defined.

(** ** The shape of a batch *)

Lemma gather_length {A} (col : list A) (indices : list nat) (vals : list A) :
  gather col indices = Ok vals -> List.length vals = List.length indices.
Proof.
  intros H. apply mapM_ok_Forall2 in H.
  symmetry. eapply Forall2_length. exact H.
Qed.

Lemma one_hot_length (depth : nat) (i : Z) :
  List.length (one_hot depth i) = depth.
Proof. unfold one_hot. now rewrite length_map, length_seq. Qed.

Lemma input_properties_is_sum (l : list nat) :
  input_properties l = list_sum l.
Proof.
  unfold input_properties.
  assert (H : forall a, fold_left Nat.add l a = (a + list_sum l)%nat).
  { induction l as [|n l IH]; intros a; simpl; [lia|]. rewrite IH. lia. }
  now rewrite H.
Qed.

Lemma row_width (b : nat) (splits : list nat) (elems : list (list (list Q))) :
  Forall2 (fun n t => List.length (nth b t []) = n) splits elems ->
  List.length (flat_map (fun t => nth b t []) elems) = list_sum splits.
Proof.
  induction 1 as [|n t splits elems Hn _ IH]; simpl; [reflexivity|].
  now rewrite length_app, Hn, IH.
Qed.

Lemma Forall2_compose {A B C} (R : A -> B -> Prop) (S : A -> C -> Prop)
      (T : B -> C -> Prop) (la : list A) (lb : list B) (lc : list C) :
  (forall a b c, R a b -> S a c -> T b c) ->
  Forall2 R la lb -> Forall2 S la lc -> Forall2 T lb lc.
Proof.
  intros H HR. revert lc.
  induction HR as [|a b la lb Hab _ IH]; intros lc HS; inversion HS; subst;
    constructor; eauto.
Qed.

Lemma get_batch_shape (ds : PRIMEDataset) (indices : list nat)
      (splits : list nat) (batch_x batch_y : list (list Q)) :
  get_input_splits ds = Ok splits ->
  _get_batch ds indices = Ok (batch_x, batch_y) ->
  List.length batch_x = List.length indices /\
  Forall (fun row => List.length row = input_properties splits) batch_x /\
  List.length batch_y = List.length indices /\
  Forall (fun y => List.length y = 1%nat) batch_y.
Proof.
  unfold get_input_splits, _get_batch. intros Hsplits H.
  apply rbind_ok_inv in H as (elems & Helems & H).
  apply rbind_ok_inv in H as (scores & Hscores & H).
  injection H as <- <-.
  apply mapM_ok_Forall2 in Hsplits. apply mapM_ok_Forall2 in Helems.
  assert (Hshape : Forall2 (fun n t =>
                              List.length t = List.length indices /\
                              Forall (fun r => List.length r = n) t)
                           splits elems).
  { eapply Forall2_compose; [|exact Hsplits|exact Helems].
    intros key n t Hn Ht. simpl in Hn, Ht.
    apply rbind_ok_inv in Ht as (col & _ & Ht).
    apply rbind_ok_inv in Ht as (vals & Hg & Ht).
    apply rbind_ok_inv in Ht as (depth & Hd & Ht).
    injection Ht as <-. rewrite Hn in Hd. injection Hd as <-.
    rewrite length_map. split; [now apply gather_length in Hg|].
    apply Forall_map, Forall_forall. intros v _. apply one_hot_length. }
  rewrite !length_map, length_seq. repeat split.
  - apply Forall_map, Forall_forall. intros b Hb. apply in_seq in Hb.
    rewrite input_properties_is_sum. apply row_width.
    eapply Forall2_impl; [|exact Hshape].
    intros n t [Hlen Hall]. simpl.
    rewrite Forall_forall in Hall. apply Hall, nth_In. lia.
  - now apply gather_length in Hscores.
  - apply Forall_map, Forall_forall. now intros y _.
Qed.

Lemma mapM_ok_Forall {A B} (f : A -> result B) (P : B -> Prop)
      (l : list A) (l' : list B) :
  (forall a b, f a = Ok b -> P b) ->
  mapM f l = Ok l' -> Forall P l'.
Proof.
  intros HP H. apply mapM_ok_Forall2 in H.
  induction H as [|a b l l' Hab _ IH]; constructor; eauto.
Qed.

(** A batch that [_get_batch] returns has one design row and one
    objective row per index; every design row is made of zeros and
    ones and is as wide as [input_properties] says (the sum of the
    input splits); every objective row holds one score. *)
Theorem get_batch_rows_have_the_input_width
    (ds : PRIMEDataset) (indices : list nat)
    (splits : list nat) (batch_x batch_y : list (list Q)) :
  get_input_splits ds = Ok splits ->
  _get_batch ds indices = Ok (batch_x, batch_y) ->
  List.length batch_x = List.length indices /\
  Forall (fun row =>
            List.length row = input_properties splits /\
            Forall (fun e => e = 0%Q \/ e = 1%Q) row)
         batch_x /\
  List.length batch_y = List.length indices /\
  Forall (fun y => List.length y = 1%nat) batch_y.
Proof.
  intros Hsplits H.
  destruct (get_batch_shape _ _ _ _ _ Hsplits H) as (H1 & H2 & H3 & H4).
  split; [exact H1|]. split; [|split; assumption].
  apply Forall_and; [exact H2|]. clear H1 H2 H3 H4.
  unfold _get_batch in H.
  apply rbind_ok_inv in H as (elems & Helems & H).
  apply rbind_ok_inv in H as (scores & _ & H).
  injection H as <- _.
  assert (Hbits : Forall (Forall (Forall (fun e => e = 0%Q \/ e = 1%Q)))
                         elems).
  { eapply mapM_ok_Forall; [|exact Helems].
    intros key t Ht. simpl in Ht.
    apply rbind_ok_inv in Ht as (col & _ & Ht).
    apply rbind_ok_inv in Ht as (vals & _ & Ht).
    apply rbind_ok_inv in Ht as (depth & _ & Ht).
    injection Ht as <-.
    apply Forall_map, Forall_forall. intros v _. unfold one_hot.
    apply Forall_map, Forall_forall. intros j _.
    destruct (Z.eqb (Z.of_nat j) v); auto. }
  apply Forall_map, Forall_forall. intros b _.
  apply Forall_flat_map. eapply Forall_impl; [|exact Hbits].
  intros t Ht. simpl.
  destruct (nth_in_or_default b t []) as [Hin|Hd].
  - rewrite Forall_forall in Ht. now apply Ht.
  - rewrite Hd. constructor.
Qed.

Lemma get_batch_rows_have_the_input_width_witness :
  exists batch_x batch_y,
    _get_batch example_dataset [0; 2; 2]%nat = Ok (batch_x, batch_y) /\
    List.length batch_x = 3%nat /\
    Forall (fun row => List.length row = 77%nat) batch_x.
Proof.
  destruct (_get_batch example_dataset [0; 2; 2]%nat)
    as [[batch_x batch_y]|e] eqn:E; [|vm_compute in E; discriminate E].
  exists batch_x, batch_y. split; [reflexivity|].
  destruct (get_batch_rows_have_the_input_width
              example_dataset [0; 2; 2]%nat
              [10; 10; 7; 10; 7; 11; 7; 4; 5; 6]%nat batch_x batch_y)
    as (Hx & Hw & _).
  - vm_compute. reflexivity.
  - exact E.
  - split; [exact Hx|].
    eapply Forall_impl; [|exact Hw]. intros row Hrow. exact (proj1 Hrow).
Defined.

Lemma choice_length rng pop_size size p indices n :
  as_size size = Ok n ->
  np_random_choice rng pop_size size p = Ok indices ->
  List.length indices = n.
Proof.
  unfold np_random_choice. intros Hs. rewrite Hs. cbn [rbind].
  destruct (_ && _); [discriminate|]. destruct (negb _); [discriminate|].
  destruct (np_sum p) as [s| | |]; try discriminate;
    destruct (existsb _ _); try discriminate.
  destruct (Qeq_bool s 1); [|discriminate].
  intros H. injection H as <-. now rewrite length_map, length_seq.
Qed.

(** A mixed batch of size [B] holds [B] valid and [B] invalid design
    rows of the input width, with [B] objectives each, under the keys
    ['design'], ['objective'], ['invalid/design'] and
    ['invalid/objective']. *)
Theorem get_mixed_batch_shape
    (problem : HardwareOptProblem) (rng : nat -> nat) (B : nat)
    (splits : list nat) (b : batch) :
  _batch_size problem = Some (PyInt (Z.of_nat B)) ->
  get_input_splits (dataset problem) = Ok splits ->
  get_mixed_batch problem rng = Ok b ->
  exists x y xi yi,
    b = [("design", x); ("objective", y);
         ("invalid/design", xi); ("invalid/objective", yi)] /\
    List.length x = B /\ List.length y = B /\
    List.length xi = B /\ List.length yi = B /\
    Forall (fun row => List.length row = input_properties splits) x /\
    Forall (fun row => List.length row = input_properties splits) xi.
Proof.
  intros Hsize Hsplits. unfold get_mixed_batch, get_batch_size_attr.
  rewrite Hsize. cbn [rbind]. intros H.
  assert (Has : as_size (PyInt (Z.of_nat B)) = Ok B).
  { unfold as_size. destruct (Z.ltb_spec (Z.of_nat B) 0); [lia|].
    now rewrite Nat2Z.id. }
  apply rbind_ok_inv in H as (vi & Hvi & H).
  apply rbind_ok_inv in H as (ii & Hii & H).
  apply rbind_ok_inv in H as ([x y] & Hx & H).
  apply rbind_ok_inv in H as ([xi yi] & Hxi & H).
  injection H as <-.
  apply (choice_length _ _ _ _ _ B Has) in Hvi, Hii.
  destruct (get_batch_shape _ _ _ _ _ Hsplits Hx) as (H1 & H2 & H3 & _).
  destruct (get_batch_shape _ _ _ _ _ Hsplits Hxi) as (H4 & H5 & H6 & _).
  exists x, y, xi, yi. split; [reflexivity|].
  repeat split; try assumption; congruence.
Qed.

Lemma get_mixed_batch_shape_witness :
  exists x y xi yi,
    get_mixed_batch BatchExamples.mixed_problem (fun k => k)
    = Ok [("design", x); ("objective", y);
          ("invalid/design", xi); ("invalid/objective", yi)] /\
    List.length x = 2%nat /\ List.length xi = 2%nat /\
    Forall (fun row => List.length row = 77%nat) x /\
    Forall (fun row => List.length row = 77%nat) xi.
Proof.
  destruct (get_mixed_batch BatchExamples.mixed_problem (fun k => k))
    as [b|e] eqn:E; [|vm_compute in E; discriminate E].
  destruct (get_mixed_batch_shape
              BatchExamples.mixed_problem (fun k => k) 2
              [10; 10; 7; 10; 7; 11; 7; 4; 5; 6]%nat b)
    as (x & y & xi & yi & -> & Hx & _ & Hxi & _ & Hw & Hwi).
  - reflexivity.
  - vm_compute. reflexivity.
  - exact E.
  - exists x, y, xi, yi. repeat split; assumption.
Defined.

(** [get_all_batch] draws its indices with [np.random.randint(1, top)].
    With a positive batch size it fails on a dataset of at most one
    record, and the batch it returns is made of records other than
    record 0, feasible or not. *)
Theorem get_all_batch_skips_first_record
    (problem : HardwareOptProblem) (rng : nat -> nat) (B : positive) :
  _batch_size problem = Some (PyInt (Z.pos B)) ->
  ((_top (dataset problem) <= 1)%nat ->
   is_ok (get_all_batch problem rng) = false) /\
  forall b,
    get_all_batch problem rng = Ok b ->
    exists indices x y,
      List.length indices = Pos.to_nat B /\
      Forall (fun i => (1 <= i < _top (dataset problem))%nat) indices /\
      _get_batch (dataset problem) indices = Ok (x, y) /\
      b = [("design", x); ("objective", y)].
Proof.
  intros Hsize.
  unfold get_all_batch, np_random_randint, get_batch_size_attr.
  rewrite Hsize. cbn [rbind as_size Z.ltb Z.compare Z.to_nat]. split.
  - intros Htop.
    destruct (Nat.leb_spec (_top (dataset problem)) 1); [reflexivity | lia].
  - intros b H.
    apply rbind_ok_inv in H as (indices & Hi & H).
    apply rbind_ok_inv in H as ([x y] & Hb & H). injection H as <-.
    destruct (Nat.leb_spec (_top (dataset problem)) 1) as [|Hlt];
      [discriminate|].
    injection Hi as <-. eexists; exists x, y.
    split; [|split; [|split; [exact Hb | reflexivity]]].
    + now rewrite length_map, length_seq.
    + apply Forall_map, Forall_forall. intros k _.
      pose proof (Nat.mod_upper_bound (rng k) (_top (dataset problem) - 1)).
      lia.
Qed.

Lemma get_all_batch_skips_first_record_witness :
  is_ok (get_all_batch BatchExamples.all_problem (fun k => k)) = true /\
  forall b,
    get_all_batch BatchExamples.all_problem (fun k => k) = Ok b ->
    exists indices x y,
      List.length indices = 2%nat /\
      Forall (fun i => (1 <= i < 3)%nat) indices /\
      _get_batch (dataset BatchExamples.all_problem) indices = Ok (x, y) /\
      b = [("design", x); ("objective", y)].
Proof.
  split; [vm_compute; reflexivity|].
  apply (get_all_batch_skips_first_record
           BatchExamples.all_problem (fun k => k) 2%positive).
  reflexivity.
Defined.

(** ** Sizes of the two partitions *)

Lemma count_split (bs : list bool) :
  (count bs + count (map negb bs) = List.length bs)%nat.
Proof.
  unfold count. induction bs as [|[] bs IH]; simpl; lia.
Qed.

(** [valid_invalid_data_size] with [add_area_constraints] (its
    default, which [train_eval_offline] uses) raises at the comparison
    of the stored area with the threshold, on every dataset.  Without
    it, on a dataset with 0/1 flags, it returns the number of records
    with flag 0 and the number of the other records. *)
Theorem valid_invalid_data_size_counts (ds : PRIMEDataset) :
  well_formed ds ->
  is_ok (valid_invalid_data_size ds true) = false /\
  exists valid invalid,
    valid_invalid_data_size ds false = Ok (valid, invalid) /\
    (valid == inject_Z (Z.of_nat (count (feasible_records ds))))%Q /\
    (invalid
     == inject_Z (Z.of_nat (count (map negb (feasible_records ds)))))%Q.
Proof.
  intros Hwf. split; [reflexivity|].
  unfold valid_invalid_data_size.
  rewrite (feasible_array_is_indicator ds Hwf). cbn [rbind].
  set (feasible := feasible_records ds).
  pose proof (Qsum_indicator feasible) as Hs.
  eexists _, _. split; [reflexivity|]. split; [exact Hs|].
  rewrite Hs. unfold indicator. rewrite length_map.
  rewrite <- (count_split feasible) at 1.
  rewrite Nat2Z.inj_add, inject_Z_plus. ring.
Qed.

Lemma valid_invalid_data_size_counts_witness :
  is_ok (valid_invalid_data_size example_dataset true) = false /\
  exists valid invalid,
    valid_invalid_data_size example_dataset false = Ok (valid, invalid) /\
    (valid == 2)%Q /\ (invalid == 1)%Q.
Proof.
  apply (valid_invalid_data_size_counts example_dataset).
  vm_compute.
  repeat (apply Forall_cons;
          [first [left; reflexivity | right; reflexivity]|]).
  apply Forall_nil.
Defined.

End Batches.

(* ================================================================== *)
(** * What the samplers draw *)

Section Sampling.
Import Py Data DataSpec DataExamples DataMore.
Local Open Scope string_scope.
Local Open Scope Q_scope.

Lemma not_in_true_all_zero (bs : list bool) :
  ~ In true bs -> Forall (fun f => f == 0) (indicator bs).
Proof.
  unfold indicator. induction bs as [|[] bs IH]; intros Hn; simpl.
  - constructor.
  - exfalso. apply Hn. now left.
  - constructor; [reflexivity|]. apply IH. intros H. apply Hn. now right.
Qed.

Lemma in_true_dec (bs : list bool) : {In true bs} + {~ In true bs}.
Proof. apply in_dec, Bool.bool_dec. Qed.

Lemma in_true_nth (bs : list bool) :
  In true bs -> exists j, (j < List.length bs)%nat /\ nth j bs false = true.
Proof.
  intros H. destruct (In_nth bs true false H) as (j & Hj & Hn). eauto.
Qed.

Lemma nth_indicator (bs : list bool) (i : nat) :
  nth i (indicator bs) 0 = if nth i bs false then 1 else 0.
Proof.
  unfold indicator. revert i.
  induction bs as [|b bs IH]; intros [|i]; simpl; auto.
Qed.

(** Among normalised 0/1 weights the positive ones are those of the
    entries marked [true]. *)
Lemma positive_weight (bs : list bool) (i : nat) :
  In true bs -> (i < List.length bs)%nat ->
  np_is_positive
    (nth i (map (fun f => np_div f (Qsum (indicator bs))) (indicator bs)) NaN)
  = nth i bs false.
Proof.
  intros Hin Hi. pose proof (count_pos bs Hin) as Hpos.
  pose proof (Qsum_indicator bs) as Hsum.
  set (s := Qsum (indicator bs)) in *.
  assert (Hs : 0 < s).
  { rewrite Hsum. change 0 with (inject_Z 0). rewrite <- Zlt_Qlt. lia. }
  assert (Hnz : Qeq_bool s 0 = false).
  { destruct (Qeq_bool s 0) eqn:E; [|reflexivity].
    apply Qeq_bool_iff in E. rewrite E in Hs. now apply Qlt_irrefl in Hs. }
  rewrite (nth_indep _ NaN (np_div 0 s))
    by (unfold indicator; now rewrite !length_map).
  rewrite (map_nth (fun f => np_div f s)).
  rewrite nth_indicator.
  unfold np_div. rewrite Hnz. simpl.
  destruct (nth i bs false).
  - destruct (Qle_bool (1 / s) 0) eqn:E; [|reflexivity].
    apply Qle_bool_iff in E. exfalso.
    assert (H1 : 0 < 1 / s).
    { unfold Qdiv. rewrite Qmult_1_l. now apply Qinv_lt_0_compat. }
    apply (Qlt_irrefl 0). eapply Qlt_le_trans; eauto.
  - assert (E : Qle_bool (0 / s) 0 = true).
    { apply Qle_bool_iff. unfold Qdiv. rewrite Qmult_0_l. apply Qle_refl. }
    now rewrite E.
Qed.

(** [np.random.choice] with the normalised 0/1 weights of [bs] draws
    entries marked [true] only. *)
Lemma choice_draws_marked rng (bs : list bool) pop_size size indices :
  np_random_choice rng pop_size size
    (map (fun f => np_div f (Qsum (indicator bs))) (indicator bs))
  = Ok indices ->
  Forall (fun i => nth i bs false = true) indices.
Proof.
  intros H. destruct (in_true_dec bs) as [Hin|Hout].
  - unfold np_random_choice in H.
    apply rbind_ok_inv in H as (n & _ & H).
    destruct (_ && _); [discriminate|].
    destruct (Nat.eqb_spec
                (List.length (map (fun f => np_div f (Qsum (indicator bs)))
                                  (indicator bs))) pop_size) as [Hlen|];
      [|discriminate].
    cbn [negb] in H.
    destruct (np_sum _) as [s| | |]; try discriminate;
      destruct (existsb _ _); try discriminate.
    destruct (Qeq_bool s 1); [|discriminate].
    injection H as <-.
    unfold indicator in Hlen. rewrite !length_map in Hlen. subst pop_size.
    set (support := filter _ _).
    assert (Hsup : forall i, In i support -> nth i bs false = true).
    { intros i Hi. apply filter_In in Hi as [Hr Hp].
      apply in_seq in Hr.
      rewrite positive_weight in Hp; [exact Hp | exact Hin | lia]. }
    assert (Hne : support <> []).
    { destruct (in_true_nth bs Hin) as (j & Hj & Hnj).
      assert (Hjs : In j support).
      { apply filter_In. split; [apply in_seq; lia|].
        now rewrite positive_weight. }
      intros E. rewrite E in Hjs. contradiction. }
    apply Forall_map, Forall_forall. intros k _. apply Hsup, nth_In.
    apply Nat.mod_upper_bound. destruct support; [contradiction|discriminate].
  - exfalso. apply not_in_true_all_zero in Hout.
    rewrite (np_div_all_nan _ Hout) in H.
    pose proof (choice_rejects_nan rng pop_size size (indicator bs)) as Hc.
    rewrite H in Hc. discriminate Hc.
Qed.

Lemma init_dataset config data params problem :
  HardwareOptProblem_init config data params = Ok problem ->
  PRIMEDataset_init config data = Ok (dataset problem).
Proof.
  unfold HardwareOptProblem_init. destruct params as [params|]; [|discriminate].
  intros H. apply rbind_ok_inv in H as (ds & Hds & H).
  apply rbind_ok_inv in H as ([fp ip] & _ & H).
  injection H as <-. exact Hds.
Qed.

(** The feasibility of the records of a loaded dataset is the one of
    the raw records, when these carry 0/1 flags. *)
Lemma loaded_flags config data ds :
  Forall complete_record data ->
  PRIMEDataset_init config data = Ok ds ->
  feasible_records ds = map raw_feasible data.
Proof.
  intros Hdata H. unfold PRIMEDataset_init in H.
  apply rbind_ok_inv in H as ([[space lengths] splits] & _ & H).
  apply rbind_ok_inv in H as (tf & Htf & H).
  apply rbind_ok_inv in H as (tf' & _ & H). injection H as <-.
  unfold _convert_to_tf_dataset in Htf.
  apply rbind_ok_inv in Htf as (cols & _ & Htf). injection Htf as <-.
  unfold feasible_records. simpl. rewrite !map_map.
  induction Hdata as [|p data Hi _ IH]; simpl; [reflexivity|].
  unfold raw_feasible at 1.
  destruct Hi as [Hi|Hi]; rewrite Hi; simpl; now rewrite IH.
Qed.

(** The constructor of [HardwareOptProblem] returns only without the
    area constraint, and for a problem built from records that carry
    a 0/1 flag: every record drawn by [get_valid_only_batch] has flag
    0; in [get_mixed_batch] the records drawn for ['design'] have flag
    0 and those drawn for ['invalid/design'] have flag 1. *)
Theorem samplers_respect_the_partition
    config data params problem rng :
  Forall complete_record data ->
  HardwareOptProblem_init config data params = Ok problem ->
  let feasible := map raw_feasible data in
  truthy (_add_area_constraints problem) = false /\
  (forall b,
     get_valid_only_batch problem rng = Ok b ->
     exists indices x y,
       Forall (fun i => nth i feasible false = true) indices /\
       _get_batch (dataset problem) indices = Ok (x, y) /\
       b = [("design", x); ("objective", y)]) /\
  (forall b,
     get_mixed_batch problem rng = Ok b ->
     exists valid_indices invalid_indices x y x_in y_in,
       Forall (fun i => nth i feasible false = true) valid_indices /\
       Forall (fun i => nth i feasible true = false) invalid_indices /\
       _get_batch (dataset problem) valid_indices = Ok (x, y) /\
       _get_batch (dataset problem) invalid_indices = Ok (x_in, y_in) /\
       b = [("design", x); ("objective", y);
            ("invalid/design", x_in); ("invalid/objective", y_in)]).
Proof.
  intros Hdata Hinit feasible.
  pose proof (init_dataset _ _ _ _ Hinit) as Hds.
  pose proof (loaded_dataset_well_formed _ _ _ Hdata Hds) as Hwf.
  pose proof (loaded_flags _ _ _ Hdata Hds) as Hflags.
  fold feasible in Hflags.
  apply init_probs in Hinit.
  apply get_feasible_probs_ok in Hinit as (arr & Harr & Hfp & Hip).
  destruct (feasible_array_ok _ _ _ Harr) as [Hadd _].
  rewrite Hadd, (feasible_array_is_indicator _ Hwf), Hflags in Harr.
  injection Harr as <-. rewrite indicator_negb in Hip.
  assert (Hflip : forall l,
             Forall (fun i => nth i (map negb feasible) false = true) l ->
             Forall (fun i => nth i feasible true = false) l).
  { intros l. apply Forall_impl. intros i Hi.
    change false with (negb true) in Hi. rewrite map_nth in Hi.
    now destruct (nth i feasible true). }
  split; [exact Hadd|]. split; intros b H.
  - unfold get_valid_only_batch in H.
    apply rbind_ok_inv in H as (size & _ & H).
    apply rbind_ok_inv in H as (indices & Hi & H).
    apply rbind_ok_inv in H as ([x y] & Hb & H). injection H as <-.
    rewrite Hfp in Hi. apply choice_draws_marked in Hi.
    exists indices, x, y. auto.
  - unfold get_mixed_batch in H.
    apply rbind_ok_inv in H as (size & _ & H).
    apply rbind_ok_inv in H as (vi & Hvi & H).
    apply rbind_ok_inv in H as (ii & Hii & H).
    apply rbind_ok_inv in H as ([x y] & Hx & H).
    apply rbind_ok_inv in H as ([xi yi] & Hxi & H). injection H as <-.
    rewrite Hfp in Hvi. apply choice_draws_marked in Hvi.
    rewrite Hip in Hii. apply choice_draws_marked in Hii.
    exists vi, ii, x, y, xi, yi. auto 10.
Qed.

Lemma samplers_respect_the_partition_witness :
  is_ok (get_mixed_batch BatchExamples.mixed_problem (fun k => k)) = true /\
  forall b,
    get_mixed_batch BatchExamples.mixed_problem (fun k => k) = Ok b ->
    exists valid_indices invalid_indices x y x_in y_in,
      Forall (fun i => nth i [true; true; false] false = true)
             valid_indices /\
      Forall (fun i => nth i [true; true; false] true = false)
             invalid_indices /\
      _get_batch (dataset BatchExamples.mixed_problem) valid_indices
      = Ok (x, y) /\
      _get_batch (dataset BatchExamples.mixed_problem) invalid_indices
      = Ok (x_in, y_in) /\
      b = [("design", x); ("objective", y);
           ("invalid/design", x_in); ("invalid/objective", y_in)].
Proof.
  split; [vm_compute; reflexivity|].
  refine (proj2 (proj2 (samplers_respect_the_partition
                          config records
                          (Some [("batch_size", PyInt 2);
                                 ("batch_type", PyStr "mixed")])
                          BatchExamples.mixed_problem (fun k => k) _ _))).
  - repeat (apply Forall_cons;
            [first [left; reflexivity | right; reflexivity]|]).
    apply Forall_nil.
  - vm_compute. reflexivity.
Defined.

(** Without the area constraint, on a dataset with 0/1 flags that has
    a record with flag 0 and a record with flag 1, the two vectors
    returned by [get_feasible_probs] are finite, each sums to 1, the
    first is uniform over the records with flag 0 and zero elsewhere,
    the second is uniform over the other records and zero
    elsewhere. *)
Theorem get_feasible_probs_is_uniform_over_flags (ds : PRIMEDataset) :
  well_formed ds ->
  let feasible := feasible_records ds in
  In true feasible ->
  In false feasible ->
  exists probs infeasible_probs,
    get_feasible_probs ds false
    = Ok (map Finite probs, map Finite infeasible_probs) /\
    (Qsum probs == 1)%Q /\
    (Qsum infeasible_probs == 1)%Q /\
    Forall2 Qeq probs (uniform_over feasible) /\
    Forall2 Qeq infeasible_probs (uniform_over (map negb feasible)).
Proof.
  intros Hwf feasible Hin Hout.
  unfold get_feasible_probs.
  rewrite (feasible_array_is_indicator ds Hwf). fold feasible.
  cbn [rbind]. rewrite indicator_negb.
  destruct (normalised_indicator feasible Hin) as (ps & Hps & Hsum & Hu).
  destruct (normalised_indicator (map negb feasible))
    as (ips & Hips & Hsumi & Hui).
  { change true with (negb false). now apply in_map. }
  exists ps, ips. rewrite Hps, Hips. auto.
Qed.

Lemma get_feasible_probs_is_uniform_over_flags_witness :
  exists probs infeasible_probs,
    get_feasible_probs example_dataset false
    = Ok (map Finite probs, map Finite infeasible_probs) /\
    (Qsum probs == 1)%Q /\
    (Qsum infeasible_probs == 1)%Q /\
    Forall2 Qeq probs [1 / 2; 1 / 2; 0]%Q /\
    Forall2 Qeq infeasible_probs [0; 0; 1 / 1]%Q.
Proof.
  apply (get_feasible_probs_is_uniform_over_flags example_dataset).
  - vm_compute.
    repeat (apply Forall_cons;
            [first [left; reflexivity | right; reflexivity]|]).
    apply Forall_nil.
  - vm_compute. auto.
  - vm_compute. auto.
Defined.

End Sampling.

(* ================================================================== *)
(** * The training loop *)

Section TrainingLoop.
Import Py Tensor Model Data DataExamples Training Examples.
Local Open Scope string_scope.

Variable ranking_loss : vec -> vec -> option tensor -> result R.
Variables ranking_trainable_loss_context kendall_correlation_context
  : vec -> vec -> tensor -> R.

Local Abbreviation training_step :=
  (Training.training_step ranking_loss ranking_trainable_loss_context
                          kendall_correlation_context).

Lemma plain_batch_has_no_invalid_design (x y : list (list Q)) :
  dict_get "invalid/design"
           (to_model_batch
              (dict_set "objective" y (dict_set "design" x [])))
  = None.
Proof. reflexivity. Qed.

Lemma unmixed_batch_has_no_invalid_design problem rng b :
  is_str (_batch_type problem) "mixed" = false ->
  get_training_batch problem rng = Ok b ->
  dict_get "invalid/design" (to_model_batch b) = None.
Proof.
  intros Hmixed. unfold get_training_batch. rewrite Hmixed.
  destruct (is_str (_batch_type problem) "valid"); intros H.
  - unfold get_valid_only_batch in H.
    apply rbind_ok_inv in H as (size & _ & H).
    apply rbind_ok_inv in H as (indices & _ & H).
    apply rbind_ok_inv in H as ([x y] & _ & H). injection H as <-.
    apply plain_batch_has_no_invalid_design.
  - unfold get_all_batch in H.
    apply rbind_ok_inv in H as (size & _ & H).
    apply rbind_ok_inv in H as (indices & _ & H).
    apply rbind_ok_inv in H as ([x y] & _ & H). injection H as <-.
    apply plain_batch_has_no_invalid_design.
Qed.

(** An iteration of the training loop returns only for a problem that
    samples mixed batches: with any other [batch_type] the batch has no
    ['invalid/design'], which [measure_stats] (at step 0) and
    [perform_training] read. *)
Theorem training_step_needs_mixed_batches
    (train_problem : HardwareOptProblem) (model : PRIMETransformerModel)
    (rng : nat -> nat) (step : nat) (loss_type : string)
    (ranking_penalty_weight : R) :
  is_str (_batch_type train_problem) "mixed" = false ->
  is_ok (training_step train_problem model rng step loss_type
                       ranking_penalty_weight) = false.
Proof.
  intros Hmixed. unfold Training.training_step.
  destruct (get_training_batch train_problem rng) as [b|e] eqn:Hb;
    [|reflexivity].
  cbn [rbind].
  pose proof (unmixed_batch_has_no_invalid_design _ _ _ Hmixed Hb) as Hnone.
  assert (Hpt : forall lt w,
             is_ok (fst (run (perform_training
                                ranking_loss ranking_trainable_loss_context
                                kendall_correlation_context
                                model (to_model_batch b) lt w))) = false).
  { intros lt w. unfold run, perform_training, bind.
    pose proof (compute_loss_unlabelled_needs_invalid_design
                  ranking_loss ranking_trainable_loss_context
                  kendall_correlation_context
                  model (to_model_batch b) lt true w [] Hnone) as Hcl.
    destruct (compute_loss _ _ _ _ _ _ _ _ _ []) as [[[ld tl]|e] tr'];
      [discriminate Hcl | reflexivity]. }
  destruct (Nat.eqb step 0).
  - assert (Hms : is_ok (fst (run (measure_stats
                                ranking_loss ranking_trainable_loss_context
                                kendall_correlation_context
                                model (to_model_batch b) None))) = false).
    { unfold run, measure_stats, bind.
      pose proof (compute_loss_unlabelled_needs_invalid_design
                    ranking_loss ranking_trainable_loss_context
                    kendall_correlation_context
                    model (to_model_batch b) "mse+rank" false 0%R [] Hnone)
        as Hcl.
      destruct (compute_loss _ _ _ _ _ _ _ _ _ []) as [[[ld tl]|e] tr'];
        [discriminate Hcl | reflexivity]. }
    destruct (fst (run (measure_stats _ _ _ _ _ _))); [discriminate Hms|].
    reflexivity.
  - cbn [rbind]. apply Hpt.
Qed.

End TrainingLoop.

Lemma training_step_needs_mixed_batches_witness :
  Py.is_ok (Data.get_training_batch BatchExamples.valid_problem (fun k => k))
  = true /\
  Py.is_ok (Training.training_step
              Examples.no_ranking Examples.no_context Examples.no_context
              BatchExamples.valid_problem Examples.two_experts
              (fun k => k) 0 "mse" 0%R) = false.
Proof.
  split; [vm_compute; reflexivity|].
  apply (training_step_needs_mixed_batches
           Examples.no_ranking Examples.no_context Examples.no_context
           BatchExamples.valid_problem Examples.two_experts
           (fun k => k) 0 "mse"%string 0%R).
  reflexivity.
Defined.
